(** * Pam-MultiVendor-Lab: rotation, synchronisation, field mapping, health score

    A shallow embedding of the Python sources

      - [src/integrations/aws_secrets_connector.py]  (module [Aws])
      - [src/integrations/secret_sync.py]            (module [Sync])
      - [scripts/aws/rotation_handler.py]            (module [Rotation])
      - [scripts/vault_to_delinea.py]                (module [Migration])
      - the rotation loop of [src/integrations/demo_aws_integration.py]
        (module [Demo])

    followed by the properties of the rotation and synchronisation engine.

    Conventions of the embedding.
      - A Python [str] is a [string]; comparisons, [lower], [title],
        [replace] and [in] act on ASCII text the way CPython does.
      - A [dict] whose iteration order matters is an association list with
        unique keys ([PyDict]); a dict used as a keyed store is a [gmap].
      - An aware UTC [datetime] is the number of microseconds since the
        epoch; [datetime.now(timezone.utc)] reads a clock whose successive
        readings are given by a function of the number of earlier readings.
      - Code that raises is modelled in a state-and-exception monad: the
        state reached when the exception is raised is kept, as in Python.
      - The AWS store is the connector in mock mode, which is the store the
        repository implements; the Vault client is an external collaborator
        and is modelled by its contract (module [Vault]), with the shape of
        response that [tests/test_vault_connection.py] reads.
      - The two stores carry a ghost counter of the write calls they have
        received; nothing in the embedded code reads it. *)

From Stdlib Require Import ZArith QArith Lia List Bool Ascii String DecimalString.
From stdpp Require Import base option list gmap strings.
Import ListNotations.

Local Open Scope string_scope.
Local Open Scope Z_scope.

(** ** Python strings *)

Module Py.

Definition is_upper (c : ascii) : bool :=
  let n := nat_of_ascii c in (Nat.leb 65 n && Nat.leb n 90)%bool.

Definition is_lower (c : ascii) : bool :=
  let n := nat_of_ascii c in (Nat.leb 97 n && Nat.leb n 122)%bool.

(** [c.isalpha()] on ASCII; these are also the cased characters. *)
Definition is_cased (c : ascii) : bool := (is_upper c || is_lower c)%bool.

Definition lower_char (c : ascii) : ascii :=
  if is_upper c then ascii_of_nat (nat_of_ascii c + 32) else c.

Definition upper_char (c : ascii) : ascii :=
  if is_lower c then ascii_of_nat (nat_of_ascii c - 32) else c.

(** [s.lower()] *)
Fixpoint lower (s : string) : string :=
  match s with
  | EmptyString => EmptyString
  | String c s' => String (lower_char c) (lower s')
  end.

(** [s.title()]: a character that follows a cased character is lowered,
    any other character is upper-cased. *)
Fixpoint title_from (previous_is_cased : bool) (s : string) : string :=
  match s with
  | EmptyString => EmptyString
  | String c s' =>
      String (if previous_is_cased then lower_char c else upper_char c)
             (title_from (is_cased c) s')
  end.

Definition title (s : string) : string := title_from false s.

(** [pat in s] *)
Fixpoint contains (pat s : string) : bool :=
  (String.prefix pat s ||
   match s with
   | EmptyString => false
   | String _ s' => contains pat s'
   end)%bool.

(** [s.replace(old, new)] for a non-empty [old]: occurrences are replaced
    left to right without overlap.  [skip] counts the characters of a
    matched occurrence that remain to be dropped. *)
Fixpoint replace_from (old new : string) (skip : nat) (s : string) : string :=
  match s with
  | EmptyString => EmptyString
  | String c s' =>
      match skip with
      | S k => replace_from old new k s'
      | O =>
          if String.prefix old s
          then new +:+ replace_from old new (String.length old - 1) s'
          else String c (replace_from old new 0 s')
      end
  end.

Definition replace (old new s : string) : string := replace_from old new 0 s.

(** The text before the first occurrence of a non-empty [sep], or all of
    [s]: this is [s.split(sep)[0]]. *)
Fixpoint before_first (sep s : string) : string :=
  match s with
  | EmptyString => EmptyString
  | String c s' =>
      if String.prefix sep s then EmptyString else String c (before_first sep s')
  end.

(** The text after the first occurrence of a non-empty [sep]. *)
Fixpoint after_first (sep s : string) : option string :=
  match s with
  | EmptyString => None
  | String c s' =>
      if String.prefix sep s
      then Some (String.substring (String.length sep) (String.length s) s)
      else after_first sep s'
  end.

(** [a > b] on [str]: lexicographic order on code points. *)
Definition str_gt (a b : string) : bool :=
  match String.compare a b with Gt => true | _ => false end.

(** [str(n)] for an [int]. *)
Definition str_of_int (n : Z) : string := NilZero.string_of_int (Z.to_int n).

(** Truth value of a [str]. *)
Definition truthy (s : string) : bool :=
  match s with EmptyString => false | _ => true end.

(** [sep.join(l)] *)
Fixpoint join (sep : string) (l : list string) : string :=
  match l with
  | [] => EmptyString
  | [x] => x
  | x :: rest => x +:+ sep +:+ join sep rest
  end.

(** *** Values and insertion-ordered dictionaries *)

#[warnings="-register-all"]
Inductive PyVal :=
  | PNone
  | PBool (b : bool)
  | PStr (s : string)
  | PInt (n : Z)
  | PDict (d : list (string * PyVal)).

(** [repr(v)].  The rendering of a text is the one CPython gives for a text
    that needs no escaping: no quote, backslash or control character. *)
Fixpoint repr (v : PyVal) : string :=
  match v with
  | PNone => "None"
  | PBool b => if b then "True" else "False"
  | PStr s => "'" +:+ s +:+ "'"
  | PInt n => str_of_int n
  | PDict d =>
      "{" +:+
      join ", "
        ((fix items (d : list (string * PyVal)) : list string :=
            match d with
            | [] => []
            | (k, x) :: d' => ("'" +:+ k +:+ "': " +:+ repr x) :: items d'
            end) d) +:+
      "}"
  end.

(** [str(v)] *)
Definition str (v : PyVal) : string :=
  match v with
  | PStr s => s
  | _ => repr v
  end.

Section Dict.
Context {V : Type}.

Fixpoint dict_get (k : string) (d : list (string * V)) : option V :=
  match d with
  | [] => None
  | (k', v) :: d' => if String.eqb k' k then Some v else dict_get k d'
  end.

(** [d[k] = v]: an existing key keeps its position, a new key goes last. *)
Fixpoint dict_set (k : string) (v : V) (d : list (string * V)) : list (string * V) :=
  match d with
  | [] => [(k, v)]
  | (k', v') :: d' =>
      if String.eqb k' k then (k', v) :: d' else (k', v') :: dict_set k v d'
  end.

(** [{**d1, **d2}] *)
Definition dict_merge (d1 d2 : list (string * V)) : list (string * V) :=
  fold_left (fun d kv => dict_set (fst kv) (snd kv) d) d2 d1.
End Dict.

Definition PyDict := list (string * PyVal).

(** [v == w] on the values of the model.  A [bool] is an [int], so
    [True == 1].  Two dictionaries are equal when they have the same keys
    with equal values, whatever the insertion order; an entry that repeats
    the key of an earlier entry ([seen]) is not part of the dictionary. *)
Fixpoint val_eqb (v w : PyVal) {struct v} : bool :=
  match v, w with
  | PNone, PNone => true
  | PBool a, PBool b => Bool.eqb a b
  | PBool a, PInt n => Z.eqb (Z.b2z a) n
  | PInt n, PBool a => Z.eqb n (Z.b2z a)
  | PStr a, PStr b => String.eqb a b
  | PInt a, PInt b => Z.eqb a b
  | PDict d1, PDict d2 =>
      ((fix entries (seen : list string) (d : list (string * PyVal))
            {struct d} : bool :=
          match d with
          | [] => true
          | (k, x) :: d' =>
              ((existsb (String.eqb k) seen ||
                match dict_get k d2 with
                | Some y => val_eqb x y
                | None => false
                end) &&
               entries (k :: seen) d')
          end) [] d1 &&
       forallb (fun k => bool_decide (is_Some (dict_get k d1)))
         (List.map fst d2))%bool
  | _, _ => false
  end.

(** [d1 == d2] on dictionaries. *)
Definition dict_eqb (d1 d2 : PyDict) : bool := val_eqb (PDict d1) (PDict d2).

End Py.

(** ** [datetime] and [timedelta] *)

Module DateTime.

(** Microseconds since 1970-01-01T00:00:00+00:00. *)
Definition t := Z.

Definition us_per_second : Z := 1000000.
Definition us_per_day : Z := 86400 * us_per_second.

(** [timedelta(days=n)] in microseconds. *)
Definition timedelta_days (n : Z) : Z := n * us_per_day.

(** [datetime.min] and [datetime.max] in UTC: 0001-01-01T00:00:00 and
    9999-12-31T23:59:59.999999. *)
Definition min_us : Z := -62135596800000000.
Definition max_us : Z := 253402300799999999.

(** [dt + timedelta(days=n)] for an [int] [n], which raises [OverflowError]
    with the text on the left: from the constructor of the [timedelta]
    when [n] does not fit a C [int] or exceeds 999999999 in magnitude, and
    from the addition when the sum leaves the range of [datetime]. *)
Definition add_days (dt : t) (n : Z) : string + t :=
  if ((n <? -2147483648) || (2147483647 <? n))%bool then
    inl "Python int too large to convert to C int"
  else if 999999999 <? Z.abs n then
    inl ("days=" +:+ Py.str_of_int n +:+ "; must have magnitude <= 999999999")
  else if ((dt + timedelta_days n <? min_us) || (max_us <? dt + timedelta_days n))%bool then
    inl "date value out of range"
  else inr (dt + timedelta_days n).

(** [(a - b).days]: a [timedelta] is normalised with [0 <= seconds], so
    [days] is the floor of the quotient. *)
Definition days_between (a b : t) : Z := (a - b) / us_per_day.

(** [(a - b).total_seconds()] as an exact rational. *)
Definition total_seconds (a b : t) : Q := Qmake (a - b) 1000000.

(** Proleptic Gregorian date of a day number counted from the epoch. *)
Definition civil_from_days (days : Z) : Z * Z * Z :=
  let z := days + 719468 in
  let era := z / 146097 in
  let doe := z - era * 146097 in
  let yoe := (doe - doe / 1460 + doe / 36524 - doe / 146096) / 365 in
  let y := yoe + era * 400 in
  let doy := doe - (365 * yoe + yoe / 4 - yoe / 100) in
  let mp := (5 * doy + 2) / 153 in
  let d := doy - (153 * mp + 2) / 5 + 1 in
  let m := if mp <? 10 then mp + 3 else mp - 9 in
  (if m <=? 2 then y + 1 else y, m, d).

(** Decimal rendering of [n], left-padded with zeros to [width] digits. *)
Definition pad (width : nat) (n : Z) : string :=
  let s := Py.str_of_int n in
  String.concat "" (repeat "0" (width - String.length s)) +:+ s.

(** The part of the rendering that does not depend on the zone suffix; the
    fraction is printed only when the microsecond field is not zero. *)
Definition date_time_part (dt : t) : string :=
  let days := dt / us_per_day in
  let rest := dt mod us_per_day in
  let '(y, m, d) := civil_from_days days in
  let secs := rest / us_per_second in
  let us := rest mod us_per_second in
  pad 4 y +:+ "-" +:+ pad 2 m +:+ "-" +:+ pad 2 d +:+ "T" +:+
  pad 2 (secs / 3600) +:+ ":" +:+ pad 2 (secs / 60 mod 60) +:+ ":" +:+
  pad 2 (secs mod 60) +:+
  (if us =? 0 then "" else "." +:+ pad 6 us).

(** [dt.isoformat()] of an aware UTC datetime. *)
Definition isoformat (dt : t) : string := date_time_part dt +:+ "+00:00".

(** The RFC 3339 rendering with the [Z] suffix, as a KV store reports the
    creation time of a version. *)
Definition rfc3339 (dt : t) : string := date_time_part dt +:+ "Z".

End DateTime.

(** ** Effects: clock, random choices, state and exceptions *)

Module Eff.

Inductive Exn :=
  | ValueError (msg : string)
  | AttributeError (msg : string)
  | OverflowError (msg : string)
  | Exception (msg : string).

(** [str(e)] *)
Definition exn_str (e : Exn) : string :=
  match e with
  | ValueError m | AttributeError m | OverflowError m | Exception m => m
  end.

(** What the process reads from outside: the [n]-th reading of the clock and
    the [n]-th value drawn from the system's random source. *)
Record Env := {
  clock : nat -> DateTime.t;
  random : nat -> nat;
}.

Record Counters := {
  now_calls : nat;
  rng_calls : nat;
}.

(** A computation over a state [St] that returns an [A] or raises. *)
Definition M (St A : Type) : Type :=
  Env -> Counters -> St -> (Exn + A) * Counters * St.

Definition ret {St A} (x : A) : M St A :=
  fun _ c s => (inr x, c, s).

Definition bind {St A B} (m : M St A) (f : A -> M St B) : M St B :=
  fun e c s =>
    match m e c s with
    | (inl x, c', s') => (inl x, c', s')
    | (inr a, c', s') => f a e c' s'
    end.

Definition raise {St A} (x : Exn) : M St A :=
  fun _ c s => (inl x, c, s).

(** [try: m  except Exception as x: h x] *)
Definition try_except {St A} (m : M St A) (h : Exn -> M St A) : M St A :=
  fun e c s =>
    match m e c s with
    | (inl x, c', s') => h x e c' s'
    | (inr a, c', s') => (inr a, c', s')
    end.

Definition gets {St A} (f : St -> A) : M St A :=
  fun _ c s => (inr (f s), c, s).

Definition modify {St} (f : St -> St) : M St unit :=
  fun _ c s => (inr tt, c, f s).

(** [datetime.now(timezone.utc)] *)
Definition now {St} : M St DateTime.t :=
  fun e c s =>
    (inr (clock e (now_calls c)),
     {| now_calls := S (now_calls c); rng_calls := rng_calls c |}, s).

(** [secrets.randbelow(n)] *)
Definition randbelow {St} (n : nat) : M St nat :=
  fun e c s =>
    (inr (random e (rng_calls c) mod n)%nat,
     {| now_calls := now_calls c; rng_calls := S (rng_calls c) |}, s).

(** Runs a computation of a component on the part of the state it owns. *)
Definition zoom {St T A} (get : St -> T) (set : T -> St -> St) (m : M T A) : M St A :=
  fun e c s =>
    match m e c (get s) with
    | (r, c', t') => (r, c', set t' s)
    end.

End Eff.

Notation "x <- m ;; k" := (Eff.bind m (fun x => k))
  (at level 100, m at next level, right associativity,
   format "'[v' x  <-  m  ;;  '/' k ']'").
Notation "m ;;; k" := (Eff.bind m (fun _ => k))
  (at level 100, right associativity).

(** ** [aws_secrets_connector.py] *)

Module Aws.

Import Eff.

(** [Union[str, Dict[str, Any]]] *)
Inductive SecretValue :=
  | SVStr (s : string)
  | SVDict (d : Py.PyDict).

Record SecretMetadata := {
  name : string;
  arn : string;
  description : option string;
  last_changed : option DateTime.t;
  last_accessed : option DateTime.t;
  rotation_enabled : bool;
  rotation_lambda_arn : option string;
  tags : gmap string string;
  version_id : string;
  created_date : option DateTime.t;
}.

(** An entry of [_mock_secrets]. *)
Record MockSecret := {
  ms_secret_value : SecretValue;
  ms_description : option string;
  ms_tags : gmap string string;
  ms_version_id : string;
  ms_created : DateTime.t;
  ms_last_changed : DateTime.t;
}.

(** The connector in mock mode ([mock_mode = True], [client = None]), the
    only store implementation the repository contains. *)
Record AWSSecretsConnector := {
  _mock_secrets : gmap string MockSecret;
  (** Ghost counter: the number of [create_secret] and [update_secret]
      calls the connector has carried out. *)
  aws_writes : nat;
}.

(** The dictionary [{'arn', 'name', 'version_id'}] returned by a write. *)
Record WriteResult := {
  wr_arn : string;
  wr_name : string;
  wr_version_id : string;
}.

(** The dictionary returned by [get_secret]; [gs_created_date] is what
    [.get('created_date')] yields. *)
Record GetResult := {
  gs_name : string;
  gs_arn : string;
  gs_version_id : string;
  gs_secret_data : SecretValue;
  gs_created_date : option DateTime.t;
  gs_last_accessed : DateTime.t;
}.

Definition mock_arn (name : string) : string :=
  "arn:aws:secretsmanager:us-east-1:123456789012:secret:" +:+ name.

Definition _mock_create_secret (name : string) (secret_value : SecretValue)
    (description : option string) (tags : option (gmap string string))
  : M AWSSecretsConnector WriteResult :=
  secrets <- gets _mock_secrets ;;
  match secrets !! name with
  | Some _ => raise (ValueError ("Secret " +:+ name +:+ " already exists"))
  | None =>
      created <- now ;;
      last_changed <- now ;;
      modify (fun c =>
        {| _mock_secrets :=
             <[name := {| ms_secret_value := secret_value;
                          ms_description := description;
                          ms_tags := default ∅ tags;
                          ms_version_id := "v1";
                          ms_created := created;
                          ms_last_changed := last_changed |}]>
               (_mock_secrets c);
           aws_writes := S (aws_writes c) |}) ;;;
      ret {| wr_arn := mock_arn name; wr_name := name; wr_version_id := "v1" |}
  end.

Definition _mock_get_secret (name : string) (version_id : option string)
  : M AWSSecretsConnector GetResult :=
  secrets <- gets _mock_secrets ;;
  match secrets !! name with
  | None => raise (ValueError ("Secret " +:+ name +:+ " not found"))
  | Some secret =>
      last_accessed <- now ;;
      ret {| gs_name := name;
             gs_arn := mock_arn name;
             gs_version_id := ms_version_id secret;
             gs_secret_data := ms_secret_value secret;
             gs_created_date := Some (ms_created secret);
             gs_last_accessed := last_accessed |}
  end.

(** [if description:] holds for a non-empty string only. *)
Definition description_given (description : option string) : bool :=
  match description with
  | Some d => Py.truthy d
  | None => false
  end.

Definition _mock_update_secret (name : string) (secret_value : SecretValue)
    (description : option string)
  : M AWSSecretsConnector WriteResult :=
  secrets <- gets _mock_secrets ;;
  match secrets !! name with
  | None => raise (ValueError ("Secret " +:+ name +:+ " not found"))
  | Some secret =>
      last_changed <- now ;;
      modify (fun c =>
        {| _mock_secrets :=
             <[name := {| ms_secret_value := secret_value;
                          ms_description :=
                            if description_given description then description
                            else ms_description secret;
                          ms_tags := ms_tags secret;
                          ms_version_id := ms_version_id secret;
                          ms_created := ms_created secret;
                          ms_last_changed := last_changed |}]>
               (_mock_secrets c);
           aws_writes := S (aws_writes c) |}) ;;;
      ret {| wr_arn := mock_arn name; wr_name := name; wr_version_id := "v2" |}
  end.

(** The public operations dispatch to the mock implementation. *)
Definition create_secret := _mock_create_secret.
Definition get_secret (name : string) := _mock_get_secret name None.
Definition update_secret := _mock_update_secret.

(** The dictionary [{'arn', 'name', 'deletion_date'}] returned by a
    deletion. *)
Record DeleteResult := {
  dr_arn : string;
  dr_name : string;
  dr_deletion_date : DateTime.t;
}.

Definition _mock_delete_secret (name : string)
  : M AWSSecretsConnector DeleteResult :=
  secrets <- gets _mock_secrets ;;
  match secrets !! name with
  | None => raise (ValueError ("Secret " +:+ name +:+ " not found"))
  | Some _ =>
      modify (fun c =>
        {| _mock_secrets := delete name (_mock_secrets c);
           aws_writes := aws_writes c |}) ;;;
      deletion_date <- now ;;
      ret {| dr_arn := mock_arn name; dr_name := name;
             dr_deletion_date := deletion_date |}
  end.

(** [delete_secret(name, recovery_window_days, force_delete)]: the mock
    ignores the recovery window. *)
Definition delete_secret (name : string) (recovery_window_days : Z)
    (force_delete : bool) := _mock_delete_secret name.

(** The [SecretMetadata] that [_mock_list_secrets] builds for one entry. *)
Definition mock_metadata (name : string) (data : MockSecret) : SecretMetadata :=
  {| name := name;
     arn := mock_arn name;
     description := ms_description data;
     last_changed := Some (ms_last_changed data);
     last_accessed := None;
     rotation_enabled := false;
     rotation_lambda_arn := None;
     tags := ms_tags data;
     version_id := ms_version_id data;
     created_date := Some (ms_created data) |}.

(** The source lists the entries in insertion order; the keyed store does
    not record that order, so the listing here is in key order.  Only its
    members are to be relied on. *)
Definition _mock_list_secrets : M AWSSecretsConnector (list SecretMetadata) :=
  secrets <- gets _mock_secrets ;;
  ret ((fun entry => mock_metadata (fst entry) (snd entry)) <$> map_to_list secrets).

(** [list_secrets(max_results, filters)]: the mock ignores both. *)
Definition list_secrets (max_results : Z) := _mock_list_secrets.

(** *** Health score *)

Record HealthScore := {
  hs_secret_name : string;
  health_score : Z;
  status : string;
  issues : list string;
  recommendations : list string;
  last_changed_days : option Z;
  hs_rotation_enabled : bool;
}.

Definition required_tags : list string := ["Environment"; "Owner"; "Application"].

(** The state the staleness check leaves behind: score, issues and
    recommendations. *)
Definition staleness (days_old : Z) : Z * list string * list string :=
  if days_old >? 365 then
    (100 - 40,
     ["Secret is " +:+ Py.str_of_int days_old +:+ " days old (very stale)"],
     ["Rotate secret immediately"])
  else if days_old >? 180 then
    (100 - 25,
     ["Secret is " +:+ Py.str_of_int days_old +:+ " days old (stale)"],
     ["Schedule secret rotation"])
  else if days_old >? 90 then
    (100 - 10,
     ["Secret is " +:+ Py.str_of_int days_old +:+ " days old"],
     ["Consider rotating secret"])
  else (100, [], []).

Definition calculate_secret_health_score {St} (secret_metadata : SecretMetadata)
  : M St HealthScore :=
  (* Check staleness (last changed) *)
  st <- match last_changed secret_metadata with
        | Some lc =>
            t <- now ;;
            ret (staleness (DateTime.days_between t lc))
        | None => ret (100, [], [])
        end ;;
  let '(score, issues, recommendations) := st in
  (* Check rotation enabled *)
  let '(score, issues, recommendations) :=
    if negb (rotation_enabled secret_metadata)
    then (score - 20,
          (issues ++ ["Automatic rotation not enabled"])%list,
          (recommendations ++ ["Enable automatic rotation"])%list)
    else (score, issues, recommendations) in
  (* Check tags *)
  let missing_tags :=
    filter (fun tag => tags secret_metadata !! tag = None) required_tags in
  let '(score, issues, recommendations) :=
    match missing_tags with
    | _ :: _ =>
        (score - 10,
         (issues ++ ["Missing tags: " +:+ Py.join ", " missing_tags])%list,
         (recommendations ++ ["Add required tags for better organization"])%list)
    | [] => (score, issues, recommendations)
    end in
  (* Determine health status *)
  let status :=
    if score >=? 90 then "excellent"
    else if score >=? 75 then "good"
    else if score >=? 50 then "fair"
    else "poor" in
  days <- match last_changed secret_metadata with
          | Some lc => t <- now ;; ret (Some (DateTime.days_between t lc))
          | None => ret None
          end ;;
  ret {| hs_secret_name := name secret_metadata;
         health_score := Z.max 0 score;
         status := status;
         issues := issues;
         recommendations := recommendations;
         last_changed_days := days;
         hs_rotation_enabled := rotation_enabled secret_metadata |}.

End Aws.

(** ** The Vault KV v2 client

    The client is an external collaborator handed to the manager: the
    [hvac] client of the key-value engine, version 2.  It is modelled by
    its contract.  Writing a path stores the data as a new version, numbered
    from 1 and stamped with the time of the write.  Reading a path raises
    when nothing is stored there, and otherwise answers with a response in
    which the stored data and the metadata of the version are both nested
    under the key ['data'], as in
    [response['data']['data']] and [response['data']['metadata']['version']]
    of [tests/test_vault_connection.py]; a response has no ['metadata'] key
    of its own.  ([VaultPAMClient.get_secret] of [scripts/vault_client.py]
    hands out [secret['data']], in which ['metadata'] is a key; the manager
    hands out the response itself.) *)

Module Vault.

Import Eff.

(** What the manager reads of a secret it is handed: the value under
    ['data'] and the dictionary under ['metadata'], if there is one, of
    which it reads ['version'] and ['created_time']. *)
Record Metadata := {
  version : option Z;
  created_time : option string;
}.

Record Secret := {
  data : Py.PyDict;
  metadata : option Metadata;
}.

(** A version as the server keeps it. *)
Record StoredVersion := {
  sv_data : Py.PyDict;
  sv_version : Z;
  sv_created_time : string;
}.

Record Client := {
  kv : gmap string StoredVersion;
  (** Ghost counter: the number of [create_or_update_secret] calls. *)
  vault_writes : nat;
}.

(** [secret.get('metadata', {}).get('version')] *)
Definition get_version (s : Secret) : option Z :=
  match metadata s with Some m => version m | None => None end.

(** [secret.get('metadata', {}).get('created_time')] *)
Definition get_created_time (s : Secret) : option string :=
  match metadata s with Some m => created_time m | None => None end.

(** The metadata the server reports for a version. *)
Definition version_metadata (v : StoredVersion) : Py.PyDict :=
  [("created_time", Py.PStr (sv_created_time v));
   ("custom_metadata", Py.PNone);
   ("deletion_time", Py.PStr EmptyString);
   ("destroyed", Py.PBool false);
   ("version", Py.PInt (sv_version v))].

(** The response to a read, as far as the manager reads it: the envelope
    under ['data'], and no ['metadata'] beside it. *)
Definition response (v : StoredVersion) : Secret :=
  {| data := [("data", Py.PDict (sv_data v));
              ("metadata", Py.PDict (version_metadata v))];
     metadata := None |}.

Definition read_secret_version (path : string) : M Client Secret :=
  store <- gets kv ;;
  match store !! path with
  | Some v => ret (response v)
  | None => raise (Exception "InvalidPath")
  end.

Definition next_version (old : option StoredVersion) : Z :=
  match old with
  | Some v => sv_version v + 1
  | None => 1
  end.

Definition create_or_update_secret (path : string) (secret : Py.PyDict)
  : M Client unit :=
  t <- now ;;
  modify (fun c =>
    {| kv := <[path := {| sv_data := secret;
                          sv_version := next_version (kv c !! path);
                          sv_created_time := DateTime.rfc3339 t |}]>
               (kv c);
       vault_writes := S (vault_writes c) |}).

End Vault.

(** ** [secret_sync.py] *)

Module Sync.

Import Eff.

Inductive SyncDirection := VAULT_TO_AWS | AWS_TO_VAULT | BIDIRECTIONAL.

(** [direction.value] *)
Definition direction_value (d : SyncDirection) : string :=
  match d with
  | VAULT_TO_AWS => "vault_to_aws"
  | AWS_TO_VAULT => "aws_to_vault"
  | BIDIRECTIONAL => "bidirectional"
  end.

Inductive ConflictResolution := OVERWRITE_DESTINATION | SKIP | USE_NEWEST | MANUAL.

Definition is_skip (c : ConflictResolution) : bool :=
  match c with SKIP => true | _ => false end.

Definition is_use_newest (c : ConflictResolution) : bool :=
  match c with USE_NEWEST => true | _ => false end.

Record SyncResult := {
  secret_name : string;
  direction : string;
  status : string;
  message : string;
  timestamp : DateTime.t;
  vault_version : option Z;
  aws_version : option string;
}.

Record SyncAuditEntry := {
  ae_operation : string;
  ae_secret_name : string;
  ae_direction : string;
  ae_status : string;
  ae_user : string;
  ae_timestamp : DateTime.t;
  ae_details : Py.PyDict;
}.

Record SecretSyncManager := {
  mock_mode : bool;
  vault_client : option Vault.Client;
  aws_connector : Aws.AWSSecretsConnector;
  audit_log : list SyncAuditEntry;
}.

Definition set_aws (a : Aws.AWSSecretsConnector) (m : SecretSyncManager) :=
  {| mock_mode := mock_mode m; vault_client := vault_client m;
     aws_connector := a; audit_log := audit_log m |}.

Definition set_vault (v : Vault.Client) (m : SecretSyncManager) :=
  {| mock_mode := mock_mode m; vault_client := Some v;
     aws_connector := aws_connector m; audit_log := audit_log m |}.

Definition set_audit (l : list SyncAuditEntry) (m : SecretSyncManager) :=
  {| mock_mode := mock_mode m; vault_client := vault_client m;
     aws_connector := aws_connector m; audit_log := l |}.

(** A call on [self.aws_connector]. *)
Definition aws {A} (m : M Aws.AWSSecretsConnector A) : M SecretSyncManager A :=
  zoom aws_connector set_aws m.

(** A call on [self.vault_client], which the callers have checked to be
    present. *)
Definition vault {A} (m : M Vault.Client A) : M SecretSyncManager A :=
  fun e c s =>
    match vault_client s with
    | Some v => zoom (fun _ => v) set_vault m e c s
    | None => (inl (AttributeError "'NoneType' object has no attribute 'secrets'"), c, s)
    end.

(** An optional [version] as a value of the audit details. *)
Definition opt_int (o : option Z) : Py.PyVal :=
  match o with Some n => Py.PInt n | None => Py.PNone end.

(** *** Helper methods *)

Definition mock_vault_secret : Vault.Secret :=
  {| Vault.data := [("mock", Py.PStr "data")];
     Vault.metadata := Some {| Vault.version := Some 1; Vault.created_time := None |} |}.

Definition vault_path (secret_name : string) : string :=
  Py.replace "secret/" "" secret_name.

Definition _get_vault_secret (secret_name : string)
  : M SecretSyncManager (option Vault.Secret) :=
  mock <- gets mock_mode ;;
  client <- gets vault_client ;;
  if (mock || negb (bool_decide (is_Some client)))%bool then
    ret (Some mock_vault_secret)
  else
    try_except
      (response <- vault (Vault.read_secret_version (vault_path secret_name)) ;;
       ret (Some response))
      (fun _ => ret None).

(** [isinstance(data, str)] wraps the text as [{'value': data}]. *)
Definition as_vault_data (data : Aws.SecretValue) : Py.PyDict :=
  match data with
  | Aws.SVStr s => [("value", Py.PStr s)]
  | Aws.SVDict d => d
  end.

Definition _write_vault_secret (secret_name : string) (data : Aws.SecretValue)
  : M SecretSyncManager unit :=
  mock <- gets mock_mode ;;
  client <- gets vault_client ;;
  if (mock || negb (bool_decide (is_Some client)))%bool then
    ret tt
  else
    vault (Vault.create_or_update_secret (vault_path secret_name) (as_vault_data data)).

Definition _check_vault_secret_exists (secret_name : string)
  : M SecretSyncManager bool :=
  r <- _get_vault_secret secret_name ;;
  ret (bool_decide (is_Some r)).

Definition _check_aws_secret_exists (secret_name : string)
  : M SecretSyncManager bool :=
  try_except
    (aws (Aws.get_secret secret_name) ;;; ret true)
    (fun _ => ret false).

Definition _log_audit (operation secret_name direction status : string)
    (details : Py.PyDict) : M SecretSyncManager unit :=
  t <- now ;;
  let entry :=
    {| ae_operation := operation;
       ae_secret_name := secret_name;
       ae_direction := direction;
       ae_status := status;
       ae_user := "system";
       ae_timestamp := t;
       ae_details := details |} in
  modify (fun m => set_audit (audit_log m ++ [entry]) m).

(** *** Synchronisation *)

Definition mk_result (secret_name direction status message : string)
    (vault_version : option Z) (aws_version : option string)
  : M SecretSyncManager SyncResult :=
  t <- now ;;
  ret {| secret_name := secret_name; direction := direction; status := status;
         message := message; timestamp := t;
         vault_version := vault_version; aws_version := aws_version |}.

Definition _sync_vault_to_aws (secret_name : string)
    (conflict_resolution : ConflictResolution) (dry_run : bool)
  : M SecretSyncManager SyncResult :=
  (* Get secret from Vault *)
  got <- _get_vault_secret secret_name ;;
  match got with
  | None =>
      mk_result secret_name "vault_to_aws" "failed" "Secret not found in Vault"
        None None
  | Some vault_secret =>
      (* Check if exists in AWS *)
      aws_exists <- _check_aws_secret_exists secret_name ;;
      if dry_run then
        let action := if aws_exists then "update" else "create" in
        mk_result secret_name "vault_to_aws" "skipped"
          ("Dry run: Would " +:+ action +:+ " secret in AWS")
          (Vault.get_version vault_secret) None
      else if (aws_exists && is_skip conflict_resolution)%bool then
        mk_result secret_name "vault_to_aws" "skipped"
          "Secret exists in AWS, skipping per conflict resolution" None None
      else
        (* Perform sync *)
        written <-
          (if aws_exists then
             (* Update existing secret *)
             result <- aws (Aws.update_secret secret_name
                              (Aws.SVDict (Vault.data vault_secret)) None) ;;
             ret (result, "Updated secret in AWS")
           else
             (* Create new secret *)
             result <- aws (Aws.create_secret secret_name
                              (Aws.SVDict (Vault.data vault_secret))
                              (Some "Synced from Vault - v1.1")
                              (Some (<["Source" := "HashiCorp-Vault"]>
                                       {["SyncedBy" := "PAM-Vault-Lab"]}))) ;;
             ret (result, "Created secret in AWS")) ;;
        let '(result, message) := written in
        (* Log audit entry *)
        _log_audit "sync" secret_name "vault_to_aws" "success"
          [("aws_version", Py.PStr (Aws.wr_version_id result));
           ("vault_version", opt_int (Vault.get_version vault_secret))] ;;;
        mk_result secret_name "vault_to_aws" "success" message
          (Vault.get_version vault_secret) (Some (Aws.wr_version_id result))
  end.

(** The dictionary [get_secret] returns is never empty, so the
    [if not aws_secret] branch of the source is not reachable; absence shows
    as the [ValueError] that [get_secret] raises. *)
Definition _sync_aws_to_vault (secret_name : string)
    (conflict_resolution : ConflictResolution) (dry_run : bool)
  : M SecretSyncManager SyncResult :=
  (* Get secret from AWS *)
  aws_secret <- aws (Aws.get_secret secret_name) ;;
  (* Check if exists in Vault *)
  vault_exists <- _check_vault_secret_exists secret_name ;;
  if dry_run then
    let action := if vault_exists then "update" else "create" in
    mk_result secret_name "aws_to_vault" "skipped"
      ("Dry run: Would " +:+ action +:+ " secret in Vault")
      None (Some (Aws.gs_version_id aws_secret))
  else if (vault_exists && is_skip conflict_resolution)%bool then
    mk_result secret_name "aws_to_vault" "skipped"
      "Secret exists in Vault, skipping per conflict resolution" None None
  else
    (* Write to Vault (KV v2) *)
    _write_vault_secret secret_name (Aws.gs_secret_data aws_secret) ;;;
    (* Log audit entry *)
    _log_audit "sync" secret_name "aws_to_vault" "success"
      [("aws_version", Py.PStr (Aws.gs_version_id aws_secret))] ;;;
    mk_result secret_name "aws_to_vault" "success"
      "Synced secret from AWS to Vault"
      None (Some (Aws.gs_version_id aws_secret)).

Definition conflict_result (secret_name : string) : M SecretSyncManager SyncResult :=
  mk_result secret_name "bidirectional" "conflict"
    "Secret exists in both systems, manual resolution required" None None.

Definition _sync_bidirectional (secret_name : string)
    (conflict_resolution : ConflictResolution) (dry_run : bool)
  : M SecretSyncManager SyncResult :=
  vault_exists <- _check_vault_secret_exists secret_name ;;
  aws_exists <- _check_aws_secret_exists secret_name ;;
  if (negb vault_exists && negb aws_exists)%bool then
    mk_result secret_name "bidirectional" "failed"
      "Secret not found in either system" None None
  else if (vault_exists && negb aws_exists)%bool then
    _sync_vault_to_aws secret_name conflict_resolution dry_run
  else if (aws_exists && negb vault_exists)%bool then
    _sync_aws_to_vault secret_name conflict_resolution dry_run
  else if is_use_newest conflict_resolution then
    (* Both exist - compare timestamps and sync from newest *)
    got <- _get_vault_secret secret_name ;;
    aws_secret <- aws (Aws.get_secret secret_name) ;;
    match got with
    | None => raise (AttributeError "'NoneType' object has no attribute 'get'")
    | Some vault_secret =>
        let vault_time := Vault.get_created_time vault_secret in
        let aws_time := Aws.gs_created_date aws_secret in
        match vault_time, aws_time with
        | Some vt, Some at_ =>
            if Py.truthy vt then
              if Py.str_gt vt (DateTime.isoformat at_) then
                _sync_vault_to_aws secret_name OVERWRITE_DESTINATION dry_run
              else
                _sync_aws_to_vault secret_name OVERWRITE_DESTINATION dry_run
            else conflict_result secret_name
        | _, _ => conflict_result secret_name
        end
    end
  else conflict_result secret_name.

Definition sync_secret (secret_name : string) (direction : SyncDirection)
    (conflict_resolution : ConflictResolution) (dry_run : bool)
  : M SecretSyncManager SyncResult :=
  try_except
    (match direction with
     | VAULT_TO_AWS => _sync_vault_to_aws secret_name conflict_resolution dry_run
     | AWS_TO_VAULT => _sync_aws_to_vault secret_name conflict_resolution dry_run
     | BIDIRECTIONAL => _sync_bidirectional secret_name conflict_resolution dry_run
     end)
    (fun e =>
       mk_result secret_name (direction_value direction) "failed" (exn_str e)
         None None).

(** [batch_sync]: the loop over [secret_names]; the three counts that
    follow it are only logged. *)
Fixpoint batch_sync (secret_names : list string) (direction : SyncDirection)
    (conflict_resolution : ConflictResolution) (dry_run : bool)
  : M SecretSyncManager (list SyncResult) :=
  match secret_names with
  | [] => ret []
  | secret_name :: rest =>
      result <- sync_secret secret_name direction conflict_resolution dry_run ;;
      results <- batch_sync rest direction conflict_resolution dry_run ;;
      ret (result :: results)
  end.

(** The dictionary returned by [get_sync_status]; ['last_sync'] is always
    [None]. *)
Record SyncStatus := {
  st_secret_name : string;
  in_vault : bool;
  in_aws : bool;
  synced : bool;
  conflicts : list string;
}.

(** [vault_data == aws_data]: a dictionary never equals a text. *)
Definition data_equal (vault_data : Py.PyDict) (aws_data : Aws.SecretValue) : bool :=
  match aws_data with
  | Aws.SVStr _ => false
  | Aws.SVDict d => Py.dict_eqb vault_data d
  end.

Definition get_sync_status (secret_name : string)
  : M SecretSyncManager SyncStatus :=
  vault_exists <- _check_vault_secret_exists secret_name ;;
  aws_exists <- _check_aws_secret_exists secret_name ;;
  let status synced conflicts :=
    {| st_secret_name := secret_name; in_vault := vault_exists;
       in_aws := aws_exists; synced := synced; conflicts := conflicts |} in
  if (vault_exists && aws_exists)%bool then
    (* Check if values match *)
    try_except
      (got <- _get_vault_secret secret_name ;;
       aws_secret <- aws (Aws.get_secret secret_name) ;;
       match got with
       | None => raise (AttributeError "'NoneType' object has no attribute 'get'")
       | Some vault_secret =>
           (* Compare data *)
           if data_equal (Vault.data vault_secret) (Aws.gs_secret_data aws_secret)
           then ret (status true [])
           else ret (status false ["Secret values differ between systems"])
       end)
      (fun e => ret (status false ["Error: " +:+ exn_str e]))
  else ret (status false []).

End Sync.

(** ** [rotation_handler.py] *)

Module Rotation.

Import Eff.

Inductive RotationStatus := PENDING | IN_PROGRESS | SUCCESS | FAILED | ROLLED_BACK.

(** [status.value] *)
Definition status_value (s : RotationStatus) : string :=
  match s with
  | PENDING => "pending"
  | IN_PROGRESS => "in_progress"
  | SUCCESS => "success"
  | FAILED => "failed"
  | ROLLED_BACK => "rolled_back"
  end.

Record RotationEvent := {
  secret_arn : string;
  secret_name : string;
  token : string;
  step : string;
  timestamp : DateTime.t;
  client_request_token : option string;
}.

Record RotationResult := {
  rr_secret_name : string;
  rr_status : RotationStatus;
  start_time : DateTime.t;
  end_time : option DateTime.t;
  duration_seconds : option Q;
  message : string;
  old_version : option string;
  new_version : option string;
  error : option string;
}.

Record RotationSchedule := {
  rs_secret_name : string;
  rotation_interval_days : Z;
  last_rotation : option DateTime.t;
  next_rotation : option DateTime.t;
  enabled : bool;
}.

Record RotationEventHandler := {
  mock_mode : bool;
  rotation_history : list RotationResult;
  rotation_schedules : gmap string RotationSchedule;
  aws_connector : Aws.AWSSecretsConnector;
}.

(** The two methods that reach the target system.  In the source both are
    placeholders that log and return [True]; a deployment overrides them. *)
Record Collaborators := {
  _update_target_system : string -> Aws.SecretValue -> bool;
  _test_secret_authentication : string -> Aws.SecretValue -> bool;
}.

Definition placeholders : Collaborators :=
  {| _update_target_system := fun _ _ => true;
     _test_secret_authentication := fun _ _ => true |}.

(** The Lambda event: [event.get(key, '')] for the three keys. *)
Record LambdaEvent := {
  SecretId : string;
  ClientRequestToken : string;
  Step : string;
}.

(** The object that is serialised into the [body] of the response. *)
Inductive Body :=
  | Message (message step : string)
  | Error (error : string).

Record Response := {
  statusCode : Z;
  body : Body;
}.

Definition set_aws (a : Aws.AWSSecretsConnector) (h : RotationEventHandler) :=
  {| mock_mode := mock_mode h; rotation_history := rotation_history h;
     rotation_schedules := rotation_schedules h; aws_connector := a |}.

Definition set_history (l : list RotationResult) (h : RotationEventHandler) :=
  {| mock_mode := mock_mode h; rotation_history := l;
     rotation_schedules := rotation_schedules h; aws_connector := aws_connector h |}.

Definition set_schedules (m : gmap string RotationSchedule) (h : RotationEventHandler) :=
  {| mock_mode := mock_mode h; rotation_history := rotation_history h;
     rotation_schedules := m; aws_connector := aws_connector h |}.

Definition aws {A} (m : M Aws.AWSSecretsConnector A) : M RotationEventHandler A :=
  zoom aws_connector set_aws m.

(** *** Helper methods *)

Definition _extract_secret_name_from_arn (arn : string) : string :=
  match Py.after_first ":secret:" arn with
  | Some rest => Py.before_first "-" (Py.before_first ":secret:" rest)
  | None => arn
  end.

(** [string.ascii_letters + string.digits + "!@#$%^&*"] *)
Definition alphabet : string :=
  "abcdefghijklmnopqrstuvwxyzABCDEFGHIJKLMNOPQRSTUVWXYZ0123456789!@#$%^&*".

(** [secrets.choice(alphabet)] *)
Definition choice {St} : M St ascii :=
  i <- randbelow (String.length alphabet) ;;
  ret (default " "%char (String.get i alphabet)).

(** [''.join(secrets.choice(alphabet) for _ in range(n))] *)
Fixpoint random_password {St} (n : nat) : M St string :=
  match n with
  | O => ret EmptyString
  | S k =>
      c <- choice ;;
      rest <- random_password k ;;
      ret (String c rest)
  end.

Definition _generate_secret_value {St} (secret_name : string) : M St Py.PyDict :=
  password <- random_password 32 ;;
  ret [("username", Py.PStr (secret_name +:+ "_user"));
       ("password", Py.PStr password);
       ("engine", Py.PStr "postgresql");
       ("host", Py.PStr "localhost");
       ("port", Py.PInt 5432)].

(** [schedule.last_rotation = t] and [schedule.next_rotation = t] on the
    schedule object registered under a name. *)
Definition set_last_rotation (t : DateTime.t) (schedule : RotationSchedule)
  : RotationSchedule :=
  {| rs_secret_name := rs_secret_name schedule;
     rotation_interval_days := rotation_interval_days schedule;
     last_rotation := Some t;
     next_rotation := next_rotation schedule;
     enabled := enabled schedule |}.

Definition set_next_rotation (t : DateTime.t) (schedule : RotationSchedule)
  : RotationSchedule :=
  {| rs_secret_name := rs_secret_name schedule;
     rotation_interval_days := rotation_interval_days schedule;
     last_rotation := last_rotation schedule;
     next_rotation := Some t;
     enabled := enabled schedule |}.

Definition update_schedule (secret_name : string)
    (f : RotationSchedule -> RotationSchedule) : M RotationEventHandler unit :=
  modify (fun h =>
    set_schedules (alter f secret_name (rotation_schedules h)) h).

(** The first assignment is made before the sum is computed, so when the
    sum raises, the schedule keeps the new [last_rotation] and the old
    [next_rotation]. *)
Definition _update_rotation_schedule (secret_name : string)
  : M RotationEventHandler unit :=
  schedules <- gets rotation_schedules ;;
  match schedules !! secret_name with
  | Some schedule =>
      t <- now ;;
      update_schedule secret_name (set_last_rotation t) ;;;
      match DateTime.add_days t (rotation_interval_days schedule) with
      | inl msg => raise (OverflowError msg)
      | inr next => update_schedule secret_name (set_next_rotation next)
      end
  | None => ret tt
  end.

(** *** The four steps *)

Definition ok (message step : string) : Response :=
  {| statusCode := 200; body := Message message step |}.

(** Step 1: create a new secret version. *)
Definition _handle_create_secret (event : RotationEvent)
  : M RotationEventHandler Response :=
  (* Generate new secret value *)
  new_secret_value <- _generate_secret_value (secret_name event) ;;
  mock <- gets mock_mode ;;
  (if negb mock then
     (* Get current secret metadata *)
     aws (Aws.get_secret (secret_name event)) ;;;
     (* "For this demo, we'll update the secret" *)
     aws (Aws.update_secret (secret_name event) (Aws.SVDict new_secret_value) None) ;;;
     ret tt
   else ret tt) ;;;
  ret (ok "Secret created successfully" "createSecret").

(** Step 2: set the secret in the target system. *)
Definition _handle_set_secret (hooks : Collaborators) (event : RotationEvent)
  : M RotationEventHandler Response :=
  mock <- gets mock_mode ;;
  (if negb mock then
     new_secret <- aws (Aws.get_secret (secret_name event)) ;;
     let secret_value := Aws.gs_secret_data new_secret in
     let _ := _update_target_system hooks (secret_name event) secret_value in
     ret tt
   else ret tt) ;;;
  ret (ok "Secret set in target system" "setSecret").

(** Step 3: test the new secret. *)
Definition _handle_test_secret (hooks : Collaborators) (event : RotationEvent)
  : M RotationEventHandler Response :=
  mock <- gets mock_mode ;;
  (if negb mock then
     new_secret <- aws (Aws.get_secret (secret_name event)) ;;
     let secret_value := Aws.gs_secret_data new_secret in
     let test_result :=
       _test_secret_authentication hooks (secret_name event) secret_value in
     if negb test_result then
       raise (Exception "Secret test failed - authentication unsuccessful")
     else ret tt
   else ret tt) ;;;
  ret (ok "Secret tested successfully" "testSecret").

(** Step 4: finish the rotation. *)
Definition _handle_finish_secret (event : RotationEvent)
  : M RotationEventHandler Response :=
  ended <- now ;;
  measured <- now ;;
  let result :=
    {| rr_secret_name := secret_name event;
       rr_status := SUCCESS;
       start_time := timestamp event;
       end_time := Some ended;
       duration_seconds := Some (DateTime.total_seconds measured (timestamp event));
       message := "Rotation completed successfully";
       old_version := None;
       new_version := None;
       error := None |} in
  modify (fun h => set_history (rotation_history h ++ [result]) h) ;;;
  (* Update rotation schedule *)
  _update_rotation_schedule (secret_name event) ;;;
  ret (ok "Rotation finished successfully" "finishSecret").

Definition handle_aws_rotation_event (hooks : Collaborators) (event : LambdaEvent)
  : M RotationEventHandler Response :=
  try_except
    (let secret_arn := SecretId event in
     let token := ClientRequestToken event in
     let step := Step event in
     (* Extract secret name from ARN *)
     let secret_name := _extract_secret_name_from_arn secret_arn in
     (* Create rotation event *)
     t <- now ;;
     let rotation_event :=
       {| secret_arn := secret_arn; secret_name := secret_name; token := token;
          step := step; timestamp := t; client_request_token := Some token |} in
     (* Handle specific rotation step *)
     if String.eqb step "createSecret" then _handle_create_secret rotation_event
     else if String.eqb step "setSecret" then _handle_set_secret hooks rotation_event
     else if String.eqb step "testSecret" then _handle_test_secret hooks rotation_event
     else if String.eqb step "finishSecret" then _handle_finish_secret rotation_event
     else raise (ValueError ("Unknown rotation step: " +:+ step)))
    (fun e => ret {| statusCode := 500; body := Error (exn_str e) |}).

(** *** Scheduling and status *)

Definition schedule_rotation (secret_name : string) (rotation_interval_days : Z)
  : M RotationEventHandler RotationSchedule :=
  t <- now ;;
  match DateTime.add_days t rotation_interval_days with
  | inl msg => raise (OverflowError msg)
  | inr next_rotation =>
      let schedule :=
        {| rs_secret_name := secret_name;
           rotation_interval_days := rotation_interval_days;
           last_rotation := Some t;
           next_rotation := Some next_rotation;
           enabled := true |} in
      modify (fun h =>
        set_schedules (<[secret_name := schedule]> (rotation_schedules h)) h) ;;;
      ret schedule
  end.

(** [l[-5:]] *)
Definition last_five {A} (l : list A) : list A := skipn (length l - 5) l.

(** The [recent_rotations] of [get_rotation_status]. *)
Definition recent_rotations (h : RotationEventHandler) (secret_name : string)
  : list RotationResult :=
  last_five (filter (fun r => rr_secret_name r = secret_name) (rotation_history h)).

(** The ['last_status'] entry of [get_rotation_status]. *)
Definition last_status (h : RotationEventHandler) (secret_name : string)
  : option string :=
  match last (recent_rotations h secret_name) with
  | Some r => Some (status_value (rr_status r))
  | None => None
  end.

(** The ['next_rotation'] entry of [get_rotation_status]. *)
Definition status_next_rotation (h : RotationEventHandler) (secret_name : string)
  : option DateTime.t :=
  match rotation_schedules h !! secret_name with
  | Some schedule => next_rotation schedule
  | None => None
  end.

(** [status == RotationStatus.SUCCESS] *)
Definition is_success (s : RotationStatus) : bool :=
  match s with SUCCESS => true | _ => false end.

(** The full dictionary returned by [get_rotation_status].  The success
    rate is the exact value of [(success_count / len(recent)) * 100], of
    which the source computes the floating-point rounding. *)
Record RotationStatusReport := {
  rp_secret_name : string;
  rp_last_rotation : option DateTime.t;
  rp_last_status : option string;
  success_count : nat;
  success_rate : Q;
  rotation_count : nat;
  rp_schedule : option RotationSchedule;
  rp_next_rotation : option DateTime.t;
}.

Definition get_rotation_status (h : RotationEventHandler) (secret_name : string)
  : RotationStatusReport :=
  let recent := recent_rotations h secret_name in
  let count :=
    length (List.filter (fun r => is_success (rr_status r)) recent) in
  {| rp_secret_name := secret_name;
     rp_last_rotation :=
       match last recent with Some r => end_time r | None => None end;
     rp_last_status := last_status h secret_name;
     success_count := count;
     success_rate :=
       match recent with
       | [] => 0%Q
       | _ :: _ =>
           (inject_Z (Z.of_nat count) / inject_Z (Z.of_nat (length recent)) * 100)%Q
       end;
     rotation_count := length recent;
     rp_schedule := rotation_schedules h !! secret_name;
     rp_next_rotation := status_next_rotation h secret_name |}.

(** The Vault client as the direct rotation uses it, an external
    collaborator: [write path] raises or returns, [read path] raises or
    returns the ['data'] of a response, if there is a response. *)
Record VaultDatabaseClient := {
  vault_write : string -> option Exn;
  vault_read : string -> Exn + option Py.PyDict;
}.

(** [d[k]], which raises [KeyError(k)]. *)
Definition dict_item {St} (k : string) (d : Py.PyDict) : M St Py.PyVal :=
  match Py.dict_get k d with
  | Some v => ret v
  | None => raise (Exception ("'" +:+ k +:+ "'"))
  end.

Definition _sync_rotation_to_aws (vault_client : option VaultDatabaseClient)
    (database_name : string) : M RotationEventHandler unit :=
  try_except
    (match vault_client with
     | Some client =>
         (* For static credentials *)
         match vault_read client ("database/static-creds/" +:+ database_name) with
         | inl x => raise x
         | inr None => ret tt
         | inr (Some data) =>
             username <- dict_item "username" data ;;
             password <- dict_item "password" data ;;
             t <- now ;;
             (* Update in AWS *)
             aws (Aws.update_secret database_name
                    (Aws.SVDict [("username", username); ("password", password)])
                    (Some ("Synced from Vault rotation - " +:+ DateTime.isoformat t))) ;;;
             ret tt
         end
     | None => ret tt
     end)
    (fun _ => ret tt).

Definition append_result (result : RotationResult) : M RotationEventHandler unit :=
  modify (fun h => set_history (rotation_history h ++ [result]) h).

(** [rotate_vault_secret]; [vault_client] is the field of that name. *)
Definition rotate_vault_secret (vault_client : option VaultDatabaseClient)
    (database_name : string) (notify_aws : bool)
  : M RotationEventHandler RotationResult :=
  started <- now ;;
  try_except
    (mock <- gets mock_mode ;;
     match vault_client with
     | Some client =>
         if negb mock then
           (* Rotate root credentials in Vault *)
           match vault_write client ("database/rotate-root/" +:+ database_name) with
           | Some x => raise x
           | None => ret tt
           end ;;;
           (* If notify_aws, sync to AWS Secrets Manager *)
           if notify_aws then _sync_rotation_to_aws vault_client database_name
           else ret tt
         else ret tt
     | None => ret tt
     end ;;;
     ended <- now ;;
     let result :=
       {| rr_secret_name := database_name;
          rr_status := SUCCESS;
          start_time := started;
          end_time := Some ended;
          duration_seconds := Some (DateTime.total_seconds ended started);
          message := "Vault secret rotated successfully";
          old_version := None;
          new_version := None;
          error := None |} in
     append_result result ;;;
     ret result)
    (fun e =>
       ended <- now ;;
       let result :=
         {| rr_secret_name := database_name;
            rr_status := FAILED;
            start_time := started;
            end_time := Some ended;
            duration_seconds := None;
            message := "Rotation failed";
            old_version := None;
            new_version := None;
            error := Some (exn_str e) |} in
       append_result result ;;;
       ret result).

(** [rollback_rotation]: the body of the [if not self.mock_mode] is [pass],
    so nothing in the guarded block can raise. *)
Definition rollback_rotation (secret_name : string) (target_version : option string)
  : M RotationEventHandler RotationResult :=
  started <- now ;;
  ended <- now ;;
  let result :=
    {| rr_secret_name := secret_name;
       rr_status := ROLLED_BACK;
       start_time := started;
       end_time := Some ended;
       duration_seconds := Some (DateTime.total_seconds ended started);
       message := "Rotation rolled back successfully";
       old_version := None;
       new_version := None;
       error := None |} in
  append_result result ;;;
  ret result.

End Rotation.

(** ** [vault_to_delinea.py] *)

Module Migration.

(** The default rule set, in the order the dictionary literal lists it. *)
Definition DEFAULT_FIELD_MAPPINGS : list (string * string) :=
  [ (* Common password fields *)
    ("password", "Password"); ("passwd", "Password"); ("secret", "Password");
    ("pass", "Password");
    (* Username fields *)
    ("username", "Username"); ("user", "Username"); ("login", "Username");
    ("account", "Username");
    (* Server/machine fields *)
    ("host", "Machine"); ("server", "Server"); ("hostname", "Machine");
    ("machine", "Machine"); ("ip", "Machine"); ("address", "Machine");
    (* Database fields *)
    ("database", "Database"); ("db", "Database"); ("dbname", "Database");
    (* URL fields *)
    ("url", "URL"); ("endpoint", "Endpoint URL"); ("uri", "URL");
    (* API fields *)
    ("api_key", "API Key"); ("apikey", "API Key"); ("api-key", "API Key");
    ("api_secret", "API Secret"); ("client_id", "Client ID");
    ("client_secret", "Client Secret");
    (* Notes *)
    ("notes", "Notes"); ("description", "Notes"); ("comment", "Notes") ].

(** Template recommendations based on Vault path patterns, in the order
    the dictionary literal lists them. *)
Definition TEMPLATE_RECOMMENDATIONS : list (string * Z) :=
  [ ("database", 3); ("db", 3); ("mysql", 3); ("postgres", 3); ("sql", 3);
    ("linux", 2); ("unix", 2); ("ssh", 2);
    ("windows", 1); ("ad", 1); ("domain", 1);
    ("api", 5); ("key", 5); ("token", 5);
    ("web", 4); ("http", 4) ].

(** The loop over [TEMPLATE_RECOMMENDATIONS.items()]. *)
Fixpoint path_template (rules : list (string * Z)) (path_lower : string)
  : option Z :=
  match rules with
  | [] => None
  | (pattern, template_id) :: rest =>
      if Py.contains pattern path_lower then Some template_id
      else path_template rest path_lower
  end.

(** [k in data_keys] *)
Definition key_in (k : string) (data_keys : list string) : bool :=
  existsb (String.eqb k) data_keys.

Definition recommend_template (vault_path : string) (data : Py.PyDict) : Z :=
  let path_lower := Py.lower vault_path in
  (* Check path for pattern matches *)
  match path_template TEMPLATE_RECOMMENDATIONS path_lower with
  | Some template_id => template_id
  | None =>
      (* Check data fields *)
      let data_keys := List.map (fun item => Py.lower (fst item)) data in
      if (key_in "api_key" data_keys || key_in "api-key" data_keys)%bool then 5
      else if (key_in "connection_string" data_keys ||
               key_in "database" data_keys)%bool then 3
      else if (key_in "private_key" data_keys ||
               Py.contains "ssh" (Py.join "_" data_keys))%bool then 2
      else 1
  end.

Record VaultToDelineaMigrator := {
  mock_mode : bool;
  field_mappings : list (string * string);
}.

(** [__init__]: custom mappings are merged over the defaults. *)
Definition new_migrator (custom : option (list (string * string))) (mock_mode : bool)
  : VaultToDelineaMigrator :=
  {| mock_mode := mock_mode;
     field_mappings := Py.dict_merge DEFAULT_FIELD_MAPPINGS (default [] custom) |}.

(** The inner loop of [map_fields]: the target of the first rule, in the
    iteration order of [field_mappings], whose pattern occurs in the
    lower-cased key. *)
Fixpoint partial_match (rules : list (string * string)) (vault_key_lower : string)
  : option string :=
  match rules with
  | [] => None
  | (pattern, target_field) :: rest =>
      if Py.contains pattern vault_key_lower then Some target_field
      else partial_match rest vault_key_lower
  end.

(** One iteration of the loop over [vault_data.items()]. *)
Definition map_field (self : VaultToDelineaMigrator)
    (acc : list (string * string) * list string) (item : string * Py.PyVal)
  : list (string * string) * list string :=
  let '(mapped, skipped) := acc in
  let '(vault_key, value) := item in
  let vault_key_lower := Py.lower vault_key in
  (* Try direct mapping *)
  match Py.dict_get vault_key_lower (field_mappings self) with
  | Some target => (Py.dict_set target (Py.str value) mapped, skipped)
  | None =>
      (* Try partial match *)
      match partial_match (field_mappings self) vault_key_lower with
      | Some target_field =>
          (Py.dict_set target_field (Py.str value) mapped, skipped)
      | None =>
          (* Use original key name with Title Case *)
          (Py.dict_set (Py.title (Py.replace "_" " " vault_key)) (Py.str value) mapped,
           (skipped ++ [vault_key])%list)
      end
  end.

Definition map_fields (self : VaultToDelineaMigrator)
    (vault_data : Py.PyDict) (template_id : Z)
  : list (string * string) * list string :=
  fold_left (map_field self) vault_data ([], []).

(** *** The resolution order as the specification words it *)

(** Exact case-insensitive match of a rule pattern and a key. *)
Definition ci_equal (pattern key : string) : bool :=
  String.eqb (Py.lower pattern) (Py.lower key).

(** The pattern is a case-insensitive substring of the key. *)
Definition ci_substring (pattern key : string) : bool :=
  Py.contains (Py.lower pattern) (Py.lower key).

(** Separator conversion plus target-convention casing. *)
Definition normalized_name (key : string) : string :=
  Py.title (Py.replace "_" " " key).

Inductive Resolution :=
  | ExactMatch (destination : string)
  | PartialMatch (destination : string)
  | Unmatched (normalized : string).

Definition resolve (rules : list (string * string)) (key : string) : Resolution :=
  match List.find (fun rule => ci_equal (fst rule) key) rules with
  | Some rule => ExactMatch (snd rule)
  | None =>
      match List.find (fun rule => ci_substring (fst rule) key) rules with
      | Some rule => PartialMatch (snd rule)
      | None => Unmatched (normalized_name key)
      end
  end.

Definition destination (r : Resolution) : string :=
  match r with
  | ExactMatch d | PartialMatch d => d
  | Unmatched n => n
  end.

Definition is_unmatched (r : Resolution) : bool :=
  match r with Unmatched _ => true | _ => false end.

(** The answer of [mapFields] under that resolution order: each value goes
    under the destination of its key, a later key replacing an earlier one
    with the same destination, and the keys that matched no rule make up
    the skipped list, in payload order. *)
Definition resolved_fields (rules : list (string * string)) (payload : Py.PyDict)
  : list (string * string) * list string :=
  (fold_left
     (fun mapped item =>
        Py.dict_set (destination (resolve rules (fst item))) (Py.str (snd item))
          mapped)
     payload [],
   List.filter (fun key => is_unmatched (resolve rules key)) (List.map fst payload)).

(** The sentence of the specification, for one migrator and one payload. *)
Definition resolves_up_to_case (self : VaultToDelineaMigrator)
    (payload : Py.PyDict) (template_id : Z) : Prop :=
  map_fields self payload template_id = resolved_fields (field_mappings self) payload.

(** Every pattern of the rule set is written in lower case, as the patterns
    of [DEFAULT_FIELD_MAPPINGS] are. *)
Definition lowercase_patterns (rules : list (string * string)) : Prop :=
  Forall (fun rule => Py.lower (fst rule) = fst rule) rules.

End Migration.

(** ** The health score as the specification words it *)

Module HealthSpec.

(** The single largest matching age bracket. *)
Definition age_penalty (days_old : option Z) : Z :=
  match days_old with
  | Some d =>
      if d >? 365 then 40 else if d >? 180 then 25 else if d >? 90 then 10 else 0
  | None => 0
  end.

Definition rotation_penalty (rotation_enabled : bool) : Z :=
  if rotation_enabled then 0 else 20.

(** A flat penalty when any required tag is missing. *)
Definition tag_penalty (tags : gmap string string) : Z :=
  if forallb (fun tag => bool_decide (is_Some (tags !! tag))) Aws.required_tags
  then 0 else 10.

Definition bucket (score : Z) : string :=
  if score >=? 90 then "excellent"
  else if score >=? 75 then "good"
  else if score >=? 50 then "fair"
  else "poor".

End HealthSpec.

(** ** Observations on the manager's state *)

Module SyncView.

Import Eff.

(** The counters after one more reading of the clock. *)
Definition tick (c : Counters) : Counters :=
  {| now_calls := S (now_calls c); rng_calls := rng_calls c |}.

(** What [_get_vault_secret] answers in a given state. *)
Definition vault_view (s : Sync.SecretSyncManager) (secret_name : string)
  : option Vault.Secret :=
  match Sync.vault_client s with
  | Some client =>
      if Sync.mock_mode s then Some Sync.mock_vault_secret
      else Vault.response <$> (Vault.kv client !! Sync.vault_path secret_name)
  | None => Some Sync.mock_vault_secret
  end.

(** The data the Vault client stores for a name. *)
Definition vault_stored (s : Sync.SecretSyncManager) (secret_name : string)
  : option Py.PyDict :=
  client ← Sync.vault_client s;
  Vault.sv_data <$> (Vault.kv client !! Sync.vault_path secret_name).

(** The creation time the Vault client keeps for the version it stores
    under a name. *)
Definition vault_created (s : Sync.SecretSyncManager) (secret_name : string)
  : option string :=
  client ← Sync.vault_client s;
  Vault.sv_created_time <$> (Vault.kv client !! Sync.vault_path secret_name).

(** The entry of the AWS store under a name. *)
Definition aws_view (s : Sync.SecretSyncManager) (secret_name : string)
  : option Aws.MockSecret :=
  Aws._mock_secrets (Sync.aws_connector s) !! secret_name.

(** The number of write calls the two stores have received. *)
Definition write_calls (s : Sync.SecretSyncManager) : nat :=
  (Aws.aws_writes (Sync.aws_connector s) +
   match Sync.vault_client s with
   | Some client => Vault.vault_writes client
   | None => 0
   end)%nat.

(** [if t:] on an optional timestamp text: present and not empty. *)
Definition timestamp_present (o : option string) : bool :=
  match o with
  | Some t => Py.truthy t
  | None => false
  end.

(** The [vault_time] and [aws_time] that [_sync_bidirectional] compares. *)
Definition vault_time (s : Sync.SecretSyncManager) (secret_name : string)
  : option string :=
  vault_view s secret_name ≫= Vault.get_created_time.

Definition aws_time (s : Sync.SecretSyncManager) (secret_name : string)
  : option DateTime.t :=
  Aws.ms_created <$> aws_view s secret_name.

(** The audit log grew by exactly one entry, which records a successful
    sync of [secret_name] in [direction] by the actor "system", with a
    timestamp and the version details. *)
Definition audited_once (secret_name direction status : string)
    (s s' : Sync.SecretSyncManager) : Prop :=
  exists entry,
    Sync.audit_log s' = (Sync.audit_log s ++ [entry])%list /\
    Sync.ae_operation entry = "sync" /\
    Sync.ae_secret_name entry = secret_name /\
    Sync.ae_direction entry = direction /\
    Sync.ae_status entry = status /\
    Sync.ae_user entry = "system" /\
    is_Some (Py.dict_get "aws_version" (Sync.ae_details entry)).

(** What a call that ended with [out] did to the audit log: one entry for
    a success, nothing otherwise. *)
Definition audit_discipline (secret_name : string) (s : Sync.SecretSyncManager)
    (out : Exn + Sync.SyncResult) (s' : Sync.SecretSyncManager) : Prop :=
  match out with
  | inr r =>
      (Sync.status r = "success" /\
       audited_once secret_name (Sync.direction r) "success" s s') \/
      (In (Sync.status r) ["failed"; "skipped"; "conflict"] /\
       Sync.audit_log s' = Sync.audit_log s)
  | inl _ => Sync.audit_log s' = Sync.audit_log s
  end.

(** *** A sentence of the specification, as it is worded *)

(** Every outcome of a call that is not a dry run leaves one audit entry
    with the status of the result. *)
Definition every_outcome_audited (e : Env) (c : Counters)
    (s : Sync.SecretSyncManager) (secret_name : string)
    (direction : Sync.SyncDirection) (policy : Sync.ConflictResolution) : Prop :=
  forall r c' s',
    Sync.sync_secret secret_name direction policy false e c s = (inr r, c', s') ->
    audited_once secret_name (Sync.direction r) (Sync.status r) s s'.

End SyncView.

(** ** [demo_aws_integration.py]: feeding the steps of one rotation *)

Module Demo.

Import Eff.

(** The loop of [demo_rotation_handler]: the handler is called once per
    step, with the same secret and token, whatever the earlier answers. *)
Fixpoint rotation_events (hooks : Rotation.Collaborators)
    (secret_id token : string) (steps : list string)
  : M Rotation.RotationEventHandler (list Rotation.Response) :=
  match steps with
  | [] => ret []
  | step :: rest =>
      response <-
        Rotation.handle_aws_rotation_event hooks
          {| Rotation.SecretId := secret_id;
             Rotation.ClientRequestToken := token;
             Rotation.Step := step |} ;;
      responses <- rotation_events hooks secret_id token rest ;;
      ret (response :: responses)
  end.

End Demo.

(** ** Observations on the rotation handler's state *)

Module RotationView.

Import Eff.

(** The credential value the store serves for a name. *)
Definition active_credential (h : Rotation.RotationEventHandler)
    (secret_name : string) : option Aws.SecretValue :=
  Aws.ms_secret_value <$>
    (Aws._mock_secrets (Rotation.aws_connector h) !! secret_name).

(** What the first three steps may change: the store and nothing else. *)
Definition same_records (h h' : Rotation.RotationEventHandler) : Prop :=
  Rotation.rotation_history h' = Rotation.rotation_history h /\
  Rotation.rotation_schedules h' = Rotation.rotation_schedules h /\
  Rotation.mock_mode h' = Rotation.mock_mode h.

(** A schedule that was advanced at the instant [t]: that is its last
    rotation, and its next rotation is [t] plus its interval in days. *)
Definition schedule_advanced (t : DateTime.t) (schedule : Rotation.RotationSchedule)
  : Prop :=
  Rotation.last_rotation schedule = Some t /\
  Rotation.next_rotation schedule =
    Some (t + DateTime.timedelta_days (Rotation.rotation_interval_days schedule)).

(** The text of the error that the update of the schedule registered under
    [secret_name] raises at the instant [t], if it raises: the sum of [t]
    and the interval is not a [datetime]. *)
Definition schedule_overflow (h : Rotation.RotationEventHandler)
    (secret_name : string) (t : DateTime.t) : option string :=
  schedule ← Rotation.rotation_schedules h !! secret_name;
  match DateTime.add_days t (Rotation.rotation_interval_days schedule) with
  | inl msg => Some msg
  | inr _ => None
  end.

(** The result the finishing step records for an event received at the
    counters [c]. *)
Definition finish_result (event : Rotation.LambdaEvent) (e : Env) (c : Counters)
  : Rotation.RotationResult :=
  {| Rotation.rr_secret_name :=
       Rotation._extract_secret_name_from_arn (Rotation.SecretId event);
     Rotation.rr_status := Rotation.SUCCESS;
     Rotation.start_time := clock e (now_calls c);
     Rotation.end_time := Some (clock e (S (now_calls c)));
     Rotation.duration_seconds :=
       Some (DateTime.total_seconds (clock e (S (S (now_calls c))))
                                    (clock e (now_calls c)));
     Rotation.message := "Rotation completed successfully";
     Rotation.old_version := None;
     Rotation.new_version := None;
     Rotation.error := None |}.

(** A sentence of the specification, as it is worded: when the prober
    rejects the candidate during the test step, the rotation is left in
    the failed phase and the active credential is the one from before the
    rotation. *)
Definition rejected_test_halts_in_failed (hooks : Rotation.Collaborators)
    (e : Env) (c : Counters) (h : Rotation.RotationEventHandler)
    (secret_id token : string) : Prop :=
  forall responses c' h',
    Demo.rotation_events hooks secret_id token
      ["createSecret"; "setSecret"; "testSecret"] e c h = (inr responses, c', h') ->
    Rotation.statusCode <$> last responses = Some 500 ->
    let secret_name := Rotation._extract_secret_name_from_arn secret_id in
    Rotation.last_status h' secret_name = Some "failed" /\
    active_credential h' secret_name = active_credential h secret_name.

End RotationView.

(** ** Concrete scenarios used by the examples and witnesses *)

Module Scenario.

Import Eff.

(** The secret of the worked example of the health score: last changed 400
    days before [t], rotation disabled, no tags. *)
Definition example_metadata (t : DateTime.t) : Aws.SecretMetadata :=
  {| Aws.name := "legacy"; Aws.arn := Aws.mock_arn "legacy"; Aws.description := None;
     Aws.last_changed := Some (t - DateTime.timedelta_days 400);
     Aws.last_accessed := None; Aws.rotation_enabled := false;
     Aws.rotation_lambda_arn := None; Aws.tags := ∅; Aws.version_id := "v1";
     Aws.created_date := None |}.

(** A clock that starts on 2026-01-01T00:00:00+00:00 and advances by one
    second per reading, and a random source that counts. *)
Definition env0 : Env :=
  {| clock := fun n => 1767225600000000 + Z.of_nat n * 1000000;
     random := fun n => n |}.

Definition c0 : Counters := {| now_calls := 0; rng_calls := 0 |}.

(** 2025-01-01T00:00:00+00:00 *)
Definition new_year_2025 : DateTime.t := 1735689600000000.

Definition aws_entry (value : Aws.SecretValue) (created : DateTime.t)
  : Aws.MockSecret :=
  {| Aws.ms_secret_value := value; Aws.ms_description := None;
     Aws.ms_tags := ∅; Aws.ms_version_id := "v1";
     Aws.ms_created := created; Aws.ms_last_changed := created |}.

(** A manager connected to a Vault client and an AWS connector that both
    hold nothing. *)
Definition empty_manager : Sync.SecretSyncManager :=
  {| Sync.mock_mode := false;
     Sync.vault_client := Some {| Vault.kv := ∅; Vault.vault_writes := 0 |};
     Sync.aws_connector := {| Aws._mock_secrets := ∅; Aws.aws_writes := 0 |};
     Sync.audit_log := [] |}.

(** 2025-06-01T00:00:00+00:00 *)
Definition june_2025 : DateTime.t := 1748736000000000.

(** Both stores hold [app/db]: Vault its third version, written on
    2025-06-01, and AWS a secret created at the given instant. *)
Definition both_manager_at (aws_created : DateTime.t) : Sync.SecretSyncManager :=
  {| Sync.mock_mode := false;
     Sync.vault_client :=
       Some {| Vault.kv :=
                 {[ "app/db" :=
                      {| Vault.sv_data := [("password", Py.PStr "from-vault")];
                         Vault.sv_version := 3;
                         Vault.sv_created_time := DateTime.rfc3339 june_2025 |} ]};
               Vault.vault_writes := 0 |};
     Sync.aws_connector :=
       {| Aws._mock_secrets :=
            {[ "app/db" :=
                 aws_entry (Aws.SVDict [("password", Py.PStr "from-aws")])
                   aws_created ]};
          Aws.aws_writes := 0 |};
     Sync.audit_log := [] |}.

(** The AWS secret was created on 2025-01-01, so the Vault side is the
    strictly newer one. *)
Definition both_manager : Sync.SecretSyncManager := both_manager_at new_year_2025.

(** The manager of the demonstration: mock mode, no Vault client, and an
    AWS connector that holds [app/db]. *)
Definition mock_manager : Sync.SecretSyncManager :=
  {| Sync.mock_mode := true;
     Sync.vault_client := None;
     Sync.aws_connector :=
       {| Aws._mock_secrets :=
            {[ "app/db" := aws_entry (Aws.SVStr "from-aws") new_year_2025 ]};
          Aws.aws_writes := 0 |};
     Sync.audit_log := [] |}.

(** A handler outside mock mode whose store serves the credential
    ["old-password"] for [db], with a 30-day schedule for it. *)
Definition live_handler : Rotation.RotationEventHandler :=
  {| Rotation.mock_mode := false;
     Rotation.rotation_history := [];
     Rotation.rotation_schedules :=
       {[ "db" := {| Rotation.rs_secret_name := "db";
                     Rotation.rotation_interval_days := 30;
                     Rotation.last_rotation := Some new_year_2025;
                     Rotation.next_rotation :=
                       Some (new_year_2025 + DateTime.timedelta_days 30);
                     Rotation.enabled := true |} ]};
     Rotation.aws_connector :=
       {| Aws._mock_secrets := {[ "db" := aws_entry (Aws.SVStr "old-password") new_year_2025 ]};
          Aws.aws_writes := 0 |} |}.

Definition create_event : Rotation.LambdaEvent :=
  {| Rotation.SecretId := "db";
     Rotation.ClientRequestToken := "token-12345";
     Rotation.Step := "createSecret" |}.

Definition test_event : Rotation.LambdaEvent :=
  {| Rotation.SecretId := "db";
     Rotation.ClientRequestToken := "token-12345";
     Rotation.Step := "testSecret" |}.

(** A prober that rejects every candidate. *)
Definition rejecting : Rotation.Collaborators :=
  {| Rotation._update_target_system := fun _ _ => true;
     Rotation._test_secret_authentication := fun _ _ => false |}.

(** A manager connected to an empty Vault and to an AWS connector that
    holds the text secret [app/text]. *)
Definition text_manager : Sync.SecretSyncManager :=
  {| Sync.mock_mode := false;
     Sync.vault_client := Some {| Vault.kv := ∅; Vault.vault_writes := 0 |};
     Sync.aws_connector :=
       {| Aws._mock_secrets :=
            {[ "app/text" := aws_entry (Aws.SVStr "hunter2") new_year_2025 ]};
          Aws.aws_writes := 0 |};
     Sync.audit_log := [] |}.

(** The handler of the demonstration: mock mode, an empty store. *)
Definition mock_handler : Rotation.RotationEventHandler :=
  {| Rotation.mock_mode := true;
     Rotation.rotation_history := [];
     Rotation.rotation_schedules := ∅;
     Rotation.aws_connector := {| Aws._mock_secrets := ∅; Aws.aws_writes := 0 |} |}.

(** An updater that reports a failure for every secret. *)
Definition failing_updater : Rotation.Collaborators :=
  {| Rotation._update_target_system := fun _ _ => false;
     Rotation._test_secret_authentication := fun _ _ => true |}.

(** The identifier AWS gives the secret [database-credentials]: the name
    followed by a hyphen and six random characters. *)
Definition database_credentials_arn : string :=
  "arn:aws:secretsmanager:us-east-1:123456789012:secret:database-credentials-AbCdEf".

Definition four_steps : list string :=
  ["createSecret"; "setSecret"; "testSecret"; "finishSecret"].

(** The handler of the demonstration with a schedule for [db] whose
    interval is the largest a [timedelta] takes. *)
Definition far_handler : Rotation.RotationEventHandler :=
  {| Rotation.mock_mode := true;
     Rotation.rotation_history := [];
     Rotation.rotation_schedules :=
       {[ "db" := {| Rotation.rs_secret_name := "db";
                     Rotation.rotation_interval_days := 999999999;
                     Rotation.last_rotation := None;
                     Rotation.next_rotation := None;
                     Rotation.enabled := true |} ]};
     Rotation.aws_connector := {| Aws._mock_secrets := ∅; Aws.aws_writes := 0 |} |}.

Definition finish_event : Rotation.LambdaEvent :=
  {| Rotation.SecretId := "db";
     Rotation.ClientRequestToken := "token-12345";
     Rotation.Step := "finishSecret" |}.

(** A payload whose keys are written in mixed case. *)
Definition mixed_case_data : Py.PyDict :=
  [("UserName", Py.PStr "admin"); ("DB_Password", Py.PStr "s3cret");
   ("DB_Host", Py.PStr "db.example.com"); ("API-KEY", Py.PStr "k-123");
   ("custom_field", Py.PStr "value")].

(** A migrator with one custom rule whose pattern has a capital letter. *)
Definition token_migrator : Migration.VaultToDelineaMigrator :=
  Migration.new_migrator (Some [("Token", "API Key")]) true.

End Scenario.

(** * Properties *)

Import Eff.

(** ** The Python primitives on known values *)

Example isoformat_epoch : DateTime.isoformat 0 = "1970-01-01T00:00:00+00:00".
Proof. reflexivity. Qed.
Example isoformat_2025 : DateTime.isoformat (1735689600 * 1000000 + 5) = "2025-01-01T00:00:00.000005+00:00".
Proof. reflexivity. Qed.
Example isoformat_leap : DateTime.isoformat (1709251199 * 1000000) = "2024-02-29T23:59:59+00:00".
Proof. reflexivity. Qed.
Example title_ex : Py.title (Py.replace "_" " " "custom_field") = "Custom Field".
Proof. reflexivity. Qed.
Example title_ex2 : Py.title "api2key-xY" = "Api2Key-Xy".
Proof. reflexivity. Qed.
Example replace_ex : Py.replace "secret/" "" "secret/a/secret/b" = "a/b".
Proof. reflexivity. Qed.
Example split_ex : Py.after_first ":secret:" "arn:aws:x:secret:demo-secret" = Some "demo-secret".
Proof. reflexivity. Qed.
Example gt_ex : Py.str_gt "2025-06-01T12:00:00Z" "2025-06-01T12:00:00.500000+00:00" = true.
Proof. reflexivity. Qed.
Example extract_name_ex :
  Rotation._extract_secret_name_from_arn
    "arn:aws:secretsmanager:us-east-1:123456789012:secret:db-AbCdEf" = "db".
Proof. reflexivity. Qed.
Example extract_plain_name_ex : Rotation._extract_secret_name_from_arn "db" = "db".
Proof. reflexivity. Qed.

(** ** Health score *)

Section HealthScore.

Lemma staleness_score days_old :
  (Aws.staleness days_old).1.1 = 100 - HealthSpec.age_penalty (Some days_old).
Proof.
  unfold Aws.staleness, HealthSpec.age_penalty.
  repeat case_match; reflexivity.
Qed.

Lemma days_between_shift t n : DateTime.days_between t (t - DateTime.timedelta_days n) = n.
Proof.
  unfold DateTime.days_between, DateTime.timedelta_days.
  replace (t - (t - n * DateTime.us_per_day)) with (n * DateTime.us_per_day) by lia.
  apply Z.div_mul. discriminate.
Qed.

(** C7.  The health score starts at 100 and loses only the single largest
    matching age bracket (40 above 365 days, else 25 above 180, else 10
    above 90), 20 when rotation is not enabled and a flat 10 when any
    required tag is missing; it is at least 0, and the status is the bucket
    of the score (90 excellent, 75 good, 50 fair, else poor).  A secret
    last changed 400 days ago, with rotation disabled and no tags, scores
    exactly 30 and is "poor". *)
Theorem health_score_formula :
  (forall (St : Type) (md : Aws.SecretMetadata) (e : Env) (c : Counters) (s : St),
     exists hs c',
       Aws.calculate_secret_health_score md e c s = (inr hs, c', s) /\
       let days_old :=
         DateTime.days_between (clock e (now_calls c)) <$> Aws.last_changed md in
       let raw := 100 - HealthSpec.age_penalty days_old
                      - HealthSpec.rotation_penalty (Aws.rotation_enabled md)
                      - HealthSpec.tag_penalty (Aws.tags md) in
       Aws.health_score hs = Z.max 0 raw /\
       0 <= Aws.health_score hs /\
       Aws.status hs = HealthSpec.bucket (Aws.health_score hs)) /\
  (forall (St : Type) (e : Env) (c : Counters) (s : St),
     exists hs c',
       Aws.calculate_secret_health_score
         (Scenario.example_metadata (clock e (now_calls c))) e c s = (inr hs, c', s) /\
       Aws.health_score hs = 30 /\ Aws.status hs = "poor").
Proof.
  split.
  - intros St md e c s.
    unfold Aws.calculate_secret_health_score, bind, ret, now.
    unfold HealthSpec.tag_penalty, HealthSpec.rotation_penalty.
    cbn [forallb Aws.required_tags].
    destruct (Aws.tags md !! "Environment") eqn:He,
             (Aws.tags md !! "Owner") eqn:Ho,
             (Aws.tags md !! "Application") eqn:Ha;
    destruct (Aws.rotation_enabled md);
    (destruct (Aws.last_changed md) as [lc|] eqn:Hlc; cbn [fmap option_fmap option_map];
     [ pose proof (staleness_score (DateTime.days_between (clock e (now_calls c)) lc)) as Hst;
       destruct (Aws.staleness _) as [[score issues] recs]; cbn in Hst; subst score
     | ]);
    cbn; rewrite ?He, ?Ho, ?Ha; cbn;
    eexists _, _; (split; [reflexivity|]); cbn;
    unfold HealthSpec.bucket; repeat case_match; try lia;
    repeat split; first [reflexivity | lia].
  - intros St e c s.
    unfold Aws.calculate_secret_health_score, Scenario.example_metadata, bind, ret, now.
    cbn [Aws.last_changed]. rewrite days_between_shift.
    eexists _, _. split; [reflexivity|]. split; reflexivity.
Qed.

End HealthScore.

(** ** Field mapping *)

Section FieldMapping.

Variable self : Migration.VaultToDelineaMigrator.
Hypothesis patterns_lower :
  Migration.lowercase_patterns (Migration.field_mappings self).

(** With lower-case patterns, the dictionary lookup of the lower-cased key
    finds the first rule that equals the key up to case. *)
Lemma direct_mapping_is_exact rules key :
  Migration.lowercase_patterns rules ->
  Py.dict_get (Py.lower key) rules =
  snd <$> List.find (fun rule => Migration.ci_equal (fst rule) key) rules.
Proof.
  induction 1 as [|[pattern target] rest Hlow _ IH]; [reflexivity|].
  cbn [Py.dict_get List.find fst snd]. unfold Migration.ci_equal at 1.
  cbn [fst] in Hlow. rewrite Hlow.
  destruct (String.eqb pattern (Py.lower key)); [reflexivity | exact IH].
Qed.

Lemma partial_match_is_substring rules key :
  Migration.lowercase_patterns rules ->
  Migration.partial_match rules (Py.lower key) =
  snd <$> List.find (fun rule => Migration.ci_substring (fst rule) key) rules.
Proof.
  induction 1 as [|[pattern target] rest Hlow _ IH]; [reflexivity|].
  cbn [Migration.partial_match List.find fst snd].
  unfold Migration.ci_substring at 1. cbn [fst] in Hlow. rewrite Hlow.
  destruct (Py.contains pattern (Py.lower key)); [reflexivity | exact IH].
Qed.

(** One iteration of the loop writes the value under the destination the
    resolution order gives, and records the key when nothing matched. *)
Lemma map_field_resolve mapped skipped key value :
  Migration.map_field self (mapped, skipped) (key, value) =
  let r := Migration.resolve (Migration.field_mappings self) key in
  (Py.dict_set (Migration.destination r) (Py.str value) mapped,
   if Migration.is_unmatched r then (skipped ++ [key])%list else skipped).
Proof.
  unfold Migration.map_field, Migration.resolve.
  rewrite (direct_mapping_is_exact _ _ patterns_lower).
  rewrite (partial_match_is_substring _ _ patterns_lower).
  destruct (List.find (fun rule => Migration.ci_equal _ _) _); [reflexivity|].
  destruct (List.find (fun rule => Migration.ci_substring _ _) _); reflexivity.
Qed.

Lemma map_fields_from mapped skipped (vault_data : Py.PyDict) :
  fold_left (Migration.map_field self) vault_data (mapped, skipped) =
  (fold_left
     (fun m item =>
        Py.dict_set
          (Migration.destination
             (Migration.resolve (Migration.field_mappings self) (fst item)))
          (Py.str (snd item)) m)
     vault_data mapped,
   (skipped ++
    List.filter
      (fun key =>
         Migration.is_unmatched
           (Migration.resolve (Migration.field_mappings self) key))
      (List.map fst vault_data))%list).
Proof.
  revert mapped skipped.
  induction vault_data as [|[key value] rest IH]; intros mapped skipped.
  - cbn. by rewrite app_nil_r.
  - cbn [fold_left List.map List.filter fst snd].
    rewrite map_field_resolve. cbn zeta. rewrite IH.
    destruct (Migration.is_unmatched _); [|reflexivity].
    by rewrite <- app_assoc.
Qed.

End FieldMapping.

(** Under a rule whose pattern is [Token], [map_fields] passes the key
    [token] through under its normalised name and lists it as skipped,
    where the resolution order of the specification sends it to the
    destination of the rule. *)
Example token_key_under_capital_pattern :
  Migration.map_fields Scenario.token_migrator [("token", Py.PStr "t0k3n")] 5
    = ([("Token", "t0k3n")], ["token"]) /\
  Migration.resolved_fields (Migration.field_mappings Scenario.token_migrator)
    [("token", Py.PStr "t0k3n")]
    = ([("API Key", "t0k3n")], []).
Proof. split; vm_compute; reflexivity. Qed.

(** C8, as the specification states it, fails: the key [token] equals the
    pattern [Token] up to case, yet [map_fields] does not resolve it by
    that rule, because it lowers the key and not the pattern. *)
Lemma capital_pattern_never_matches :
  ~ Migration.resolves_up_to_case Scenario.token_migrator
      [("token", Py.PStr "t0k3n")] 5.
Proof. unfold Migration.resolves_up_to_case. vm_compute. discriminate. Qed.

(** C8, as amended.  When the patterns of the rule set are written in lower
    case, as those of the defaults are, then for every payload [map_fields]
    writes each value under the destination of its key, where a key is
    resolved by the first rule whose pattern equals it up to case,
    otherwise by the first rule, in rule order, whose pattern is a
    substring of it up to case, and otherwise passes through under its
    normalised name; the keys that matched no rule are exactly the skipped
    list, in payload order. *)
Theorem map_fields_resolution_order
    (self : Migration.VaultToDelineaMigrator) (vault_data : Py.PyDict)
    (template_id : Z) :
  Migration.lowercase_patterns (Migration.field_mappings self) ->
  Migration.resolves_up_to_case self vault_data template_id.
Proof.
  intros Hlow.
  unfold Migration.resolves_up_to_case, Migration.resolved_fields, Migration.map_fields.
  by rewrite (map_fields_from self Hlow).
Qed.

Lemma default_patterns_lower :
  Migration.lowercase_patterns
    (Migration.field_mappings (Migration.new_migrator None true)).
Proof. vm_compute. repeat constructor. Qed.

(** The default rules on a payload in mixed case: [UserName] equals the
    pattern [username] up to case; [DB_Password] and [DB_Host] contain
    several patterns and go to the first of them in rule order, [password]
    and [host], both listed before [db]; [API-KEY] equals [api-key] up to
    case; [custom_field] matches no rule. *)
Lemma map_fields_resolution_order_witness :
  Migration.lowercase_patterns
    (Migration.field_mappings (Migration.new_migrator None true)) /\
  List.map
    (Migration.resolve (Migration.field_mappings (Migration.new_migrator None true)))
    (List.map fst Scenario.mixed_case_data)
  = [Migration.ExactMatch "Username"; Migration.PartialMatch "Password";
     Migration.PartialMatch "Machine"; Migration.ExactMatch "API Key";
     Migration.Unmatched "Custom Field"] /\
  Migration.map_fields (Migration.new_migrator None true)
    Scenario.mixed_case_data 3 =
  ([("Username", "admin"); ("Password", "s3cret");
    ("Machine", "db.example.com"); ("API Key", "k-123");
    ("Custom Field", "value")],
   ["custom_field"]).
Proof.
  split; [exact default_patterns_lower|].
  split; [vm_compute; reflexivity|].
  pose proof (map_fields_resolution_order (Migration.new_migrator None true)
                Scenario.mixed_case_data 3 default_patterns_lower) as Hresolved.
  unfold Migration.resolves_up_to_case in Hresolved. rewrite Hresolved.
  vm_compute. reflexivity.
Defined.

(** ** Synchronisation *)

Section SyncRuns.

Import SyncView.

Implicit Types (s : Sync.SecretSyncManager) (c : Counters) (e : Env).

Lemma set_aws_same s : Sync.set_aws (Sync.aws_connector s) s = s.
Proof. by destruct s. Qed.

(** [get_secret] reads the clock once and changes nothing, or raises. *)
Lemma get_secret_run name e c (a : Aws.AWSSecretsConnector) :
  Aws.get_secret name e c a =
  match Aws._mock_secrets a !! name with
  | Some secret =>
      (inr {| Aws.gs_name := name; Aws.gs_arn := Aws.mock_arn name;
              Aws.gs_version_id := Aws.ms_version_id secret;
              Aws.gs_secret_data := Aws.ms_secret_value secret;
              Aws.gs_created_date := Some (Aws.ms_created secret);
              Aws.gs_last_accessed := clock e (now_calls c) |}, tick c, a)
  | None => (inl (ValueError ("Secret " +:+ name +:+ " not found")), c, a)
  end.
Proof.
  unfold Aws.get_secret, Aws._mock_get_secret, bind, gets, now, ret, raise.
  destruct (Aws._mock_secrets a !! name); reflexivity.
Qed.

Lemma aws_get_secret_run name e c s :
  Sync.aws (Aws.get_secret name) e c s =
  match aws_view s name with
  | Some secret =>
      (inr {| Aws.gs_name := name; Aws.gs_arn := Aws.mock_arn name;
              Aws.gs_version_id := Aws.ms_version_id secret;
              Aws.gs_secret_data := Aws.ms_secret_value secret;
              Aws.gs_created_date := Some (Aws.ms_created secret);
              Aws.gs_last_accessed := clock e (now_calls c) |}, tick c, s)
  | None => (inl (ValueError ("Secret " +:+ name +:+ " not found")), c, s)
  end.
Proof.
  unfold Sync.aws, zoom, aws_view. rewrite get_secret_run.
  destruct (Aws._mock_secrets _ !! name); by rewrite set_aws_same.
Qed.

Lemma get_vault_secret_run name e c s :
  Sync._get_vault_secret name e c s = (inr (vault_view s name), c, s).
Proof.
  unfold Sync._get_vault_secret, vault_view, bind, gets, ret, try_except,
    Sync.vault, zoom.
  destruct s as [mock [client|] a log]; cbn.
  - destruct mock; cbn; [reflexivity|].
    unfold Vault.read_secret_version, bind, gets, ret, raise. cbn.
    destruct (Vault.kv client !! Sync.vault_path name); cbn; by destruct client.
  - by rewrite orb_true_r.
Qed.

Lemma check_vault_run name e c s :
  Sync._check_vault_secret_exists name e c s =
  (inr (bool_decide (is_Some (vault_view s name))), c, s).
Proof.
  unfold Sync._check_vault_secret_exists, bind. by rewrite get_vault_secret_run.
Qed.

Lemma check_aws_run name e c s :
  Sync._check_aws_secret_exists name e c s =
  (inr (bool_decide (is_Some (aws_view s name))),
   match aws_view s name with Some _ => tick c | None => c end, s).
Proof.
  unfold Sync._check_aws_secret_exists, try_except, bind, ret.
  rewrite aws_get_secret_run. by destruct (aws_view s name).
Qed.

Lemma mk_result_run name direction status message vv av e c s :
  Sync.mk_result name direction status message vv av e c s =
  (inr {| Sync.secret_name := name; Sync.direction := direction;
          Sync.status := status; Sync.message := message;
          Sync.timestamp := clock e (now_calls c);
          Sync.vault_version := vv; Sync.aws_version := av |}, tick c, s).
Proof. reflexivity. Qed.

(** *** Dry runs *)

Lemma vault_to_aws_dry_run name cr e c s :
  exists r c',
    Sync._sync_vault_to_aws name cr true e c s = (inr r, c', s) /\
    Sync.status r <> "success".
Proof.
  unfold Sync._sync_vault_to_aws, bind.
  rewrite get_vault_secret_run.
  destruct (vault_view s name) as [vs|].
  - rewrite check_aws_run, mk_result_run. by eexists _, _.
  - rewrite mk_result_run. by eexists _, _.
Qed.

Lemma aws_to_vault_dry_run name cr e c s :
  (exists r c',
     Sync._sync_aws_to_vault name cr true e c s = (inr r, c', s) /\
     Sync.status r <> "success") \/
  (exists x c', Sync._sync_aws_to_vault name cr true e c s = (inl x, c', s)).
Proof.
  unfold Sync._sync_aws_to_vault, bind.
  rewrite aws_get_secret_run.
  destruct (aws_view s name) as [secret|].
  - left. rewrite check_vault_run, mk_result_run. by eexists _, _.
  - right. by eexists _, _.
Qed.

Lemma bidirectional_dry_run name cr e c s :
  (exists r c',
     Sync._sync_bidirectional name cr true e c s = (inr r, c', s) /\
     Sync.status r <> "success") \/
  (exists x c', Sync._sync_bidirectional name cr true e c s = (inl x, c', s)).
Proof.
  unfold Sync._sync_bidirectional, Sync.conflict_result, bind.
  rewrite check_vault_run, check_aws_run.
  destruct (vault_view s name) as [vs|] eqn:Hv,
           (aws_view s name) as [secret|] eqn:Ha; cbn [bool_decide andb negb].
  all: rewrite ?bool_decide_eq_true_2, ?bool_decide_eq_false_2
         by (try apply is_Some_None; eauto); cbn [andb negb].
  - destruct (Sync.is_use_newest cr).
    + rewrite get_vault_secret_run, aws_get_secret_run, Hv, Ha.
      cbn [Aws.gs_created_date].
      destruct (Vault.get_created_time vs) as [vt|].
      * destruct (Py.truthy vt).
        -- destruct (Py.str_gt vt _).
           ++ left. apply vault_to_aws_dry_run.
           ++ apply aws_to_vault_dry_run.
        -- left. rewrite mk_result_run. by eexists _, _.
      * left. rewrite mk_result_run. by eexists _, _.
    + left. rewrite mk_result_run. by eexists _, _.
  - left. apply vault_to_aws_dry_run.
  - apply aws_to_vault_dry_run.
  - left. rewrite mk_result_run. by eexists _, _.
Qed.

(** *** The audit log *)


Lemma audit_discipline_same name s out :
  match out with
  | inr r => In (Sync.status r) ["failed"; "skipped"; "conflict"]
  | inl _ => True
  end ->
  audit_discipline name s out s.
Proof. destruct out; cbn; auto. Qed.

Lemma vault_to_aws_audit name cr dry e c s :
  exists out c' s',
    Sync._sync_vault_to_aws name cr dry e c s = (out, c', s') /\
    audit_discipline name s out s'.
Proof.
  unfold Sync._sync_vault_to_aws, bind.
  rewrite get_vault_secret_run.
  destruct (vault_view s name) as [vs|].
  2:{ rewrite mk_result_run. eexists _, _, _. split; [reflexivity|].
      apply audit_discipline_same. cbn. auto. }
  rewrite check_aws_run.
  destruct dry.
  { rewrite mk_result_run. eexists _, _, _. split; [reflexivity|].
    apply audit_discipline_same. cbn. auto. }
  destruct (aws_view s name) as [secret|] eqn:Ha; cbn [bool_decide andb].
  all: rewrite ?bool_decide_eq_true_2, ?bool_decide_eq_false_2
         by (try apply is_Some_None; eauto); cbn [andb negb].
  - destruct (Sync.is_skip cr).
    { rewrite mk_result_run. eexists _, _, _. split; [reflexivity|].
      apply audit_discipline_same. cbn. auto. }
    unfold Sync.aws, zoom, Aws.update_secret, Aws._mock_update_secret,
      bind, gets, modify, now, ret.
    unfold aws_view in Ha. rewrite Ha. cbn.
    eexists _, _, _. split; [reflexivity|].
    left. split; [reflexivity|]. eexists. cbn. repeat split; eauto.
  - unfold Sync.aws, zoom, Aws.create_secret, Aws._mock_create_secret,
      bind, gets, modify, now, ret.
    unfold aws_view in Ha. rewrite Ha. cbn.
    eexists _, _, _. split; [reflexivity|].
    left. split; [reflexivity|]. eexists. cbn. repeat split; eauto.
Qed.

Lemma write_vault_secret_audit name data e c s :
  exists c' s',
    Sync._write_vault_secret name data e c s = (inr tt, c', s') /\
    Sync.audit_log s' = Sync.audit_log s.
Proof.
  unfold Sync._write_vault_secret, Sync.vault, zoom, bind, gets, ret.
  destruct s as [mock [client|] a log]; cbn.
  - destruct mock; cbn; by eexists _, _.
  - rewrite orb_true_r. by eexists _, _.
Qed.

Lemma aws_to_vault_audit name cr dry e c s :
  exists out c' s',
    Sync._sync_aws_to_vault name cr dry e c s = (out, c', s') /\
    audit_discipline name s out s'.
Proof.
  unfold Sync._sync_aws_to_vault, bind.
  rewrite aws_get_secret_run.
  destruct (aws_view s name) as [secret|].
  2:{ eexists _, _, _. split; [reflexivity|]. reflexivity. }
  rewrite check_vault_run.
  destruct dry.
  { rewrite mk_result_run. eexists _, _, _. split; [reflexivity|].
    apply audit_discipline_same. cbn. auto. }
  destruct (_ && _)%bool.
  { rewrite mk_result_run. eexists _, _, _. split; [reflexivity|].
    apply audit_discipline_same. cbn. auto. }
  destruct (write_vault_secret_audit name (Aws.ms_secret_value secret) e (tick c) s)
    as (c1 & s1 & Hw & Hlog).
  cbn [Aws.gs_secret_data]. rewrite Hw.
  unfold Sync._log_audit, bind, now, modify. rewrite mk_result_run.
  eexists _, _, _. split; [reflexivity|].
  left. split; [reflexivity|]. eexists. cbn. rewrite Hlog. repeat split; eauto.
Qed.

Lemma bidirectional_audit name cr dry e c s :
  exists out c' s',
    Sync._sync_bidirectional name cr dry e c s = (out, c', s') /\
    audit_discipline name s out s'.
Proof.
  unfold Sync._sync_bidirectional, Sync.conflict_result, bind.
  rewrite check_vault_run, check_aws_run.
  assert (Hconflict : forall c0,
    exists out c' s',
      Sync.mk_result name "bidirectional" "conflict"
        "Secret exists in both systems, manual resolution required"
        None None e c0 s = (out, c', s') /\ audit_discipline name s out s').
  { intros c0. rewrite mk_result_run. eexists _, _, _. split; [reflexivity|].
    apply audit_discipline_same. cbn. auto. }
  destruct (vault_view s name) as [vs|] eqn:Hv,
           (aws_view s name) as [secret|] eqn:Ha; cbn [bool_decide andb negb].
  all: rewrite ?bool_decide_eq_true_2, ?bool_decide_eq_false_2
         by (try apply is_Some_None; eauto); cbn [andb negb].
  - destruct (Sync.is_use_newest cr); [|apply Hconflict].
    rewrite get_vault_secret_run, aws_get_secret_run, Hv, Ha.
    cbn [Aws.gs_created_date].
    destruct (Vault.get_created_time vs) as [vt|]; [|apply Hconflict].
    destruct (Py.truthy vt); [|apply Hconflict].
    destruct (Py.str_gt vt _);
      [apply vault_to_aws_audit | apply aws_to_vault_audit].
  - apply vault_to_aws_audit.
  - apply aws_to_vault_audit.
  - rewrite mk_result_run. eexists _, _, _. split; [reflexivity|].
    apply audit_discipline_same. cbn. auto.
Qed.

End SyncRuns.

(** C5.  For every secret name, direction and conflict policy, a dry run of
    [sync_secret] returns a result and carries out no write call on either
    store: the write counters, the contents of both stores and the audit
    log are those of the state before the call. *)
Theorem dry_run_performs_no_write name direction conflict_resolution
    (e : Env) (c : Counters) (s : Sync.SecretSyncManager) :
  exists r c' s',
    Sync.sync_secret name direction conflict_resolution true e c s = (inr r, c', s') /\
    SyncView.write_calls s' = SyncView.write_calls s /\
    Sync.aws_connector s' = Sync.aws_connector s /\
    Sync.vault_client s' = Sync.vault_client s /\
    Sync.audit_log s' = Sync.audit_log s.
Proof.
  unfold Sync.sync_secret, try_except.
  destruct direction.
  - destruct (vault_to_aws_dry_run name conflict_resolution e c s)
      as (r & c' & -> & _). by eexists _, _, _.
  - destruct (aws_to_vault_dry_run name conflict_resolution e c s)
      as [(r & c' & -> & _)|(x & c' & ->)]; [|rewrite mk_result_run];
      by eexists _, _, _.
  - destruct (bidirectional_dry_run name conflict_resolution e c s)
      as [(r & c' & -> & _)|(x & c' & ->)]; [|rewrite mk_result_run];
      by eexists _, _, _.
Qed.

(** C2, as amended.  Every call of [sync_secret] ends with one of the four
    statuses.  A call that ends with "success" appends exactly one audit
    entry, which carries the operation "sync", the secret name, the
    direction of the result, the status "success", the actor "system", a
    timestamp and the version details; a call that ends with "failed",
    "skipped" or "conflict" appends none. *)
Theorem audit_entry_only_on_success name direction conflict_resolution dry_run
    (e : Env) (c : Counters) (s : Sync.SecretSyncManager) :
  exists r c' s',
    Sync.sync_secret name direction conflict_resolution dry_run e c s
      = (inr r, c', s') /\
    ((Sync.status r = "success" /\
      SyncView.audited_once name (Sync.direction r) "success" s s') \/
     (In (Sync.status r) ["failed"; "skipped"; "conflict"] /\
      Sync.audit_log s' = Sync.audit_log s)).
Proof.
  unfold Sync.sync_secret, try_except.
  assert (exists out c' s',
    match direction with
    | Sync.VAULT_TO_AWS => Sync._sync_vault_to_aws name conflict_resolution dry_run
    | Sync.AWS_TO_VAULT => Sync._sync_aws_to_vault name conflict_resolution dry_run
    | Sync.BIDIRECTIONAL => Sync._sync_bidirectional name conflict_resolution dry_run
    end e c s = (out, c', s') /\ SyncView.audit_discipline name s out s')
    as (out & c' & s' & -> & Hd).
  { destruct direction;
      [apply vault_to_aws_audit | apply aws_to_vault_audit | apply bidirectional_audit]. }
  destruct out as [x|r].
  - rewrite mk_result_run. eexists _, _, _. split; [reflexivity|].
    right. split; [cbn; auto | exact Hd].
  - eexists _, _, _. split; [reflexivity|]. exact Hd.
Qed.

(** C2, as the specification states it, fails: a sync from Vault to AWS of
    a name that Vault does not hold ends with "failed", is not a dry run,
    and leaves no audit entry. *)
Lemma failed_sync_is_not_audited :
  ~ SyncView.every_outcome_audited Scenario.env0 Scenario.c0
      Scenario.empty_manager "nope" Sync.VAULT_TO_AWS Sync.USE_NEWEST.
Proof.
  intros H.
  destruct (H _ _ _ ltac:(vm_compute; reflexivity)) as (entry & Hlog & _).
  cbn in Hlog. discriminate Hlog.
Qed.

(** C9.  A sync from Vault to AWS of a name that Vault does not hold
    returns a failed result that says the secret was not found in Vault,
    and leaves the manager, hence the audit log, as it was. *)
Theorem absent_source_fails_without_audit name conflict_resolution dry_run
    (e : Env) (c : Counters) (s : Sync.SecretSyncManager) :
  SyncView.vault_view s name = None ->
  exists r c' s',
    Sync.sync_secret name Sync.VAULT_TO_AWS conflict_resolution dry_run e c s
      = (inr r, c', s') /\
    Sync.status r = "failed" /\
    Sync.message r = "Secret not found in Vault" /\
    Sync.audit_log s' = Sync.audit_log s /\
    s' = s.
Proof.
  intros Habsent.
  unfold Sync.sync_secret, try_except, Sync._sync_vault_to_aws, bind.
  rewrite get_vault_secret_run, Habsent, mk_result_run.
  by eexists _, _, _.
Qed.

Lemma absent_source_fails_without_audit_witness :
  exists r c' s',
    Sync.sync_secret "nope" Sync.VAULT_TO_AWS Sync.USE_NEWEST false
      Scenario.env0 Scenario.c0 Scenario.empty_manager = (inr r, c', s') /\
    Sync.status r = "failed" /\
    Sync.message r = "Secret not found in Vault" /\
    Sync.audit_log s' = Sync.audit_log Scenario.empty_manager /\
    s' = Scenario.empty_manager.
Proof.
  apply (absent_source_fails_without_audit "nope" Sync.USE_NEWEST false
           Scenario.env0 Scenario.c0 Scenario.empty_manager).
  vm_compute. reflexivity.
Defined.

(** C10.  When both stores hold the secret and the policy is USE_NEWEST,
    a bidirectional sync returns the conflict result that asks for manual
    resolution, and changes nothing, whenever the creation time reported by
    Vault is missing or empty or the creation date reported by AWS is
    missing.  (The connector of the repository always reports a creation
    date, so with it only the Vault side can be the missing one.) *)
Theorem missing_timestamp_is_a_conflict name dry_run
    (e : Env) (c : Counters) (s : Sync.SecretSyncManager) :
  is_Some (SyncView.vault_view s name) ->
  is_Some (SyncView.aws_view s name) ->
  SyncView.timestamp_present (SyncView.vault_time s name) = false \/
  SyncView.aws_time s name = None ->
  exists r c' s',
    Sync.sync_secret name Sync.BIDIRECTIONAL Sync.USE_NEWEST dry_run e c s
      = (inr r, c', s') /\
    Sync.status r = "conflict" /\
    Sync.message r = "Secret exists in both systems, manual resolution required" /\
    SyncView.write_calls s' = SyncView.write_calls s /\
    s' = s.
Proof.
  intros [vs Hv] [secret Ha] Hmissing.
  unfold SyncView.vault_time, SyncView.aws_time in Hmissing.
  rewrite Hv, Ha in Hmissing. cbn in Hmissing.
  destruct Hmissing as [Hmissing|]; [|discriminate].
  unfold Sync.sync_secret, try_except, Sync._sync_bidirectional,
    Sync.conflict_result, bind.
  rewrite check_vault_run, check_aws_run, Hv, Ha.
  rewrite !bool_decide_eq_true_2 by eauto. cbn [andb negb Sync.is_use_newest].
  rewrite get_vault_secret_run, aws_get_secret_run, Hv, Ha.
  cbn [Aws.gs_created_date].
  destruct (Vault.get_created_time vs) as [vt|]; cbn in Hmissing.
  - rewrite Hmissing, mk_result_run. by eexists _, _, _.
  - rewrite mk_result_run. by eexists _, _, _.
Qed.

Lemma missing_timestamp_is_a_conflict_witness :
  exists r c' s',
    Sync.sync_secret "app/db" Sync.BIDIRECTIONAL Sync.USE_NEWEST false
      Scenario.env0 Scenario.c0 Scenario.mock_manager = (inr r, c', s') /\
    Sync.status r = "conflict" /\
    Sync.message r = "Secret exists in both systems, manual resolution required" /\
    SyncView.write_calls s' = SyncView.write_calls Scenario.mock_manager /\
    s' = Scenario.mock_manager.
Proof.
  apply (missing_timestamp_is_a_conflict "app/db" false
           Scenario.env0 Scenario.c0 Scenario.mock_manager).
  - vm_compute. eauto.
  - vm_compute. eauto.
  - left. vm_compute. reflexivity.
Defined.

(** Whatever the Vault client stores, the manager finds no creation time
    in what [_get_vault_secret] hands it: the response of the client keeps
    it under ['data'], where the manager does not look, and the placeholder
    of the mock mode has none. *)
Lemma created_time_is_never_found (s : Sync.SecretSyncManager) name :
  SyncView.vault_time s name = None.
Proof.
  unfold SyncView.vault_time, SyncView.vault_view.
  destruct s as [mock [client|] a log]; cbn; [|reflexivity].
  destruct mock; [reflexivity|].
  by destruct (Vault.kv client !! Sync.vault_path name).
Qed.

(** C1, evaluated on a manager outside mock mode whose two stores hold
    [app/db]: the Vault version was written on 2025-06-01 and the AWS
    secret was created at any instant, earlier, later or the same.  The
    manager finds no creation time on the Vault side, so a bidirectional
    sync with USE_NEWEST that is not a dry run compares nothing: it
    returns the conflict result and leaves both stores and the audit log
    as they were.  Neither the newer side nor, on a tie, the Vault side is
    written to the other. *)
Theorem use_newest_syncs_from_neither_side (aws_created : DateTime.t) :
  let s := Scenario.both_manager_at aws_created in
  SyncView.vault_created s "app/db" = Some "2025-06-01T00:00:00Z" /\
  SyncView.aws_time s "app/db" = Some aws_created /\
  SyncView.vault_time s "app/db" = None /\
  exists r c',
    Sync.sync_secret "app/db" Sync.BIDIRECTIONAL Sync.USE_NEWEST false
      Scenario.env0 Scenario.c0 s = (inr r, c', s) /\
    Sync.status r = "conflict" /\
    Sync.direction r = "bidirectional" /\
    Sync.message r = "Secret exists in both systems, manual resolution required".
Proof.
  intros s.
  split; [vm_compute; reflexivity|].
  split; [vm_compute; reflexivity|].
  split; [apply created_time_is_never_found|].
  assert (Hv : is_Some (SyncView.vault_view s "app/db")) by (vm_compute; eauto).
  assert (Ha : SyncView.aws_view s "app/db"
               = Some (Scenario.aws_entry
                         (Aws.SVDict [("password", Py.PStr "from-aws")]) aws_created))
    by (vm_compute; reflexivity).
  destruct Hv as [vs Hv].
  pose proof (created_time_is_never_found s "app/db") as Htime.
  unfold SyncView.vault_time in Htime. rewrite Hv in Htime. cbn in Htime.
  unfold Sync.sync_secret, try_except, Sync._sync_bidirectional,
    Sync.conflict_result, bind.
  rewrite check_vault_run, check_aws_run, Hv, Ha.
  rewrite !bool_decide_eq_true_2 by eauto. cbn [andb negb Sync.is_use_newest].
  rewrite get_vault_secret_run, aws_get_secret_run, Hv, Ha.
  cbn [Aws.gs_created_date]. rewrite Htime, mk_result_run.
  by eexists _, _.
Qed.

(** ** Rotation *)

Section RotationRuns.

Import SyncView RotationView.

Implicit Types (h : Rotation.RotationEventHandler) (c : Counters) (e : Env).

Lemma same_records_refl h : same_records h h.
Proof. by repeat split. Qed.

Lemma same_records_set_aws a h : same_records h (Rotation.set_aws a h).
Proof. by repeat split. Qed.

Lemma rotation_set_aws_same h : Rotation.set_aws (Rotation.aws_connector h) h = h.
Proof. by destruct h. Qed.

Lemma rotation_aws_get_run name e c h :
  Rotation.aws (Aws.get_secret name) e c h =
  match Aws._mock_secrets (Rotation.aws_connector h) !! name with
  | Some secret =>
      (inr {| Aws.gs_name := name; Aws.gs_arn := Aws.mock_arn name;
              Aws.gs_version_id := Aws.ms_version_id secret;
              Aws.gs_secret_data := Aws.ms_secret_value secret;
              Aws.gs_created_date := Some (Aws.ms_created secret);
              Aws.gs_last_accessed := clock e (now_calls c) |}, tick c, h)
  | None => (inl (ValueError ("Secret " +:+ name +:+ " not found")), c, h)
  end.
Proof.
  unfold Rotation.aws, zoom. rewrite get_secret_run.
  destruct (Aws._mock_secrets _ !! name); by rewrite rotation_set_aws_same.
Qed.

(** Drawing a password consumes random values and leaves the state alone. *)
Lemma random_password_run {St} n e c (st : St) :
  exists password c', Rotation.random_password n e c st = (inr password, c', st).
Proof.
  revert c. induction n as [|n IH]; intros c; cbn [Rotation.random_password].
  - by eexists _, _.
  - unfold bind, Rotation.choice, randbelow, ret. cbn.
    destruct (IH {| now_calls := now_calls c; rng_calls := S (rng_calls c) |})
      as (password & c' & ->).
    by eexists _, _.
Qed.

Lemma generate_secret_value_run {St} name e c (st : St) :
  exists value c', Rotation._generate_secret_value name e c st = (inr value, c', st).
Proof.
  unfold Rotation._generate_secret_value, bind, ret.
  destruct (random_password_run 32 e c st) as (password & c' & ->).
  by eexists _, _.
Qed.

Lemma create_secret_records event e c h :
  exists out c' h',
    Rotation._handle_create_secret event e c h = (out, c', h') /\
    same_records h h'.
Proof.
  unfold Rotation._handle_create_secret, bind.
  destruct (generate_secret_value_run (Rotation.secret_name event) e c h)
    as (value & c1 & ->).
  unfold gets at 1. destruct (Rotation.mock_mode h); cbn [negb].
  - eexists _, _, _. split; [reflexivity | apply same_records_refl].
  - rewrite rotation_aws_get_run.
    destruct (Aws._mock_secrets _ !! _) as [secret|] eqn:Hs.
    + unfold Rotation.aws, zoom, Aws.update_secret, Aws._mock_update_secret,
        bind, gets, modify, now, ret.
      rewrite Hs. eexists _, _, _. split; [reflexivity|].
      apply same_records_set_aws.
    + eexists _, _, _. split; [reflexivity | apply same_records_refl].
Qed.

Lemma set_secret_records hooks event e c h :
  exists out c',
    Rotation._handle_set_secret hooks event e c h = (out, c', h).
Proof.
  unfold Rotation._handle_set_secret, bind.
  unfold gets at 1. destruct (Rotation.mock_mode h); cbn [negb].
  - by eexists _, _.
  - rewrite rotation_aws_get_run.
    destruct (Aws._mock_secrets _ !! _); by eexists _, _.
Qed.

Lemma test_secret_records hooks event e c h :
  exists out c',
    Rotation._handle_test_secret hooks event e c h = (out, c', h).
Proof.
  unfold Rotation._handle_test_secret, bind.
  unfold gets at 1. destruct (Rotation.mock_mode h); cbn [negb].
  - by eexists _, _.
  - rewrite rotation_aws_get_run.
    destruct (Aws._mock_secrets _ !! _); [|by eexists _, _].
    cbn [Aws.gs_secret_data].
    destruct (Rotation._test_secret_authentication _ _ _); by eexists _, _.
Qed.

(** The handler always answers, and before the finishing step it changes
    neither the history nor the schedules. *)
Lemma early_step_records hooks event e c h :
  Rotation.Step event <> "finishSecret" ->
  exists response c' h',
    Rotation.handle_aws_rotation_event hooks event e c h = (inr response, c', h') /\
    same_records h h'.
Proof.
  intros Hstep.
  unfold Rotation.handle_aws_rotation_event, try_except, bind, now.
  destruct (String.eqb (Rotation.Step event) "createSecret").
  { edestruct create_secret_records as (out & c' & h' & -> & Hrec).
    destruct out; cbn; eexists _, _, _; (split; [reflexivity | exact Hrec]). }
  destruct (String.eqb (Rotation.Step event) "setSecret").
  { edestruct set_secret_records as (out & c' & ->).
    destruct out; cbn; eexists _, _, _;
      (split; [reflexivity | apply same_records_refl]). }
  destruct (String.eqb (Rotation.Step event) "testSecret").
  { edestruct test_secret_records as (out & c' & ->).
    destruct out; cbn; eexists _, _, _;
      (split; [reflexivity | apply same_records_refl]). }
  destruct (String.eqb_spec (Rotation.Step event) "finishSecret"); [done|].
  cbn. eexists _, _, _. split; [reflexivity | apply same_records_refl].
Qed.

(** The last five of a list that ends with [x] end with [x]. *)
Lemma last_five_snoc {A} (l : list A) x :
  last (Rotation.last_five (l ++ [x])) = Some x.
Proof.
  unfold Rotation.last_five. rewrite length_app. cbn [length].
  change (@skipn A) with (@drop A). rewrite drop_app.
  replace (length l + 1 - 5 - length l)%nat with 0%nat by lia.
  cbn [drop]. apply last_snoc.
Qed.

Lemma last_status_snoc h h' result :
  Rotation.rotation_history h' = (Rotation.rotation_history h ++ [result])%list ->
  Rotation.last_status h' (Rotation.rr_secret_name result) =
  Some (Rotation.status_value (Rotation.rr_status result)).
Proof.
  intros Hhist. unfold Rotation.last_status, Rotation.recent_rotations.
  rewrite Hhist, filter_app, filter_cons_True, filter_nil by reflexivity.
  by rewrite last_five_snoc.
Qed.

(** A sum that does not raise is the instant plus the interval. *)
Lemma add_days_inr t n next :
  DateTime.add_days t n = inr next -> next = t + DateTime.timedelta_days n.
Proof.
  unfold DateTime.add_days.
  repeat (match goal with |- context [if ?b then _ else _] => destruct b end);
    congruence.
Qed.

(** The update of a schedule: one clock reading when a schedule is
    registered under the name, none otherwise.  The schedule gets its new
    last rotation before the sum is computed. *)
Lemma update_rotation_schedule_run name e c h :
  Rotation._update_rotation_schedule name e c h =
  match Rotation.rotation_schedules h !! name with
  | Some schedule =>
      let t := clock e (now_calls c) in
      match DateTime.add_days t (Rotation.rotation_interval_days schedule) with
      | inl msg =>
          (inl (OverflowError msg), tick c,
           Rotation.set_schedules
             (alter (Rotation.set_last_rotation t) name (Rotation.rotation_schedules h))
             h)
      | inr next =>
          (inr tt, tick c,
           Rotation.set_schedules
             (alter (Rotation.set_next_rotation next) name
                (alter (Rotation.set_last_rotation t) name
                   (Rotation.rotation_schedules h)))
             h)
      end
  | None => (inr tt, c, h)
  end.
Proof.
  unfold Rotation._update_rotation_schedule, Rotation.update_schedule,
    bind, gets, now, modify, raise, ret.
  destruct (Rotation.rotation_schedules h !! name) as [schedule|]; [|reflexivity].
  cbn zeta. by destruct (DateTime.add_days _ _).
Qed.

(** The finishing step: the result is recorded first, then the schedule is
    updated, and an error of the update is answered with 500. *)
Lemma finish_secret_run hooks event e c h :
  Rotation.Step event = "finishSecret" ->
  Rotation.handle_aws_rotation_event hooks event e c h =
  match
    Rotation._update_rotation_schedule
      (Rotation._extract_secret_name_from_arn (Rotation.SecretId event))
      e (tick (tick (tick c)))
      (Rotation.set_history
         (Rotation.rotation_history h ++ [RotationView.finish_result event e c]) h)
  with
  | (inr _, c', h') =>
      (inr (Rotation.ok "Rotation finished successfully" "finishSecret"), c', h')
  | (inl x, c', h') =>
      (inr {| Rotation.statusCode := 500; Rotation.body := Rotation.Error (exn_str x) |},
       c', h')
  end.
Proof.
  intros Hstep.
  unfold Rotation.handle_aws_rotation_event, try_except, bind, now.
  rewrite Hstep. cbn [String.eqb Ascii.eqb Bool.eqb].
  unfold Rotation._handle_finish_secret, bind, now, modify, ret.
  cbn [now_calls rng_calls Rotation.secret_name Rotation.timestamp].
  fold (tick c). fold (tick (tick c)). fold (tick (tick (tick c))).
  fold (RotationView.finish_result event e c).
  by destruct (Rotation._update_rotation_schedule _ _ _ _) as [[[x|[]] c'] h'].
Qed.

(** What a finishing step that answers 200 has done: it has recorded one
    success for the name it derives from the identifier, and a schedule
    registered under that very name was advanced at the last instant the
    step read from the clock. *)
Lemma finished_rotation_advances_derived_name hooks event e c h response c' h' :
  Rotation.Step event = "finishSecret" ->
  Rotation.handle_aws_rotation_event hooks event e c h = (inr response, c', h') ->
  Rotation.statusCode response = 200 ->
  let secret_name := Rotation._extract_secret_name_from_arn (Rotation.SecretId event) in
  Rotation.rotation_history h'
    = (Rotation.rotation_history h ++ [RotationView.finish_result event e c])%list /\
  Rotation.last_status h' secret_name = Some "success" /\
  Rotation.aws_connector h' = Rotation.aws_connector h /\
  match Rotation.rotation_schedules h !! secret_name with
  | Some schedule =>
      exists schedule',
        Rotation.rotation_schedules h' !! secret_name = Some schedule' /\
        Rotation.rotation_interval_days schedule' =
          Rotation.rotation_interval_days schedule /\
        schedule_advanced (clock e (pred (now_calls c'))) schedule'
  | None => Rotation.rotation_schedules h' = Rotation.rotation_schedules h
  end.
Proof.
  intros Hstep Hrun Hok secret_name.
  rewrite (finish_secret_run hooks event e c h Hstep) in Hrun.
  rewrite update_rotation_schedule_run in Hrun.
  cbn [Rotation.rotation_schedules Rotation.set_history] in Hrun.
  fold secret_name in Hrun.
  assert (Hlast : forall h0,
            Rotation.rotation_history h0
              = (Rotation.rotation_history h ++ [RotationView.finish_result event e c])%list ->
            Rotation.last_status h0 secret_name = Some "success").
  { intros h0 Hhist. exact (last_status_snoc h h0 _ Hhist). }
  destruct (Rotation.rotation_schedules h !! secret_name) as [schedule|] eqn:Hs.
  - cbn zeta in Hrun.
    destruct (DateTime.add_days _ _) as [msg|next] eqn:Hadd.
    + injection Hrun as <- _ _. discriminate Hok.
    + injection Hrun as _ <- <-. apply add_days_inr in Hadd.
      split; [reflexivity|]. split; [by apply Hlast|]. split; [reflexivity|].
      eexists. cbn [Rotation.rotation_schedules Rotation.set_schedules].
      rewrite !lookup_alter_eq, Hs. cbn [fmap option_fmap option_map].
      split; [reflexivity|]. split; [reflexivity|].
      split; [reflexivity|]. cbn. by rewrite Hadd.
  - injection Hrun as _ _ <-.
    split; [reflexivity|]. split; [by apply Hlast|]. by split.
Qed.

End RotationRuns.

(** C3, evaluated on the handler outside mock mode whose store serves
    ["old-password"] for [db].  The createSecret step answers 200 and the
    store then serves the candidate, not the credential that was active;
    the same event with the same token, sent again, replaces the
    candidate by a second one and is a second write. *)
Theorem create_secret_overwrites_active_credential :
  exists response c1 h1 response' c2 h2,
    Rotation.handle_aws_rotation_event Rotation.placeholders
      Scenario.create_event Scenario.env0 Scenario.c0 Scenario.live_handler
      = (inr response, c1, h1) /\
    Rotation.statusCode response = 200 /\
    RotationView.active_credential Scenario.live_handler "db"
      = Some (Aws.SVStr "old-password") /\
    RotationView.active_credential h1 "db"
      = Some (Aws.SVDict
                [("username", Py.PStr "db_user");
                 ("password", Py.PStr "abcdefghijklmnopqrstuvwxyzABCDEF");
                 ("engine", Py.PStr "postgresql");
                 ("host", Py.PStr "localhost"); ("port", Py.PInt 5432)]) /\
    Rotation.handle_aws_rotation_event Rotation.placeholders
      Scenario.create_event Scenario.env0 c1 h1 = (inr response', c2, h2) /\
    Rotation.statusCode response' = 200 /\
    RotationView.active_credential h2 "db"
      <> RotationView.active_credential h1 "db" /\
    Aws.aws_writes (Rotation.aws_connector h2) = 2%nat.
Proof.
  eexists _, _, _, _, _, _.
  split; [vm_compute; reflexivity|].
  split; [reflexivity|].
  split; [vm_compute; reflexivity|].
  split; [vm_compute; reflexivity|].
  split; [vm_compute; reflexivity|].
  split; [reflexivity|].
  split; [vm_compute; discriminate | vm_compute; reflexivity].
Qed.

(** C4, as the specification states it, fails: after a test step that the
    prober rejected, the status of the rotation is not "failed". *)
Lemma rejected_test_is_not_recorded_as_failed :
  ~ RotationView.rejected_test_halts_in_failed Scenario.rejecting
      Scenario.env0 Scenario.c0 Scenario.live_handler "db" "token-12345".
Proof.
  intros H.
  destruct (H _ _ _ ltac:(vm_compute; reflexivity) ltac:(vm_compute; reflexivity))
    as [Hphase _].
  vm_compute in Hphase. discriminate Hphase.
Qed.

(** C4, as amended.  When the prober returns false during the test step,
    the handler answers 500 with the error "Secret test failed -
    authentication unsuccessful", and the step leaves the handler as it
    was: the stored credential, the rotation history, in which no success
    is recorded, and the schedules are those from before the step. *)
Theorem rejected_test_answers_500 hooks event
    (e : Env) (c : Counters) (h : Rotation.RotationEventHandler)
    (secret : Aws.MockSecret) :
  Rotation.Step event = "testSecret" ->
  Rotation.mock_mode h = false ->
  let secret_name := Rotation._extract_secret_name_from_arn (Rotation.SecretId event) in
  Aws._mock_secrets (Rotation.aws_connector h) !! secret_name = Some secret ->
  Rotation._test_secret_authentication hooks secret_name
    (Aws.ms_secret_value secret) = false ->
  exists c' h',
    Rotation.handle_aws_rotation_event hooks event e c h =
      (inr {| Rotation.statusCode := 500;
              Rotation.body :=
                Rotation.Error "Secret test failed - authentication unsuccessful" |},
       c', h') /\
    h' = h /\
    RotationView.active_credential h' secret_name
      = RotationView.active_credential h secret_name /\
    Rotation.rotation_history h' = Rotation.rotation_history h /\
    Rotation.rotation_schedules h' = Rotation.rotation_schedules h.
Proof.
  intros Hstep Hmode secret_name Hstored Hreject.
  unfold Rotation.handle_aws_rotation_event, try_except, bind, now.
  rewrite Hstep. cbn [String.eqb Ascii.eqb Bool.eqb].
  unfold Rotation._handle_test_secret, bind.
  unfold gets at 1. rewrite Hmode. cbn [negb].
  rewrite rotation_aws_get_run. cbn [Rotation.secret_name].
  fold secret_name. rewrite Hstored. cbn [Aws.gs_secret_data].
  rewrite Hreject. cbn. by eexists _, _.
Qed.

Lemma rejected_test_answers_500_witness :
  exists c' h',
    Rotation.handle_aws_rotation_event Scenario.rejecting Scenario.test_event
      Scenario.env0 Scenario.c0 Scenario.live_handler =
      (inr {| Rotation.statusCode := 500;
              Rotation.body :=
                Rotation.Error "Secret test failed - authentication unsuccessful" |},
       c', h') /\
    h' = Scenario.live_handler /\
    RotationView.active_credential h' "db"
      = RotationView.active_credential Scenario.live_handler "db" /\
    Rotation.rotation_history h' = Rotation.rotation_history Scenario.live_handler /\
    Rotation.rotation_schedules h' = Rotation.rotation_schedules Scenario.live_handler.
Proof.
  apply (rejected_test_answers_500 Scenario.rejecting Scenario.test_event
           Scenario.env0 Scenario.c0 Scenario.live_handler
           (Scenario.aws_entry (Aws.SVStr "old-password") Scenario.new_year_2025)).
  - reflexivity.
  - reflexivity.
  - vm_compute. reflexivity.
  - reflexivity.
Defined.

(** C6, evaluated on the handler of the demonstration, in mock mode, after
    a 30-day schedule has been registered for [database-credentials], on
    the four events of one rotation of that secret, which carry its
    identifier [...:secret:database-credentials-AbCdEf].  All four steps
    answer 200 and one success is recorded, but under the name [database],
    the part of the identifier before its first hyphen.  The schedule of
    [database-credentials] is not advanced: it is the schedule as it was
    registered, with the instant of the registration as its last rotation,
    three clock readings before the rotation began, and the secret has no
    last status. *)
Theorem hyphenated_secret_keeps_stale_schedule :
  exists schedule c1 h1 responses c2 h2 result,
    Rotation.schedule_rotation "database-credentials" 30
      Scenario.env0 Scenario.c0 Scenario.mock_handler = (inr schedule, c1, h1) /\
    Demo.rotation_events Rotation.placeholders Scenario.database_credentials_arn
      "token-12345" Scenario.four_steps Scenario.env0 c1 h1
      = (inr responses, c2, h2) /\
    List.map Rotation.statusCode responses = [200; 200; 200; 200] /\
    Rotation.rotation_history h2 = [result] /\
    Rotation.rr_secret_name result = "database" /\
    Rotation.rr_status result = Rotation.SUCCESS /\
    Rotation.start_time result = clock Scenario.env0 4 /\
    Rotation.end_time result = Some (clock Scenario.env0 5) /\
    Rotation.rotation_schedules h2 !! "database-credentials" = Some schedule /\
    Rotation.last_rotation schedule = Some (clock Scenario.env0 0) /\
    Rotation.next_rotation schedule
      = Some (clock Scenario.env0 0 + DateTime.timedelta_days 30) /\
    Rotation.last_status h2 "database-credentials" = None /\
    Rotation.rotation_schedules h2 !! "database" = None.
Proof.
  eexists _, _, _, _, _, _, _.
  split; [vm_compute; reflexivity|].
  split; [vm_compute; reflexivity|].
  split; [reflexivity|].
  split; [vm_compute; reflexivity|].
  repeat split; vm_compute; reflexivity.
Qed.

(** * Further properties of the embedded code *)

(** ** The connector in mock mode *)

Section Connector.

Import SyncView.

Implicit Types (a : Aws.AWSSecretsConnector) (c : Counters) (e : Env).

(** X1.  Creating a secret under a free name succeeds with version "v1",
    and the secret is then served with the stored value, version "v1" and
    the first clock reading of the creation as its creation date; no other
    name is affected. *)
Theorem create_then_get name value description tags e c a :
  Aws._mock_secrets a !! name = None ->
  exists w a1 g,
    Aws.create_secret name value description tags e c a
      = (inr w, tick (tick c), a1) /\
    Aws.wr_version_id w = "v1" /\
    Aws.get_secret name e (tick (tick c)) a1 = (inr g, tick (tick (tick c)), a1) /\
    Aws.gs_secret_data g = value /\
    Aws.gs_version_id g = "v1" /\
    Aws.gs_created_date g = Some (clock e (now_calls c)) /\
    forall other, other <> name ->
      Aws._mock_secrets a1 !! other = Aws._mock_secrets a !! other.
Proof.
  intros Hfree.
  unfold Aws.create_secret, Aws._mock_create_secret, bind, gets, modify, now, ret.
  rewrite Hfree. eexists _, _, _. split; [reflexivity|].
  rewrite get_secret_run. cbn. rewrite lookup_insert_eq.
  repeat split. intros other Hother. by rewrite lookup_insert_ne.
Qed.

Lemma create_then_get_witness :
  exists w a1 g,
    Aws.create_secret "app/db" (Aws.SVStr "s3cret") None None
      Scenario.env0 Scenario.c0
      {| Aws._mock_secrets := ∅; Aws.aws_writes := 0 |}
      = (inr w, tick (tick Scenario.c0), a1) /\
    Aws.wr_version_id w = "v1" /\
    Aws.get_secret "app/db" Scenario.env0 (tick (tick Scenario.c0)) a1
      = (inr g, tick (tick (tick Scenario.c0)), a1) /\
    Aws.gs_secret_data g = Aws.SVStr "s3cret" /\
    Aws.gs_version_id g = "v1" /\
    Aws.gs_created_date g = Some (clock Scenario.env0 (now_calls Scenario.c0)) /\
    forall other, other <> "app/db" ->
      Aws._mock_secrets a1 !! other
        = Aws._mock_secrets {| Aws._mock_secrets := ∅; Aws.aws_writes := 0 |} !! other.
Proof.
  apply (create_then_get "app/db" (Aws.SVStr "s3cret") None None
           Scenario.env0 Scenario.c0
           {| Aws._mock_secrets := ∅; Aws.aws_writes := 0 |}).
  reflexivity.
Defined.

(** X2.  Reading, updating or deleting a name the store does not hold
    raises [ValueError] with the message "Secret <name> not found", reads
    no clock and leaves the connector as it was. *)
Theorem absent_name_raises name value description window force e c a :
  Aws._mock_secrets a !! name = None ->
  let not_found := ValueError ("Secret " +:+ name +:+ " not found") in
  Aws.get_secret name e c a = (inl not_found, c, a) /\
  Aws.update_secret name value description e c a = (inl not_found, c, a) /\
  Aws.delete_secret name window force e c a = (inl not_found, c, a).
Proof.
  intros Habsent not_found.
  unfold Aws.get_secret, Aws._mock_get_secret, Aws.update_secret,
    Aws._mock_update_secret, Aws.delete_secret, Aws._mock_delete_secret,
    bind, gets, raise.
  by rewrite Habsent.
Qed.

Lemma absent_name_raises_witness :
  let a := {| Aws._mock_secrets := ∅; Aws.aws_writes := 0 |} in
  let not_found := ValueError "Secret app/db not found" in
  Aws.get_secret "app/db" Scenario.env0 Scenario.c0 a
    = (inl not_found, Scenario.c0, a) /\
  Aws.update_secret "app/db" (Aws.SVStr "x") None Scenario.env0 Scenario.c0 a
    = (inl not_found, Scenario.c0, a) /\
  Aws.delete_secret "app/db" 30 false Scenario.env0 Scenario.c0 a
    = (inl not_found, Scenario.c0, a).
Proof.
  apply (absent_name_raises "app/db" (Aws.SVStr "x") None 30 false
           Scenario.env0 Scenario.c0
           {| Aws._mock_secrets := ∅; Aws.aws_writes := 0 |}).
  reflexivity.
Defined.

(** X3.  Creating a secret under a name the store already holds raises
    [ValueError] with the message "Secret <name> already exists" and leaves
    the stored secret, and the whole connector, as it was. *)
Theorem create_existing_raises name value description tags e c a :
  is_Some (Aws._mock_secrets a !! name) ->
  Aws.create_secret name value description tags e c a
    = (inl (ValueError ("Secret " +:+ name +:+ " already exists")), c, a).
Proof.
  intros [secret Hheld].
  unfold Aws.create_secret, Aws._mock_create_secret, bind, gets, raise.
  by rewrite Hheld.
Qed.

Lemma create_existing_raises_witness :
  Aws.create_secret "app/db" (Aws.SVStr "x") None None Scenario.env0 Scenario.c0
    (Sync.aws_connector Scenario.mock_manager)
    = (inl (ValueError "Secret app/db already exists"), Scenario.c0,
       Sync.aws_connector Scenario.mock_manager).
Proof.
  apply (create_existing_raises "app/db" (Aws.SVStr "x") None None
           Scenario.env0 Scenario.c0 (Sync.aws_connector Scenario.mock_manager)).
  vm_compute. eauto.
Defined.

(** X4.  Updating a held secret returns version "v2" and replaces the
    value, but the secret is afterwards still served with the version
    identifier and the creation date it had before: the stored version never
    advances.  The description is replaced only by a non-empty one. *)
Theorem update_keeps_version_and_creation name value description e c a secret :
  Aws._mock_secrets a !! name = Some secret ->
  exists w a1 g,
    Aws.update_secret name value description e c a = (inr w, tick c, a1) /\
    Aws.wr_version_id w = "v2" /\
    Aws.aws_writes a1 = S (Aws.aws_writes a) /\
    Aws.get_secret name e (tick c) a1 = (inr g, tick (tick c), a1) /\
    Aws.gs_secret_data g = value /\
    Aws.gs_version_id g = Aws.ms_version_id secret /\
    Aws.gs_created_date g = Some (Aws.ms_created secret) /\
    (Aws.ms_description <$> Aws._mock_secrets a1 !! name) =
      Some (match description with
            | Some (String _ _) => description
            | _ => Aws.ms_description secret
            end).
Proof.
  intros Hheld.
  unfold Aws.update_secret, Aws._mock_update_secret, bind, gets, modify, now, ret.
  rewrite Hheld. eexists _, _, _. split; [reflexivity|].
  rewrite get_secret_run. cbn. rewrite lookup_insert_eq. cbn.
  repeat split. by destruct description as [[|]|].
Qed.

Lemma update_keeps_version_and_creation_witness :
  exists w a1 g,
    Aws.update_secret "app/db" (Aws.SVStr "rotated") (Some "") Scenario.env0
      Scenario.c0 (Sync.aws_connector Scenario.mock_manager)
      = (inr w, tick Scenario.c0, a1) /\
    Aws.wr_version_id w = "v2" /\
    Aws.aws_writes a1 = 1%nat /\
    Aws.get_secret "app/db" Scenario.env0 (tick Scenario.c0) a1
      = (inr g, tick (tick Scenario.c0), a1) /\
    Aws.gs_secret_data g = Aws.SVStr "rotated" /\
    Aws.gs_version_id g = "v1" /\
    Aws.gs_created_date g = Some Scenario.new_year_2025 /\
    (Aws.ms_description <$> Aws._mock_secrets a1 !! "app/db") = Some None.
Proof.
  apply (update_keeps_version_and_creation "app/db" (Aws.SVStr "rotated")
           (Some "") Scenario.env0 Scenario.c0
           (Sync.aws_connector Scenario.mock_manager)
           (Scenario.aws_entry (Aws.SVStr "from-aws") Scenario.new_year_2025)).
  vm_compute. reflexivity.
Defined.

(** X5.  Deleting a held secret succeeds, after which the name is no longer
    served (reading it raises the not-found error) and can be created
    again; every other name is served as before. *)
Theorem delete_then_get name window force e c a :
  is_Some (Aws._mock_secrets a !! name) ->
  exists d a1,
    Aws.delete_secret name window force e c a = (inr d, tick c, a1) /\
    Aws.dr_deletion_date d = clock e (now_calls c) /\
    Aws._mock_secrets a1 !! name = None /\
    Aws.get_secret name e (tick c) a1
      = (inl (ValueError ("Secret " +:+ name +:+ " not found")), tick c, a1) /\
    forall other, other <> name ->
      Aws._mock_secrets a1 !! other = Aws._mock_secrets a !! other.
Proof.
  intros [secret Hheld].
  unfold Aws.delete_secret, Aws._mock_delete_secret, bind, gets, modify, now, ret.
  rewrite Hheld. eexists _, _. split; [reflexivity|].
  rewrite get_secret_run. cbn. rewrite lookup_delete_eq.
  repeat split. intros other Hother. by rewrite lookup_delete_ne.
Qed.

Lemma delete_then_get_witness :
  exists d a1,
    Aws.delete_secret "app/db" 30 false Scenario.env0 Scenario.c0
      (Sync.aws_connector Scenario.mock_manager) = (inr d, tick Scenario.c0, a1) /\
    Aws.dr_deletion_date d = clock Scenario.env0 (now_calls Scenario.c0) /\
    Aws._mock_secrets a1 !! "app/db" = None /\
    Aws.get_secret "app/db" Scenario.env0 (tick Scenario.c0) a1
      = (inl (ValueError "Secret app/db not found"), tick Scenario.c0, a1) /\
    forall other, other <> "app/db" ->
      Aws._mock_secrets a1 !! other
        = Aws._mock_secrets (Sync.aws_connector Scenario.mock_manager) !! other.
Proof.
  apply (delete_then_get "app/db" 30 false Scenario.env0 Scenario.c0
           (Sync.aws_connector Scenario.mock_manager)).
  vm_compute. eauto.
Defined.

End Connector.

(** ** More on the health score *)

Section HealthFacts.

Import SyncView.

Lemma staleness_facts days_old :
  exists found advice,
    Aws.staleness days_old
      = (100 - HealthSpec.age_penalty (Some days_old), found, advice) /\
    length found = length advice /\
    length found =
      if Z.eqb (HealthSpec.age_penalty (Some days_old)) 0 then 0%nat else 1%nat.
Proof.
  unfold Aws.staleness, HealthSpec.age_penalty.
  destruct (days_old >? 365); [|destruct (days_old >? 180);
    [|destruct (days_old >? 90)]];
    eexists _, _; repeat split; reflexivity.
Qed.

(** The score, and how many issues and recommendations come with it. *)
Lemma health_score_facts {St} (md : Aws.SecretMetadata) (e : Env) (c : Counters)
    (s : St) :
  exists hs c',
    Aws.calculate_secret_health_score md e c s = (inr hs, c', s) /\
    let age :=
      HealthSpec.age_penalty
        (DateTime.days_between (clock e (now_calls c)) <$> Aws.last_changed md) in
    let rotation := HealthSpec.rotation_penalty (Aws.rotation_enabled md) in
    let tagging := HealthSpec.tag_penalty (Aws.tags md) in
    Aws.health_score hs = 100 - age - rotation - tagging /\
    Aws.status hs = HealthSpec.bucket (Aws.health_score hs) /\
    length (Aws.issues hs) = length (Aws.recommendations hs) /\
    length (Aws.issues hs) =
      ((if Z.eqb age 0 then 0 else 1) + (if Z.eqb rotation 0 then 0 else 1) +
       (if Z.eqb tagging 0 then 0 else 1))%nat.
Proof.
  unfold Aws.calculate_secret_health_score, bind, ret, now.
  unfold HealthSpec.tag_penalty, HealthSpec.rotation_penalty.
  cbn [forallb Aws.required_tags].
  destruct (Aws.tags md !! "Environment") eqn:He,
           (Aws.tags md !! "Owner") eqn:Ho,
           (Aws.tags md !! "Application") eqn:Ha;
  destruct (Aws.rotation_enabled md);
  (destruct (Aws.last_changed md) as [lc|] eqn:Hlc; cbn [fmap option_fmap option_map];
   [ destruct (staleness_facts (DateTime.days_between (clock e (now_calls c)) lc))
       as (found & advice & -> & Hlen & Hcount)
   | ]);
  cbn; rewrite ?He, ?Ho, ?Ha; cbn;
  eexists _, _; (split; [reflexivity|]); cbn;
  rewrite ?length_app; cbn;
  unfold HealthSpec.bucket, HealthSpec.age_penalty in *;
  repeat case_match; try lia; repeat split; first [reflexivity | lia].
Qed.

(** X6.  The health score lies between 30 and 100.  There are as many
    recommendations as issues, at most three, and every issue costs at
    least ten points, so the score is 100 exactly when no issue is
    reported. *)
Theorem health_score_bounds {St} (md : Aws.SecretMetadata) (e : Env)
    (c : Counters) (s : St) :
  exists hs c',
    Aws.calculate_secret_health_score md e c s = (inr hs, c', s) /\
    30 <= Aws.health_score hs <= 100 /\
    length (Aws.issues hs) = length (Aws.recommendations hs) /\
    (length (Aws.issues hs) <= 3)%nat /\
    Aws.health_score hs <= 100 - 10 * Z.of_nat (length (Aws.issues hs)) /\
    (Aws.health_score hs = 100 <-> Aws.issues hs = []).
Proof.
  destruct (health_score_facts md e c s)
    as (hs & c' & Hrun & Hscore & _ & Hlen & Hcount).
  exists hs, c'. split; [exact Hrun|]. cbn zeta in Hscore, Hcount.
  rewrite <- length_zero_iff_nil, Hscore, <- Hlen, Hcount.
  unfold HealthSpec.age_penalty, HealthSpec.rotation_penalty, HealthSpec.tag_penalty.
  repeat case_match; cbn; repeat split; try lia; discriminate.
Qed.

(** X7.  Of two secrets that differ only in the date of their last change,
    scored at the same instant, the one changed earlier never scores
    higher. *)
Theorem older_secret_scores_no_higher {St} (md md' : Aws.SecretMetadata)
    (changed changed' : DateTime.t) (e : Env) (c : Counters) (s : St) :
  Aws.last_changed md = Some changed ->
  Aws.last_changed md' = Some changed' ->
  changed' <= changed ->
  Aws.rotation_enabled md' = Aws.rotation_enabled md ->
  Aws.tags md' = Aws.tags md ->
  exists hs hs' c1 c2,
    Aws.calculate_secret_health_score md e c s = (inr hs, c1, s) /\
    Aws.calculate_secret_health_score md' e c s = (inr hs', c2, s) /\
    Aws.health_score hs' <= Aws.health_score hs.
Proof.
  intros Hchanged Hchanged' Holder Hrotation Htags.
  destruct (health_score_facts md e c s) as (hs & c1 & Hrun & Hscore & _).
  destruct (health_score_facts md' e c s) as (hs' & c2 & Hrun' & Hscore' & _).
  exists hs, hs', c1, c2. split; [exact Hrun|]. split; [exact Hrun'|].
  cbn zeta in Hscore, Hscore'.
  rewrite Hscore, Hscore', Hchanged, Hchanged', Hrotation, Htags. cbn.
  assert (DateTime.days_between (clock e (now_calls c)) changed
          <= DateTime.days_between (clock e (now_calls c)) changed') as Hdays.
  { unfold DateTime.days_between. apply Z.div_le_mono; [reflexivity | lia]. }
  repeat case_match; lia.
Qed.

Lemma older_secret_scores_no_higher_witness :
  exists hs hs' c1 c2,
    Aws.calculate_secret_health_score
      (Scenario.example_metadata (clock Scenario.env0 0 + DateTime.timedelta_days 300))
      Scenario.env0 Scenario.c0 tt = (inr hs, c1, tt) /\
    Aws.calculate_secret_health_score
      (Scenario.example_metadata (clock Scenario.env0 0))
      Scenario.env0 Scenario.c0 tt = (inr hs', c2, tt) /\
    Aws.health_score hs' <= Aws.health_score hs.
Proof.
  apply (older_secret_scores_no_higher
           (Scenario.example_metadata (clock Scenario.env0 0 + DateTime.timedelta_days 300))
           (Scenario.example_metadata (clock Scenario.env0 0))
           (clock Scenario.env0 0 + DateTime.timedelta_days 300 - DateTime.timedelta_days 400)
           (clock Scenario.env0 0 - DateTime.timedelta_days 400)
           Scenario.env0 Scenario.c0 tt).
  - reflexivity.
  - reflexivity.
  - vm_compute. discriminate.
  - reflexivity.
  - reflexivity.
Defined.

(** X8.  Every secret of the store is listed, with rotation reported as
    not enabled; so whatever its age and tags, a listed secret scores at
    most 80 and is never rated "excellent".  Listing reads no clock and
    changes nothing. *)
Theorem listed_secret_is_never_excellent max_results name data
    (e : Env) (c : Counters) (a : Aws.AWSSecretsConnector) :
  Aws._mock_secrets a !! name = Some data ->
  exists listing,
    Aws.list_secrets max_results e c a = (inr listing, c, a) /\
    length listing = size (Aws._mock_secrets a) /\
    In (Aws.mock_metadata name data) listing /\
    forall md, In md listing ->
      Aws.rotation_enabled md = false /\
      forall St (e' : Env) (c' : Counters) (s : St),
        exists hs c'',
          Aws.calculate_secret_health_score md e' c' s = (inr hs, c'', s) /\
          Aws.health_score hs <= 80 /\
          Aws.status hs <> "excellent".
Proof.
  intros Hheld.
  unfold Aws.list_secrets, Aws._mock_list_secrets, bind, gets, ret.
  eexists. split; [reflexivity|]. split; [|split].
  - by rewrite length_fmap, length_map_to_list.
  - apply list_elem_of_In, list_elem_of_fmap.
    exists (name, data). split; [reflexivity|].
    by apply elem_of_map_to_list.
  - intros md Hin.
    apply list_elem_of_In, list_elem_of_fmap in Hin as ([n d] & -> & _).
    split; [reflexivity|]. intros St e' c' s.
    destruct (health_score_facts (Aws.mock_metadata n d) e' c' s)
      as (hs & c'' & Hrun & Hscore & Hstatus & _).
    exists hs, c''. split; [exact Hrun|].
    cbn in Hscore. rewrite Hstatus, Hscore. unfold HealthSpec.bucket.
    unfold HealthSpec.age_penalty, HealthSpec.tag_penalty.
    repeat case_match; split; first [lia | discriminate].
Qed.

Lemma listed_secret_is_never_excellent_witness :
  exists listing,
    Aws.list_secrets 100 Scenario.env0 Scenario.c0
      (Sync.aws_connector Scenario.mock_manager)
      = (inr listing, Scenario.c0, Sync.aws_connector Scenario.mock_manager) /\
    length listing = size (Aws._mock_secrets (Sync.aws_connector Scenario.mock_manager)) /\
    In (Aws.mock_metadata "app/db"
          (Scenario.aws_entry (Aws.SVStr "from-aws") Scenario.new_year_2025)) listing /\
    forall md, In md listing ->
      Aws.rotation_enabled md = false /\
      forall St (e' : Env) (c' : Counters) (s : St),
        exists hs c'',
          Aws.calculate_secret_health_score md e' c' s = (inr hs, c'', s) /\
          Aws.health_score hs <= 80 /\
          Aws.status hs <> "excellent".
Proof.
  apply (listed_secret_is_never_excellent 100 "app/db"
           (Scenario.aws_entry (Aws.SVStr "from-aws") Scenario.new_year_2025)
           Scenario.env0 Scenario.c0 (Sync.aws_connector Scenario.mock_manager)).
  vm_compute. reflexivity.
Defined.

End HealthFacts.

(** ** More on synchronisation *)

Section SyncFacts.

Import SyncView.

Implicit Types (s : Sync.SecretSyncManager) (c : Counters) (e : Env).

(** Induction on a value, with the hypothesis for every value of a
    dictionary. *)
Lemma PyVal_nested_ind (P : Py.PyVal -> Prop) :
  P Py.PNone ->
  (forall b, P (Py.PBool b)) ->
  (forall text, P (Py.PStr text)) ->
  (forall n, P (Py.PInt n)) ->
  (forall d, Forall (fun item => P (snd item)) d -> P (Py.PDict d)) ->
  forall v, P v.
Proof.
  intros HNone HBool HStr HInt HDict.
  fix go 1. intros [|b|text|n|d]; [done..|].
  apply HDict. revert d. fix all 1.
  intros [|[k x] d]; constructor; [apply go | apply all].
Qed.

Lemma dict_get_app {V} k (d1 d2 : list (string * V)) :
  Py.dict_get k (d1 ++ d2) =
  match Py.dict_get k d1 with
  | Some v => Some v
  | None => Py.dict_get k d2
  end.
Proof.
  induction d1 as [|[k' v] d1 IH]; [reflexivity|].
  cbn. by destruct (String.eqb k' k).
Qed.

Lemma dict_get_key {V} k (d : list (string * V)) :
  In k (List.map fst d) -> is_Some (Py.dict_get k d).
Proof.
  induction d as [|[k' v] d IH]; [intros []|].
  cbn. destruct (String.eqb_spec k' k); [eauto|].
  intros [Heq|Hin]; [done | by apply IH].
Qed.

Lemma val_eqb_refl v : Py.val_eqb v v = true.
Proof.
  induction v as [|b|text|n|d IH] using PyVal_nested_ind; cbn.
  - reflexivity.
  - by destruct b.
  - apply String.eqb_refl.
  - apply Z.eqb_refl.
  - apply andb_true_intro. split.
    + (* every entry that is not shadowed equals the entry found under
         its key *)
      enough (Hgen : forall older seen rest,
                d = (older ++ rest)%list ->
                (forall k, existsb (String.eqb k) seen = false ->
                           Py.dict_get k older = None) ->
                Forall (fun item => Py.val_eqb (snd item) (snd item) = true) rest ->
                (fix entries (seen : list string) (d0 : list (string * Py.PyVal))
                     {struct d0} : bool :=
                   match d0 with
                   | [] => true
                   | (k, x) :: d' =>
                       ((existsb (String.eqb k) seen ||
                         match Py.dict_get k d with
                         | Some y => Py.val_eqb x y
                         | None => false
                         end) && entries (k :: seen) d')%bool
                   end) seen rest = true).
      { apply (Hgen [] [] d); [reflexivity | reflexivity | exact IH]. }
      intros older seen rest. revert older seen.
      induction rest as [|[k x] rest IHrest]; intros older seen Hd Hseen Hall;
        [reflexivity|].
      apply Forall_cons in Hall as [Hx Hall]. cbn [snd] in Hx.
      apply andb_true_intro. split.
      * destruct (existsb (String.eqb k) seen) eqn:Hk; [reflexivity|].
        rewrite Hd, dict_get_app, (Hseen k Hk). cbn.
        by rewrite String.eqb_refl.
      * apply (IHrest (older ++ [(k, x)])%list).
        -- by rewrite <- app_assoc.
        -- intros k'. cbn [existsb]. intros Hk'.
           apply orb_false_elim in Hk' as [Hne Hk'].
           rewrite dict_get_app, (Hseen k' Hk'). cbn.
           rewrite String.eqb_sym in Hne. by rewrite Hne.
        -- exact Hall.
    + apply forallb_forall. intros k Hin.
      apply bool_decide_eq_true_2. by apply dict_get_key.
Qed.

Lemma dict_eqb_refl d : Py.dict_eqb d d = true.
Proof. apply (val_eqb_refl (Py.PDict d)). Qed.

(** The status report when both stores hold the secret. *)
Lemma get_sync_status_both name e c s vs secret :
  vault_view s name = Some vs ->
  aws_view s name = Some secret ->
  exists c',
    Sync.get_sync_status name e c s =
    (inr {| Sync.st_secret_name := name; Sync.in_vault := true;
            Sync.in_aws := true;
            Sync.synced :=
              Sync.data_equal (Vault.data vs) (Aws.ms_secret_value secret);
            Sync.conflicts :=
              if Sync.data_equal (Vault.data vs) (Aws.ms_secret_value secret)
              then [] else ["Secret values differ between systems"] |}, c', s).
Proof.
  intros Hv Ha.
  unfold Sync.get_sync_status, try_except, bind.
  rewrite check_vault_run, check_aws_run, Hv, Ha.
  rewrite !bool_decide_eq_true_2 by eauto. cbn [andb].
  rewrite get_vault_secret_run, aws_get_secret_run, Hv, Ha.
  cbn [Aws.gs_secret_data].
  destruct (Sync.data_equal _ _); by eexists.
Qed.

(** X9.  A sync from Vault to AWS of a secret AWS does not hold, when it is
    not a dry run, creates it whatever the conflict policy: the result is a
    success with AWS version "v1", AWS then holds the Vault data, Vault is
    not written, and the status report that follows says the secret is in
    both stores and synced, with no conflict. *)
Theorem vault_to_aws_creates_and_syncs name conflict_resolution e c s vs :
  vault_view s name = Some vs ->
  aws_view s name = None ->
  exists r c' s' st c'',
    Sync.sync_secret name Sync.VAULT_TO_AWS conflict_resolution false e c s
      = (inr r, c', s') /\
    Sync.status r = "success" /\
    Sync.message r = "Created secret in AWS" /\
    Sync.aws_version r = Some "v1" /\
    Sync.vault_version r = Vault.get_version vs /\
    Aws.ms_secret_value <$> aws_view s' name = Some (Aws.SVDict (Vault.data vs)) /\
    Sync.vault_client s' = Sync.vault_client s /\
    Sync.get_sync_status name e c' s' = (inr st, c'', s') /\
    Sync.in_vault st = true /\ Sync.in_aws st = true /\
    Sync.synced st = true /\ Sync.conflicts st = [].
Proof.
  intros Hv Ha.
  unfold Sync.sync_secret, try_except, Sync._sync_vault_to_aws, bind.
  rewrite get_vault_secret_run, Hv, check_aws_run, Ha.
  rewrite bool_decide_eq_false_2 by apply is_Some_None. cbn [andb].
  unfold Sync.aws, zoom, Aws.create_secret, Aws._mock_create_secret,
    bind, gets, modify, now, ret.
  pose proof Ha as Ha'. unfold aws_view in Ha'. rewrite Ha'.
  unfold Sync._log_audit, Sync.mk_result, bind, modify, now, ret.
  match goal with
  | |- context [ (inr ?r, ?c1, ?s1) = _ ] =>
      set (r0 := r); set (c1' := c1); set (s1' := s1)
  end.
  assert (Hv' : vault_view s1' name = Some vs).
  { subst s1'. unfold vault_view in *. by destruct s as [mock [client|] a log]. }
  assert (Ha1 : exists secret', aws_view s1' name = Some secret' /\
                  Aws.ms_secret_value secret' = Aws.SVDict (Vault.data vs)).
  { subst s1'. unfold aws_view. cbn. rewrite lookup_insert_eq. by eexists. }
  destruct Ha1 as (secret' & Ha1 & Hvalue).
  destruct (get_sync_status_both name e c1' s1' vs secret' Hv' Ha1) as (c'' & Hst).
  rewrite Hvalue in Hst. cbn [Sync.data_equal] in Hst.
  rewrite dict_eqb_refl in Hst.
  eexists r0, c1', s1', _, c''. split; [reflexivity|].
  rewrite Ha1. cbn [fmap option_fmap option_map]. rewrite Hvalue.
  do 5 (split; [reflexivity|]).
  split; [subst s1'; by destruct s|].
  split; [exact Hst|]. by repeat split.
Qed.

Lemma vault_to_aws_creates_and_syncs_witness :
  exists r c' s' st c'',
    Sync.sync_secret "app/new" Sync.VAULT_TO_AWS Sync.SKIP false
      Scenario.env0 Scenario.c0 Scenario.mock_manager = (inr r, c', s') /\
    Sync.status r = "success" /\
    Sync.message r = "Created secret in AWS" /\
    Sync.aws_version r = Some "v1" /\
    Sync.vault_version r = Some 1 /\
    Aws.ms_secret_value <$> aws_view s' "app/new"
      = Some (Aws.SVDict [("mock", Py.PStr "data")]) /\
    Sync.vault_client s' = Sync.vault_client Scenario.mock_manager /\
    Sync.get_sync_status "app/new" Scenario.env0 c' s' = (inr st, c'', s') /\
    Sync.in_vault st = true /\ Sync.in_aws st = true /\
    Sync.synced st = true /\ Sync.conflicts st = [].
Proof.
  apply (vault_to_aws_creates_and_syncs "app/new" Sync.SKIP
           Scenario.env0 Scenario.c0 Scenario.mock_manager Sync.mock_vault_secret).
  - reflexivity.
  - vm_compute. reflexivity.
Defined.


Lemma vault_to_aws_named name cr dry e c s r c' s' :
  Sync._sync_vault_to_aws name cr dry e c s = (inr r, c', s') ->
  Sync.secret_name r = name.
Proof.
  unfold Sync._sync_vault_to_aws, bind.
  rewrite get_vault_secret_run.
  destruct (vault_view s name) as [vs|]; [|by intros [= <- _ _]].
  rewrite check_aws_run.
  destruct dry; [by intros [= <- _ _]|].
  destruct (_ && _)%bool; [by intros [= <- _ _]|].
  unfold Sync.aws, zoom, Aws.update_secret, Aws._mock_update_secret,
    Aws.create_secret, Aws._mock_create_secret, Sync._log_audit, Sync.mk_result,
    bind, gets, modify, now, ret, raise.
  destruct (bool_decide _);
    destruct (Aws._mock_secrets (Sync.aws_connector s) !! name);
    by intros [= <- _ _].
Qed.

Lemma aws_to_vault_named name cr dry e c s r c' s' :
  Sync._sync_aws_to_vault name cr dry e c s = (inr r, c', s') ->
  Sync.secret_name r = name.
Proof.
  unfold Sync._sync_aws_to_vault, bind.
  rewrite aws_get_secret_run.
  destruct (aws_view s name) as [secret|]; [|discriminate].
  rewrite check_vault_run.
  destruct dry; [by intros [= <- _ _]|].
  destruct (_ && _)%bool; [by intros [= <- _ _]|].
  destruct (write_vault_secret_audit name (Aws.ms_secret_value secret) e (tick c) s)
    as (c1 & s1 & Hw & _).
  cbn [Aws.gs_secret_data]. rewrite Hw.
  by intros [= <- _ _].
Qed.

Lemma bidirectional_named name cr dry e c s r c' s' :
  Sync._sync_bidirectional name cr dry e c s = (inr r, c', s') ->
  Sync.secret_name r = name.
Proof.
  unfold Sync._sync_bidirectional, Sync.conflict_result, bind.
  rewrite check_vault_run, check_aws_run.
  destruct (bool_decide (is_Some (vault_view s name))),
           (bool_decide (is_Some (aws_view s name))); cbn [andb negb].
  - destruct (Sync.is_use_newest cr); [|by intros [= <- _ _]].
    rewrite get_vault_secret_run, aws_get_secret_run.
    destruct (aws_view s name) as [secret|]; [|discriminate].
    destruct (vault_view s name) as [vs|]; [|discriminate].
    cbn [Aws.gs_created_date].
    destruct (Vault.get_created_time vs) as [vt|]; [|by intros [= <- _ _]].
    destruct (Py.truthy vt); [|by intros [= <- _ _]].
    destruct (Py.str_gt vt _);
      [apply vault_to_aws_named | apply aws_to_vault_named].
  - apply vault_to_aws_named.
  - apply aws_to_vault_named.
  - by intros [= <- _ _].
Qed.

(** X10.  A sync from AWS to a live Vault of a secret whose AWS value is a
    text, under a policy other than SKIP, succeeds and stores the text in
    Vault as the dictionary [{'value': text}], which is what a read then
    finds as the data of the secret; AWS is not written.  The
    status report that follows compares that dictionary with the text, so
    it says the secret is not synced and reports a value conflict. *)
Theorem text_secret_is_reported_unsynced name conflict_resolution e c s
    client secret text :
  Sync.mock_mode s = false ->
  Sync.vault_client s = Some client ->
  aws_view s name = Some secret ->
  Aws.ms_secret_value secret = Aws.SVStr text ->
  Sync.is_skip conflict_resolution = false ->
  exists r c' s' st c'',
    Sync.sync_secret name Sync.AWS_TO_VAULT conflict_resolution false e c s
      = (inr r, c', s') /\
    Sync.status r = "success" /\
    vault_stored s' name = Some [("value", Py.PStr text)] /\
    (Py.dict_get "data" ∘ Vault.data) <$> vault_view s' name
      = Some (Some (Py.PDict [("value", Py.PStr text)])) /\
    Sync.aws_connector s' = Sync.aws_connector s /\
    Sync.get_sync_status name e c' s' = (inr st, c'', s') /\
    Sync.synced st = false /\
    Sync.conflicts st = ["Secret values differ between systems"].
Proof.
  intros Hmode Hclient Ha Htext Hskip.
  unfold Sync.sync_secret, try_except, Sync._sync_aws_to_vault, bind.
  rewrite aws_get_secret_run, Ha, check_vault_run, Hskip, andb_false_r.
  cbn [Aws.gs_secret_data]. rewrite Htext.
  destruct s as [mock oclient a log]. cbn in Hmode, Hclient. subst mock oclient.
  unfold Sync._write_vault_secret, Sync.vault, zoom,
    Vault.create_or_update_secret, Sync._log_audit, Sync.mk_result,
    bind, gets, modify, now, ret. cbn.
  match goal with
  | |- context [ (inr ?r, ?c1, ?s1) = _ ] =>
      set (r0 := r); set (c1' := c1); set (s1' := s1)
  end.
  assert (Hv' : exists vs',
            vault_view s1' name = Some vs' /\
            Py.dict_get "data" (Vault.data vs')
              = Some (Py.PDict [("value", Py.PStr text)])).
  { subst s1'. unfold vault_view. cbn. rewrite lookup_insert_eq. by eexists. }
  destruct Hv' as (vs' & Hv' & Hread).
  assert (Hstored : vault_stored s1' name = Some [("value", Py.PStr text)]).
  { subst s1'. unfold vault_stored. cbn. by rewrite lookup_insert_eq. }
  assert (Ha' : aws_view s1' name = Some secret) by exact Ha.
  destruct (get_sync_status_both name e c1' s1' vs' secret Hv' Ha') as (c'' & Hst).
  rewrite Htext in Hst. cbn [Sync.data_equal] in Hst.
  eexists r0, c1', s1', _, c''. split; [reflexivity|]. split; [reflexivity|].
  split; [exact Hstored|].
  split; [rewrite Hv'; cbn [fmap option_fmap option_map compose]; by rewrite Hread|].
  split; [reflexivity|]. split; [exact Hst|]. by split.
Qed.

Lemma text_secret_is_reported_unsynced_witness :
  exists r c' s' st c'',
    Sync.sync_secret "app/text" Sync.AWS_TO_VAULT Sync.USE_NEWEST false
      Scenario.env0 Scenario.c0 Scenario.text_manager = (inr r, c', s') /\
    Sync.status r = "success" /\
    vault_stored s' "app/text" = Some [("value", Py.PStr "hunter2")] /\
    (Py.dict_get "data" ∘ Vault.data) <$> vault_view s' "app/text"
      = Some (Some (Py.PDict [("value", Py.PStr "hunter2")])) /\
    Sync.aws_connector s' = Sync.aws_connector Scenario.text_manager /\
    Sync.get_sync_status "app/text" Scenario.env0 c' s' = (inr st, c'', s') /\
    Sync.synced st = false /\
    Sync.conflicts st = ["Secret values differ between systems"].
Proof.
  apply (text_secret_is_reported_unsynced "app/text" Sync.USE_NEWEST
           Scenario.env0 Scenario.c0 Scenario.text_manager
           {| Vault.kv := ∅; Vault.vault_writes := 0 |}
           (Scenario.aws_entry (Aws.SVStr "hunter2") Scenario.new_year_2025)
           "hunter2").
  - reflexivity.
  - reflexivity.
  - vm_compute. reflexivity.
  - reflexivity.
  - reflexivity.
Defined.

(** X11.  Under the SKIP policy a one-way sync whose destination already
    holds the secret returns a skipped result that says so, in either
    direction, and leaves both stores and the audit log as they were. *)
Theorem skip_policy_leaves_destination name e c s :
  is_Some (vault_view s name) ->
  is_Some (aws_view s name) ->
  (exists r c',
     Sync.sync_secret name Sync.VAULT_TO_AWS Sync.SKIP false e c s = (inr r, c', s) /\
     Sync.status r = "skipped" /\
     Sync.message r = "Secret exists in AWS, skipping per conflict resolution") /\
  (exists r c',
     Sync.sync_secret name Sync.AWS_TO_VAULT Sync.SKIP false e c s = (inr r, c', s) /\
     Sync.status r = "skipped" /\
     Sync.message r = "Secret exists in Vault, skipping per conflict resolution").
Proof.
  intros [vs Hv] [secret Ha].
  unfold Sync.sync_secret, try_except, Sync._sync_vault_to_aws,
    Sync._sync_aws_to_vault, bind.
  rewrite get_vault_secret_run, aws_get_secret_run, Hv, Ha.
  rewrite check_aws_run, check_vault_run, Hv, Ha.
  rewrite !bool_decide_eq_true_2 by eauto. cbn [andb Sync.is_skip].
  rewrite !mk_result_run. split; by eexists _, _.
Qed.

Lemma skip_policy_leaves_destination_witness :
  (exists r c',
     Sync.sync_secret "app/db" Sync.VAULT_TO_AWS Sync.SKIP false
       Scenario.env0 Scenario.c0 Scenario.both_manager
       = (inr r, c', Scenario.both_manager) /\
     Sync.status r = "skipped" /\
     Sync.message r = "Secret exists in AWS, skipping per conflict resolution") /\
  (exists r c',
     Sync.sync_secret "app/db" Sync.AWS_TO_VAULT Sync.SKIP false
       Scenario.env0 Scenario.c0 Scenario.both_manager
       = (inr r, c', Scenario.both_manager) /\
     Sync.status r = "skipped" /\
     Sync.message r = "Secret exists in Vault, skipping per conflict resolution").
Proof.
  apply (skip_policy_leaves_destination "app/db" Scenario.env0 Scenario.c0
           Scenario.both_manager); vm_compute; eauto.
Defined.

(** X12.  A sync from AWS to Vault of a name AWS does not hold, dry run or
    not, returns a failed result whose message is that of the connector's
    error, "Secret <name> not found", and leaves the manager as it was. *)
Theorem absent_in_aws_fails name conflict_resolution dry_run e c s :
  aws_view s name = None ->
  exists r,
    Sync.sync_secret name Sync.AWS_TO_VAULT conflict_resolution dry_run e c s
      = (inr r, tick c, s) /\
    Sync.status r = "failed" /\
    Sync.direction r = "aws_to_vault" /\
    Sync.message r = "Secret " +:+ name +:+ " not found".
Proof.
  intros Ha.
  unfold Sync.sync_secret, try_except, Sync._sync_aws_to_vault, bind.
  rewrite aws_get_secret_run, Ha, mk_result_run. by eexists.
Qed.

Lemma absent_in_aws_fails_witness :
  exists r,
    Sync.sync_secret "nope" Sync.AWS_TO_VAULT Sync.USE_NEWEST false
      Scenario.env0 Scenario.c0 Scenario.empty_manager
      = (inr r, tick Scenario.c0, Scenario.empty_manager) /\
    Sync.status r = "failed" /\
    Sync.direction r = "aws_to_vault" /\
    Sync.message r = "Secret nope not found".
Proof.
  apply (absent_in_aws_fails "nope" Sync.USE_NEWEST false
           Scenario.env0 Scenario.c0 Scenario.empty_manager).
  vm_compute. reflexivity.
Defined.

(** X13.  A bidirectional sync of a name neither store holds returns a
    failed result, "Secret not found in either system", with the direction
    "bidirectional", and changes nothing. *)
Theorem absent_in_both_fails name conflict_resolution dry_run e c s :
  vault_view s name = None ->
  aws_view s name = None ->
  exists r,
    Sync.sync_secret name Sync.BIDIRECTIONAL conflict_resolution dry_run e c s
      = (inr r, tick c, s) /\
    Sync.status r = "failed" /\
    Sync.direction r = "bidirectional" /\
    Sync.message r = "Secret not found in either system".
Proof.
  intros Hv Ha.
  unfold Sync.sync_secret, try_except, Sync._sync_bidirectional, bind.
  rewrite check_vault_run, check_aws_run, Hv, Ha.
  rewrite !bool_decide_eq_false_2 by apply is_Some_None. cbn [andb negb].
  rewrite mk_result_run. by eexists.
Qed.

Lemma absent_in_both_fails_witness :
  exists r,
    Sync.sync_secret "nope" Sync.BIDIRECTIONAL Sync.USE_NEWEST false
      Scenario.env0 Scenario.c0 Scenario.empty_manager
      = (inr r, tick Scenario.c0, Scenario.empty_manager) /\
    Sync.status r = "failed" /\
    Sync.direction r = "bidirectional" /\
    Sync.message r = "Secret not found in either system".
Proof.
  apply (absent_in_both_fails "nope" Sync.USE_NEWEST false
           Scenario.env0 Scenario.c0 Scenario.empty_manager);
    vm_compute; reflexivity.
Defined.

(** A sync from Vault to AWS never raises; one from AWS to Vault raises
    only when AWS does not hold the secret. *)
Lemma vault_to_aws_returns name cr dry e c s :
  exists r c' s', Sync._sync_vault_to_aws name cr dry e c s = (inr r, c', s').
Proof.
  unfold Sync._sync_vault_to_aws, bind.
  rewrite get_vault_secret_run.
  destruct (vault_view s name) as [vs|]; [|by eexists _, _, _].
  rewrite check_aws_run.
  destruct dry; [by eexists _, _, _|].
  destruct (_ && _)%bool; [by eexists _, _, _|].
  unfold Sync.aws, zoom, Aws.update_secret, Aws._mock_update_secret,
    Aws.create_secret, Aws._mock_create_secret, Sync._log_audit, Sync.mk_result,
    bind, gets, modify, now, ret, raise, aws_view.
  destruct (Aws._mock_secrets (Sync.aws_connector s) !! name) eqn:Hs;
    [rewrite bool_decide_eq_true_2 by eauto
    |rewrite bool_decide_eq_false_2 by apply is_Some_None];
    rewrite Hs; by eexists _, _, _.
Qed.

Lemma aws_to_vault_returns name cr dry e c s :
  is_Some (aws_view s name) ->
  exists r c' s', Sync._sync_aws_to_vault name cr dry e c s = (inr r, c', s').
Proof.
  intros [secret Ha].
  unfold Sync._sync_aws_to_vault, bind.
  rewrite aws_get_secret_run, Ha, check_vault_run.
  destruct dry; [by eexists _, _, _|].
  destruct (_ && _)%bool; [by eexists _, _, _|].
  destruct (write_vault_secret_audit name (Aws.ms_secret_value secret) e (tick c) s)
    as (c1 & s1 & Hw & _).
  cbn [Aws.gs_secret_data]. rewrite Hw. by eexists _, _, _.
Qed.

(** X14.  When exactly one store holds the secret, a bidirectional sync is
    the one-way sync from that store, with the same policy and dry-run
    flag: it runs exactly as the sync from Vault to AWS when Vault is the
    holder, and as the sync from AWS to Vault, started one clock reading
    later, when AWS is. *)
Theorem one_sided_bidirectional_delegates name conflict_resolution dry_run e c s :
  (is_Some (vault_view s name) /\ aws_view s name = None) \/
  (vault_view s name = None /\ is_Some (aws_view s name)) ->
  Sync.sync_secret name Sync.BIDIRECTIONAL conflict_resolution dry_run e c s =
  if bool_decide (is_Some (vault_view s name)) then
    Sync.sync_secret name Sync.VAULT_TO_AWS conflict_resolution dry_run e c s
  else
    Sync.sync_secret name Sync.AWS_TO_VAULT conflict_resolution dry_run e (tick c) s.
Proof.
  intros [[[vs Hv] Ha]|[Hv [secret Ha]]];
    unfold Sync.sync_secret, try_except, Sync._sync_bidirectional, bind;
    rewrite check_vault_run, check_aws_run, Hv, Ha.
  - rewrite bool_decide_eq_true_2 by eauto.
    rewrite bool_decide_eq_false_2 by apply is_Some_None. cbn [andb negb].
    destruct (vault_to_aws_returns name conflict_resolution dry_run e c s)
      as (r & c' & s' & Hrun).
    rewrite Hrun. reflexivity.
  - rewrite (bool_decide_eq_true_2 (is_Some (Some secret))) by eauto.
    rewrite (bool_decide_eq_false_2 (is_Some (@None Vault.Secret)))
      by apply is_Some_None.
    cbn [andb negb].
    destruct (aws_to_vault_returns name conflict_resolution dry_run e (tick c) s
                ltac:(eauto)) as (r & c' & s' & Hrun).
    rewrite Hrun. reflexivity.
Qed.

Lemma one_sided_bidirectional_delegates_witness :
  Sync.sync_secret "app/text" Sync.BIDIRECTIONAL Sync.MANUAL false
    Scenario.env0 Scenario.c0 Scenario.text_manager =
  Sync.sync_secret "app/text" Sync.AWS_TO_VAULT Sync.MANUAL false
    Scenario.env0 (tick Scenario.c0) Scenario.text_manager.
Proof.
  apply (one_sided_bidirectional_delegates "app/text" Sync.MANUAL false
           Scenario.env0 Scenario.c0 Scenario.text_manager).
  right. split; vm_compute; eauto.
Defined.

(** X15.  When both stores hold the secret and the policy is not
    USE_NEWEST, a bidirectional sync, dry run or not, returns the conflict
    result and leaves both stores and the audit log as they were: nothing
    is overwritten, also under OVERWRITE_DESTINATION and SKIP. *)
Theorem other_policies_conflict name conflict_resolution dry_run e c s :
  is_Some (vault_view s name) ->
  is_Some (aws_view s name) ->
  conflict_resolution <> Sync.USE_NEWEST ->
  exists r,
    Sync.sync_secret name Sync.BIDIRECTIONAL conflict_resolution dry_run e c s
      = (inr r, tick (tick c), s) /\
    Sync.status r = "conflict" /\
    Sync.message r = "Secret exists in both systems, manual resolution required".
Proof.
  intros [vs Hv] [secret Ha] Hpolicy.
  unfold Sync.sync_secret, try_except, Sync._sync_bidirectional,
    Sync.conflict_result, bind.
  rewrite check_vault_run, check_aws_run, Hv, Ha.
  rewrite !bool_decide_eq_true_2 by eauto. cbn [andb negb].
  destruct conflict_resolution; try done; cbn [Sync.is_use_newest];
    rewrite mk_result_run; by eexists.
Qed.

Lemma other_policies_conflict_witness :
  exists r,
    Sync.sync_secret "app/db" Sync.BIDIRECTIONAL Sync.OVERWRITE_DESTINATION false
      Scenario.env0 Scenario.c0 Scenario.both_manager
      = (inr r, tick (tick Scenario.c0), Scenario.both_manager) /\
    Sync.status r = "conflict" /\
    Sync.message r = "Secret exists in both systems, manual resolution required".
Proof.
  apply (other_policies_conflict "app/db" Sync.OVERWRITE_DESTINATION false
           Scenario.env0 Scenario.c0 Scenario.both_manager).
  - vm_compute. eauto.
  - vm_compute. eauto.
  - discriminate.
Defined.

(** X16.  In mock mode, or without a Vault client, a sync from AWS to Vault
    that is not a dry run and not skipped reports a success and records it
    in the audit log although nothing was written: both stores and their
    write counters are as before. *)
Theorem clientless_sync_from_aws_writes_nothing name conflict_resolution e c s secret :
  Sync.mock_mode s = true \/ Sync.vault_client s = None ->
  aws_view s name = Some secret ->
  Sync.is_skip conflict_resolution = false ->
  exists r c' s',
    Sync.sync_secret name Sync.AWS_TO_VAULT conflict_resolution false e c s
      = (inr r, c', s') /\
    Sync.status r = "success" /\
    Sync.message r = "Synced secret from AWS to Vault" /\
    audited_once name "aws_to_vault" "success" s s' /\
    write_calls s' = write_calls s /\
    Sync.vault_client s' = Sync.vault_client s /\
    Sync.aws_connector s' = Sync.aws_connector s.
Proof.
  intros Hclientless Ha Hskip.
  unfold Sync.sync_secret, try_except, Sync._sync_aws_to_vault, bind.
  rewrite aws_get_secret_run, Ha, check_vault_run, Hskip, andb_false_r.
  assert (Hguard : (Sync.mock_mode s
                    || negb (bool_decide (is_Some (Sync.vault_client s))))%bool = true).
  { destruct Hclientless as [->| ->]; [reflexivity|].
    rewrite bool_decide_eq_false_2 by apply is_Some_None. apply orb_true_r. }
  unfold Sync._write_vault_secret, bind, gets. rewrite Hguard.
  unfold Sync._log_audit, Sync.mk_result, bind, modify, now, ret.
  eexists _, _, _. split; [reflexivity|]. cbn.
  do 2 (split; [reflexivity|]).
  split; [eexists; cbn; repeat split; eauto|]. by repeat split.
Qed.

Lemma clientless_sync_from_aws_writes_nothing_witness :
  exists r c' s',
    Sync.sync_secret "app/db" Sync.AWS_TO_VAULT Sync.USE_NEWEST false
      Scenario.env0 Scenario.c0 Scenario.mock_manager = (inr r, c', s') /\
    Sync.status r = "success" /\
    Sync.message r = "Synced secret from AWS to Vault" /\
    audited_once "app/db" "aws_to_vault" "success" Scenario.mock_manager s' /\
    write_calls s' = write_calls Scenario.mock_manager /\
    Sync.vault_client s' = Sync.vault_client Scenario.mock_manager /\
    Sync.aws_connector s' = Sync.aws_connector Scenario.mock_manager.
Proof.
  apply (clientless_sync_from_aws_writes_nothing "app/db" Sync.USE_NEWEST
           Scenario.env0 Scenario.c0 Scenario.mock_manager
           (Scenario.aws_entry (Aws.SVStr "from-aws") Scenario.new_year_2025)).
  - left. reflexivity.
  - vm_compute. reflexivity.
  - reflexivity.
Defined.

(** X17.  In mock mode, or without a Vault client, every name is found in
    Vault, with the same placeholder data: a sync from Vault to AWS never
    ends with "failed", and the status report never says a secret is
    missing from Vault. *)
Theorem clientless_vault_holds_every_name name conflict_resolution dry_run e c s :
  Sync.mock_mode s = true \/ Sync.vault_client s = None ->
  Sync._get_vault_secret name e c s = (inr (Some Sync.mock_vault_secret), c, s) /\
  (exists r c' s',
     Sync.sync_secret name Sync.VAULT_TO_AWS conflict_resolution dry_run e c s
       = (inr r, c', s') /\
     In (Sync.status r) ["success"; "skipped"]) /\
  (exists st c',
     Sync.get_sync_status name e c s = (inr st, c', s) /\
     Sync.in_vault st = true).
Proof.
  intros Hclientless.
  assert (Hv : vault_view s name = Some Sync.mock_vault_secret).
  { unfold vault_view. destruct Hclientless as [->| ->];
      [by destruct (Sync.vault_client s) | reflexivity]. }
  split; [by rewrite get_vault_secret_run, Hv|]. split.
  - unfold Sync.sync_secret, try_except, Sync._sync_vault_to_aws, bind.
    rewrite get_vault_secret_run, Hv, check_aws_run.
    destruct dry_run; [rewrite mk_result_run; eexists _, _, _; cbn; eauto|].
    destruct (_ && _)%bool; [rewrite mk_result_run; eexists _, _, _; cbn; eauto|].
    unfold Sync.aws, zoom, Aws.update_secret, Aws._mock_update_secret,
      Aws.create_secret, Aws._mock_create_secret, Sync._log_audit, Sync.mk_result,
      bind, gets, modify, now, ret, raise, aws_view.
    destruct (Aws._mock_secrets (Sync.aws_connector s) !! name) eqn:Hs;
      [rewrite bool_decide_eq_true_2 by eauto
      |rewrite bool_decide_eq_false_2 by apply is_Some_None];
      rewrite Hs; eexists _, _, _; cbn; eauto.
  - destruct (aws_view s name) as [secret|] eqn:Ha.
    + destruct (get_sync_status_both name e c s _ secret Hv Ha) as (c' & ->).
      by eexists _, _.
    + unfold Sync.get_sync_status, bind.
      rewrite check_vault_run, check_aws_run, Hv, Ha.
      rewrite (bool_decide_eq_false_2 (is_Some (@None Aws.MockSecret)))
        by apply is_Some_None.
      rewrite andb_false_r. eexists _, _. split; [reflexivity|].
      reflexivity.
Qed.

Lemma clientless_vault_holds_every_name_witness :
  Sync._get_vault_secret "anything" Scenario.env0 Scenario.c0 Scenario.mock_manager
    = (inr (Some Sync.mock_vault_secret), Scenario.c0, Scenario.mock_manager) /\
  (exists r c' s',
     Sync.sync_secret "anything" Sync.VAULT_TO_AWS Sync.USE_NEWEST false
       Scenario.env0 Scenario.c0 Scenario.mock_manager = (inr r, c', s') /\
     In (Sync.status r) ["success"; "skipped"]) /\
  (exists st c',
     Sync.get_sync_status "anything" Scenario.env0 Scenario.c0 Scenario.mock_manager
       = (inr st, c', Scenario.mock_manager) /\
     Sync.in_vault st = true).
Proof.
  apply (clientless_vault_holds_every_name "anything" Sync.USE_NEWEST false
           Scenario.env0 Scenario.c0 Scenario.mock_manager).
  left. reflexivity.
Defined.

(** What every call of [sync_secret] does: it returns a result for the
    requested name, follows the audit discipline, and in a dry run leaves
    the manager alone. *)
Lemma sync_secret_facts name direction cr dry e c s :
  exists r c' s',
    Sync.sync_secret name direction cr dry e c s = (inr r, c', s') /\
    Sync.secret_name r = name /\
    audit_discipline name s (inr r) s' /\
    (dry = true -> s' = s).
Proof.
  unfold Sync.sync_secret, try_except.
  set (run := match direction with
              | Sync.VAULT_TO_AWS => Sync._sync_vault_to_aws name cr dry
              | Sync.AWS_TO_VAULT => Sync._sync_aws_to_vault name cr dry
              | Sync.BIDIRECTIONAL => Sync._sync_bidirectional name cr dry
              end).
  assert (Haudit : exists out c' s',
            run e c s = (out, c', s') /\ audit_discipline name s out s').
  { subst run. destruct direction;
      [apply vault_to_aws_audit | apply aws_to_vault_audit | apply bidirectional_audit]. }
  assert (Hname : forall r c' s', run e c s = (inr r, c', s') ->
                    Sync.secret_name r = name).
  { subst run. destruct direction;
      [apply vault_to_aws_named | apply aws_to_vault_named | apply bidirectional_named]. }
  assert (Hdry : dry = true -> forall out c' s', run e c s = (out, c', s') -> s' = s).
  { intros -> out c' s' Hrun. subst run. destruct direction.
    - destruct (vault_to_aws_dry_run name cr e c s) as (r & c1 & Heq & _).
      congruence.
    - destruct (aws_to_vault_dry_run name cr e c s)
        as [(r & c1 & Heq & _)|(x & c1 & Heq)]; congruence.
    - destruct (bidirectional_dry_run name cr e c s)
        as [(r & c1 & Heq & _)|(x & c1 & Heq)]; congruence. }
  destruct Haudit as (out & c' & s' & Hrun & Hd). rewrite Hrun.
  destruct out as [x|r].
  - rewrite mk_result_run. eexists _, _, _. split; [reflexivity|].
    split; [reflexivity|]. split; [right; cbn; auto|].
    intros Hflag. exact (Hdry Hflag _ _ _ Hrun).
  - eexists _, _, _. split; [reflexivity|].
    split; [exact (Hname _ _ _ Hrun)|]. split; [exact Hd|].
    intros Hflag. exact (Hdry Hflag _ _ _ Hrun).
Qed.

(** X18.  A batch sync never raises and returns one result per requested
    name, in the order of the request: the names of the results are the
    requested names.  One item's failure does not stop the batch. *)
Theorem batch_sync_preserves_order names direction conflict_resolution dry_run e c s :
  exists results c' s',
    Sync.batch_sync names direction conflict_resolution dry_run e c s
      = (inr results, c', s') /\
    List.map Sync.secret_name results = names.
Proof.
  revert c s. induction names as [|name rest IH]; intros c s.
  - by eexists _, _, _.
  - cbn [Sync.batch_sync]. unfold bind.
    destruct (sync_secret_facts name direction conflict_resolution dry_run e c s)
      as (r & c1 & s1 & -> & Hname & _).
    destruct (IH c1 s1) as (results & c2 & s2 & -> & Hnames).
    eexists _, _, _. split; [reflexivity|]. cbn. by rewrite Hname, Hnames.
Qed.

(** X19.  A dry-run batch sync, of any names in any direction under any
    policy, leaves the manager as it was: no store is written and the audit
    log is not extended. *)
Theorem batch_dry_run_changes_nothing names direction conflict_resolution e c s :
  exists results c',
    Sync.batch_sync names direction conflict_resolution true e c s
      = (inr results, c', s) /\
    Forall (fun r => Sync.status r <> "success") results.
Proof.
  revert c. induction names as [|name rest IH]; intros c.
  - by eexists _, _.
  - cbn [Sync.batch_sync]. unfold bind.
    destruct (sync_secret_facts name direction conflict_resolution true e c s)
      as (r & c1 & s1 & -> & _ & Hd & Hsame).
    rewrite (Hsame eq_refl) in *.
    destruct (IH c1) as (results & c2 & -> & Hall).
    eexists _, _. split; [reflexivity|]. constructor; [|exact Hall].
    destruct Hd as [[_ (entry & Hlog & _)]|[Hin _]].
    + exfalso. apply (f_equal length) in Hlog. rewrite length_app in Hlog.
      cbn in Hlog. lia.
    + intros Hs. rewrite Hs in Hin.
      destruct Hin as [H|[H|[H|[]]]]; discriminate H.
Qed.

(** X20.  The audit log only grows.  After a batch sync it is the log from
    before followed by one entry per successful result and nothing else,
    and every new entry is a "sync" entry with the status "success". *)
Theorem batch_sync_audit_log names direction conflict_resolution dry_run e c s :
  exists results c' s' added,
    Sync.batch_sync names direction conflict_resolution dry_run e c s
      = (inr results, c', s') /\
    Sync.audit_log s' = (Sync.audit_log s ++ added)%list /\
    length added =
      length (List.filter (fun r => String.eqb (Sync.status r) "success") results) /\
    Forall (fun entry => Sync.ae_operation entry = "sync" /\
                         Sync.ae_status entry = "success" /\
                         In (Sync.ae_secret_name entry) names) added.
Proof.
  revert c s. induction names as [|name rest IH]; intros c s.
  - exists [], c, s, []. by rewrite app_nil_r.
  - cbn [Sync.batch_sync]. unfold bind.
    destruct (sync_secret_facts name direction conflict_resolution dry_run e c s)
      as (r & c1 & s1 & -> & _ & Hd & _).
    destruct (IH c1 s1) as (results & c2 & s2 & added & -> & Hlog & Hlen & Hall).
    assert (Hrest : Forall (fun entry => Sync.ae_operation entry = "sync" /\
                              Sync.ae_status entry = "success" /\
                              In (Sync.ae_secret_name entry) (name :: rest)) added).
    { eapply Forall_impl; [exact Hall|].
      intros entry (Hop & Hst & Hin). cbn. auto. }
    destruct Hd as [[Hs (entry & Hlog1 & Hop & Hn & _ & Hst & _)]|[Hin Hlog1]].
    + exists (r :: results), c2, s2, (entry :: added).
      split; [reflexivity|]. rewrite Hlog, Hlog1, <- app_assoc.
      split; [reflexivity|]. cbn [List.filter]. rewrite Hs. cbn.
      split; [by rewrite Hlen|]. constructor; [|exact Hrest].
      rewrite Hop, Hst, Hn. cbn. auto.
    + exists (r :: results), c2, s2, added.
      split; [reflexivity|]. rewrite Hlog, Hlog1.
      split; [reflexivity|]. cbn [List.filter].
      assert (String.eqb (Sync.status r) "success" = false) as ->.
      { cbn in Hin. destruct Hin as [<-|[<-|[<-|[]]]]; reflexivity. }
      split; [exact Hlen | exact Hrest].
Qed.

(** X21.  Writing to a live Vault and reading back.  The write is one call
    on the client, under the name without its [secret/] prefix, and leaves
    AWS alone; the client then stores the data written, a text wrapped as
    [{'value': text}].  The secret the manager is handed back holds that
    data under the key ['data'] of its ['data'], next to the metadata of
    the version, and the manager finds neither a version nor a creation
    time in it: a dry run from Vault to AWS that follows reports no Vault
    version. *)
Theorem write_then_read_vault name data conflict_resolution e c s client :
  Sync.mock_mode s = false ->
  Sync.vault_client s = Some client ->
  exists s' vs metadata r c',
    Sync._write_vault_secret name data e c s = (inr tt, tick c, s') /\
    vault_stored s' name = Some (Sync.as_vault_data data) /\
    Sync.aws_connector s' = Sync.aws_connector s /\
    write_calls s' = S (write_calls s) /\
    Sync._get_vault_secret name e (tick c) s' = (inr (Some vs), tick c, s') /\
    Vault.data vs = [("data", Py.PDict (Sync.as_vault_data data));
                     ("metadata", Py.PDict metadata)] /\
    Vault.get_version vs = None /\
    Vault.get_created_time vs = None /\
    Sync.sync_secret name Sync.VAULT_TO_AWS conflict_resolution true e (tick c) s'
      = (inr r, c', s') /\
    Sync.vault_version r = None.
Proof.
  intros Hmode Hclient.
  destruct s as [mock oclient a log]. cbn in Hmode, Hclient. subst mock oclient.
  set (stored :=
         {| Vault.sv_data := Sync.as_vault_data data;
            Vault.sv_version :=
              Vault.next_version (Vault.kv client !! Sync.vault_path name);
            Vault.sv_created_time := DateTime.rfc3339 (clock e (now_calls c)) |}).
  set (s1 :=
         {| Sync.mock_mode := false;
            Sync.vault_client :=
              Some {| Vault.kv := <[Sync.vault_path name := stored]> (Vault.kv client);
                      Vault.vault_writes := S (Vault.vault_writes client) |};
            Sync.aws_connector := a;
            Sync.audit_log := log |}).
  assert (Hv : vault_view s1 name = Some (Vault.response stored)).
  { unfold vault_view. cbn. by rewrite lookup_insert_eq. }
  exists s1, (Vault.response stored), (Vault.version_metadata stored).
  eexists _, _.
  split; [reflexivity|].
  split; [unfold vault_stored; cbn; by rewrite lookup_insert_eq|].
  split; [reflexivity|].
  split; [unfold write_calls; cbn; lia|].
  split; [by rewrite get_vault_secret_run, Hv|].
  do 3 (split; [reflexivity|]).
  unfold Sync.sync_secret, try_except, Sync._sync_vault_to_aws, bind.
  rewrite get_vault_secret_run, Hv, check_aws_run, mk_result_run.
  split; reflexivity.
Qed.

Lemma write_then_read_vault_witness :
  exists s' vs metadata r c',
    Sync._write_vault_secret "secret/app/db" (Aws.SVStr "x") Scenario.env0 Scenario.c0
      Scenario.both_manager = (inr tt, tick Scenario.c0, s') /\
    vault_stored s' "app/db" = Some [("value", Py.PStr "x")] /\
    Sync.aws_connector s' = Sync.aws_connector Scenario.both_manager /\
    write_calls s' = 1%nat /\
    Sync._get_vault_secret "secret/app/db" Scenario.env0 (tick Scenario.c0) s'
      = (inr (Some vs), tick Scenario.c0, s') /\
    Vault.data vs = [("data", Py.PDict [("value", Py.PStr "x")]);
                     ("metadata", Py.PDict metadata)] /\
    Vault.get_version vs = None /\
    Vault.get_created_time vs = None /\
    Sync.sync_secret "secret/app/db" Sync.VAULT_TO_AWS Sync.USE_NEWEST true
      Scenario.env0 (tick Scenario.c0) s' = (inr r, c', s') /\
    Sync.vault_version r = None.
Proof.
  destruct (write_then_read_vault "secret/app/db" (Aws.SVStr "x") Sync.USE_NEWEST
              Scenario.env0 Scenario.c0 Scenario.both_manager
              {| Vault.kv :=
                   {[ "app/db" :=
                        {| Vault.sv_data := [("password", Py.PStr "from-vault")];
                           Vault.sv_version := 3;
                           Vault.sv_created_time :=
                             DateTime.rfc3339 Scenario.june_2025 |} ]};
                 Vault.vault_writes := 0 |} eq_refl eq_refl)
    as (s' & vs & metadata & r & c' & Hw & Hstored & Haws & Hcalls & Hr & Hdata
        & Hversion & Htime & Hsync & Hreported).
  exists s', vs, metadata, r, c'.
  repeat split; assumption.
Defined.

End SyncFacts.

(** ** More on rotation *)

Section RotationFacts.

Import SyncView RotationView.

Implicit Types (h : Rotation.RotationEventHandler) (c : Counters) (e : Env).

(** X22.  An event whose step is none of the four known steps is answered
    with 500 and the error "Unknown rotation step: <step>"; the handler
    reads the clock once and is otherwise unchanged. *)
Theorem unknown_step_answers_500 hooks event e c h :
  ~ In (Rotation.Step event)
       ["createSecret"; "setSecret"; "testSecret"; "finishSecret"] ->
  Rotation.handle_aws_rotation_event hooks event e c h =
  (inr {| Rotation.statusCode := 500;
          Rotation.body :=
            Rotation.Error ("Unknown rotation step: " +:+ Rotation.Step event) |},
   tick c, h).
Proof.
  intros Hstep.
  unfold Rotation.handle_aws_rotation_event, try_except, bind, now, raise, ret.
  destruct (String.eqb_spec (Rotation.Step event) "createSecret") as [Heq|_];
    [exfalso; apply Hstep; rewrite Heq; cbn; auto|].
  destruct (String.eqb_spec (Rotation.Step event) "setSecret") as [Heq|_];
    [exfalso; apply Hstep; rewrite Heq; cbn; auto|].
  destruct (String.eqb_spec (Rotation.Step event) "testSecret") as [Heq|_];
    [exfalso; apply Hstep; rewrite Heq; cbn; auto|].
  destruct (String.eqb_spec (Rotation.Step event) "finishSecret") as [Heq|_];
    [exfalso; apply Hstep; rewrite Heq; cbn; auto|].
  reflexivity.
Qed.

Lemma unknown_step_answers_500_witness :
  Rotation.handle_aws_rotation_event Rotation.placeholders
    {| Rotation.SecretId := "db"; Rotation.ClientRequestToken := "t";
       Rotation.Step := "CreateSecret" |}
    Scenario.env0 Scenario.c0 Scenario.live_handler =
  (inr {| Rotation.statusCode := 500;
          Rotation.body := Rotation.Error "Unknown rotation step: CreateSecret" |},
   tick Scenario.c0, Scenario.live_handler).
Proof.
  apply (unknown_step_answers_500 Rotation.placeholders
           {| Rotation.SecretId := "db"; Rotation.ClientRequestToken := "t";
              Rotation.Step := "CreateSecret" |}
           Scenario.env0 Scenario.c0 Scenario.live_handler).
  cbn. intros [H|[H|[H|[H|[]]]]]; discriminate H.
Defined.

(** X23.  In mock mode the handler never touches the store, and the
    prober and the updater are not consulted: the candidate that the create
    step generates is stored nowhere.  It answers 200 to the create, set
    and test steps.  It answers 200 to the finish step too, unless a
    schedule is registered under the derived name whose interval carries
    the instant of the update, the fourth clock reading of the step, out of
    the range of [datetime]; then the answer is 500 with the text of the
    overflow error. *)
Theorem mock_rotation_never_touches_store hooks event e c h :
  Rotation.mock_mode h = true ->
  In (Rotation.Step event)
     ["createSecret"; "setSecret"; "testSecret"; "finishSecret"] ->
  exists response c' h',
    Rotation.handle_aws_rotation_event hooks event e c h = (inr response, c', h') /\
    Rotation.aws_connector h' = Rotation.aws_connector h /\
    Rotation.handle_aws_rotation_event Rotation.placeholders event e c h =
    Rotation.handle_aws_rotation_event hooks event e c h /\
    match
      if String.eqb (Rotation.Step event) "finishSecret" then
        schedule_overflow h
          (Rotation._extract_secret_name_from_arn (Rotation.SecretId event))
          (clock e (3 + now_calls c))
      else None
    with
    | Some msg =>
        response = {| Rotation.statusCode := 500; Rotation.body := Rotation.Error msg |}
    | None => exists message, response = Rotation.ok message (Rotation.Step event)
    end.
Proof.
  intros Hmock Hstep.
  destruct Hstep as [Hstep|[Hstep|[Hstep|[Hstep|[]]]]]; symmetry in Hstep.
  4:{ rewrite !(finish_secret_run _ event e c h Hstep).
      rewrite update_rotation_schedule_run, Hstep.
      cbn [String.eqb Ascii.eqb Bool.eqb Rotation.rotation_schedules
           Rotation.set_history].
      unfold schedule_overflow.
      destruct (Rotation.rotation_schedules h !! _) as [schedule|];
        cbn [mbind option_bind Nat.add now_calls tick].
      - destruct (DateTime.add_days _ _) as [msg|next];
          eexists _, _, _; (split; [reflexivity|]); cbn; eauto.
      - eexists _, _, _. split; [reflexivity|]. cbn. eauto. }
  all: unfold Rotation.handle_aws_rotation_event, try_except, bind, now;
    rewrite Hstep; cbn [String.eqb Ascii.eqb Bool.eqb].
  - unfold Rotation._handle_create_secret, bind.
    edestruct (@generate_secret_value_run Rotation.RotationEventHandler)
      as (value & c1 & ->).
    unfold gets. rewrite Hmock. eexists _, _, _. cbn. eauto.
  - unfold Rotation._handle_set_secret, bind, gets. rewrite Hmock.
    eexists _, _, _. cbn. eauto.
  - unfold Rotation._handle_test_secret, bind, gets. rewrite Hmock.
    eexists _, _, _. cbn. eauto.
Qed.

(** The finish step on a schedule of 999999999 days: the answer is 500,
    after the success was recorded and the last rotation of the schedule
    set; its next rotation is not. *)
Lemma mock_rotation_never_touches_store_witness :
  exists c' h',
    Rotation.handle_aws_rotation_event Scenario.rejecting Scenario.finish_event
      Scenario.env0 Scenario.c0 Scenario.far_handler =
      (inr {| Rotation.statusCode := 500;
              Rotation.body := Rotation.Error "date value out of range" |}, c', h') /\
    Rotation.aws_connector h' = Rotation.aws_connector Scenario.far_handler /\
    Rotation.handle_aws_rotation_event Rotation.placeholders Scenario.finish_event
      Scenario.env0 Scenario.c0 Scenario.far_handler =
    Rotation.handle_aws_rotation_event Scenario.rejecting Scenario.finish_event
      Scenario.env0 Scenario.c0 Scenario.far_handler /\
    List.map Rotation.rr_status (Rotation.rotation_history h') = [Rotation.SUCCESS] /\
    Rotation.last_rotation <$> (Rotation.rotation_schedules h' !! "db")
      = Some (Some (clock Scenario.env0 3)) /\
    Rotation.next_rotation <$> (Rotation.rotation_schedules h' !! "db") = Some None.
Proof.
  destruct (mock_rotation_never_touches_store Scenario.rejecting Scenario.finish_event
              Scenario.env0 Scenario.c0 Scenario.far_handler)
    as (response & c' & h' & Hrun & Hstore & Hsame & Hanswer).
  - reflexivity.
  - cbn. auto.
  - vm_compute in Hanswer. subst response.
    exists c', h'. do 3 (split; [assumption|]).
    vm_compute in Hrun. injection Hrun as <- <-.
    repeat split; vm_compute; reflexivity.
Defined.

(** Registering a schedule reads the clock once.  When the sum of that
    instant and the interval is not a [datetime] it raises and registers
    nothing; otherwise the schedule it returns is the one it registers. *)
Lemma schedule_rotation_run name n e c h :
  Rotation.schedule_rotation name n e c h =
  match DateTime.add_days (clock e (now_calls c)) n with
  | inl msg => (inl (OverflowError msg), tick c, h)
  | inr next =>
      let schedule :=
        {| Rotation.rs_secret_name := name;
           Rotation.rotation_interval_days := n;
           Rotation.last_rotation := Some (clock e (now_calls c));
           Rotation.next_rotation := Some next;
           Rotation.enabled := true |} in
      (inr schedule, tick c,
       Rotation.set_schedules (<[name := schedule]> (Rotation.rotation_schedules h)) h)
  end.
Proof.
  unfold Rotation.schedule_rotation, bind, now, raise, modify, ret.
  by destruct (DateTime.add_days _ _).
Qed.

(** X24.  The set step does not look at what the updater returns: outside
    mock mode, for a secret the store holds, it answers 200 "Secret set in
    target system" and leaves the handler as it was, also when the updater
    reports that it failed. *)
Theorem set_secret_ignores_updater hooks event e c h :
  Rotation.Step event = "setSecret" ->
  Rotation.mock_mode h = false ->
  is_Some (Aws._mock_secrets (Rotation.aws_connector h)
             !! Rotation._extract_secret_name_from_arn (Rotation.SecretId event)) ->
  Rotation.handle_aws_rotation_event hooks event e c h =
  (inr (Rotation.ok "Secret set in target system" "setSecret"), tick (tick c), h).
Proof.
  intros Hstep Hmode [secret Hheld].
  unfold Rotation.handle_aws_rotation_event, try_except, bind, now.
  rewrite Hstep. cbn [String.eqb Ascii.eqb Bool.eqb].
  unfold Rotation._handle_set_secret, bind.
  unfold gets at 1. rewrite Hmode. cbn [negb].
  rewrite rotation_aws_get_run. cbn [Rotation.secret_name].
  rewrite Hheld. reflexivity.
Qed.

Lemma set_secret_ignores_updater_witness :
  Rotation.handle_aws_rotation_event Scenario.failing_updater
    {| Rotation.SecretId := "db"; Rotation.ClientRequestToken := "token-12345";
       Rotation.Step := "setSecret" |}
    Scenario.env0 Scenario.c0 Scenario.live_handler =
  (inr (Rotation.ok "Secret set in target system" "setSecret"),
   tick (tick Scenario.c0), Scenario.live_handler).
Proof.
  apply (set_secret_ignores_updater Scenario.failing_updater
           {| Rotation.SecretId := "db"; Rotation.ClientRequestToken := "token-12345";
              Rotation.Step := "setSecret" |}
           Scenario.env0 Scenario.c0 Scenario.live_handler).
  - reflexivity.
  - reflexivity.
  - vm_compute. eauto.
Defined.

(** Characters of a text, and the character found at an index. *)
Lemma get_in_text i text ch :
  String.get i text = Some ch -> In ch (list_ascii_of_string text).
Proof.
  revert i. induction text as [|a text IH]; intros i; [discriminate|].
  destruct i as [|i]; cbn.
  - intros [= ->]. by left.
  - intros Hget. right. by apply (IH i).
Qed.

Lemma get_below_length i text :
  (i < String.length text)%nat -> is_Some (String.get i text).
Proof.
  revert i. induction text as [|a text IH]; intros i; cbn; [lia|].
  destruct i as [|i]; [eauto|]. intros Hlt. apply IH. lia.
Qed.

Lemma random_password_shape {St} n e c (st : St) :
  exists password,
    Rotation.random_password n e c st =
      (inr password,
       {| now_calls := now_calls c; rng_calls := (rng_calls c + n)%nat |}, st) /\
    String.length password = n /\
    Forall (fun ch => In ch (list_ascii_of_string Rotation.alphabet))
      (list_ascii_of_string password).
Proof.
  revert c. induction n as [|n IH]; intros c; cbn [Rotation.random_password].
  - exists EmptyString. unfold ret. rewrite Nat.add_0_r. by destruct c.
  - unfold bind, Rotation.choice, randbelow, ret.
    cbn -[Rotation.alphabet String.get String.length Nat.modulo].
    destruct (IH {| now_calls := now_calls c; rng_calls := S (rng_calls c) |})
      as (password & Hrun & Hlen & Hall).
    cbn [now_calls rng_calls] in Hrun.
    rewrite Hrun. eexists. split.
    { do 2 f_equal. f_equal. lia. }
    split; [cbn; by rewrite Hlen|].
    cbn [list_ascii_of_string]. constructor; [|exact Hall].
    set (i := (random e (rng_calls c) mod String.length Rotation.alphabet)%nat).
    destruct (get_below_length i Rotation.alphabet) as [ch Hch].
    { subst i. apply Nat.mod_upper_bound. discriminate. }
    rewrite Hch. by apply (get_in_text i).
Qed.

(** X25.  The candidate the create step generates has the user name
    [<name>_user] and a password of exactly 32 characters, each of them
    from the 70-character alphabet of letters, digits and [!@#$%^&*]; it
    takes exactly 32 values from the random source and no clock reading. *)
Theorem generated_secret_shape {St} name e c (st : St) :
  exists password,
    Rotation._generate_secret_value name e c st =
      (inr [("username", Py.PStr (name +:+ "_user"));
            ("password", Py.PStr password);
            ("engine", Py.PStr "postgresql");
            ("host", Py.PStr "localhost");
            ("port", Py.PInt 5432)],
       {| now_calls := now_calls c; rng_calls := (rng_calls c + 32)%nat |}, st) /\
    String.length password = 32%nat /\
    Forall (fun ch => In ch (list_ascii_of_string Rotation.alphabet))
      (list_ascii_of_string password).
Proof.
  unfold Rotation._generate_secret_value, bind, ret.
  destruct (random_password_shape 32 e c st) as (password & -> & Hlen & Hall).
  by exists password.
Qed.

(** Texts cut at a separator. *)
Lemma prefix_of_one_char (ch x : ascii) (rest : string) :
  String.prefix (String ch EmptyString) (String x rest)
    = bool_decide (ch = x).
Proof.
  cbn. destruct (ascii_dec ch x) as [->|Hne].
  - rewrite bool_decide_eq_true_2 by reflexivity. by destruct rest.
  - by rewrite bool_decide_eq_false_2.
Qed.

Lemma before_first_char_absent (ch : ascii) (text : string) :
  Py.contains (String ch EmptyString)
    (Py.before_first (String ch EmptyString) text) = false.
Proof.
  induction text as [|x rest IH]; [reflexivity|].
  cbn [Py.before_first]. rewrite prefix_of_one_char.
  case_bool_decide as Hx; [reflexivity|].
  cbn [Py.contains]. rewrite prefix_of_one_char, IH.
  by rewrite bool_decide_eq_false_2.
Qed.

Lemma after_first_none (sep text : string) :
  sep <> EmptyString ->
  Py.contains sep text = false -> Py.after_first sep text = None.
Proof.
  intros Hsep. induction text as [|x rest IH]; [reflexivity|].
  cbn [Py.contains Py.after_first].
  destruct (String.prefix sep (String x rest)); [discriminate|]. exact IH.
Qed.

Lemma after_first_some (sep text : string) :
  Py.contains sep text = true -> sep <> EmptyString ->
  is_Some (Py.after_first sep text).
Proof.
  intros Hin Hsep. induction text as [|x rest IH].
  - destruct sep; [done | discriminate].
  - cbn [Py.contains Py.after_first] in *.
    destruct (String.prefix sep (String x rest)); [eauto | by apply IH].
Qed.

(** X26.  A secret identifier that does not contain [:secret:] is taken as
    the secret name unchanged.  One that does is cut: the name the handler
    derives never contains a hyphen, so the schedule and the history of a
    secret whose name has a hyphen are looked up under a shorter name. *)
Theorem extracted_name_has_no_hyphen arn :
  (Py.contains ":secret:" arn = false ->
   Rotation._extract_secret_name_from_arn arn = arn) /\
  (Py.contains ":secret:" arn = true ->
   Py.contains "-" (Rotation._extract_secret_name_from_arn arn) = false).
Proof.
  unfold Rotation._extract_secret_name_from_arn. split; intros Hin.
  - by rewrite after_first_none.
  - destruct (after_first_some ":secret:" arn Hin) as [rest ->]; [discriminate|].
    apply before_first_char_absent.
Qed.

Lemma extracted_name_has_no_hyphen_witness :
  Rotation._extract_secret_name_from_arn "database-credentials"
    = "database-credentials" /\
  Py.contains "-"
    (Rotation._extract_secret_name_from_arn
       "arn:aws:secretsmanager:us-east-1:123456789012:secret:database-credentials-AbCdEf")
    = false.
Proof.
  split.
  - apply (proj1 (extracted_name_has_no_hyphen "database-credentials")).
    reflexivity.
  - apply (proj2 (extracted_name_has_no_hyphen
       "arn:aws:secretsmanager:us-east-1:123456789012:secret:database-credentials-AbCdEf")).
    reflexivity.
Defined.

(** What pushing a direct rotation to AWS may change: the store only.  It
    never raises. *)
Lemma sync_rotation_to_aws_records client name e c h :
  exists c' h',
    Rotation._sync_rotation_to_aws client name e c h = (inr tt, c', h') /\
    same_records h h'.
Proof.
  unfold Rotation._sync_rotation_to_aws, try_except.
  destruct client as [client|]; [|by eexists _, _].
  destruct (Rotation.vault_read client _) as [x|[data|]];
    [by eexists _, _ | | by eexists _, _].
  unfold bind, Rotation.dict_item, now, ret, raise.
  destruct (Py.dict_get "username" data); [|by eexists _, _].
  destruct (Py.dict_get "password" data); [|by eexists _, _].
  unfold Rotation.aws, zoom, Aws.update_secret, Aws._mock_update_secret,
    bind, gets, modify, now, ret, raise.
  destruct (Aws._mock_secrets (Rotation.aws_connector h) !! name);
    eexists _, _; (split; [reflexivity|]);
    first [apply same_records_set_aws | by repeat split].
Qed.

(** X27.  A direct rotation never raises and appends exactly one result for
    the database to the history.  The result is FAILED exactly when the
    handler is outside mock mode, has a Vault client, and the rotate-root
    write raised; then it carries the error text and no duration, and the
    store is untouched.  Otherwise it is SUCCESS, also when pushing the new
    credentials to AWS failed.  In no case is a schedule changed. *)
Theorem direct_rotation_records_one_result client name notify_aws e c h :
  exists result c' h',
    Rotation.rotate_vault_secret client name notify_aws e c h
      = (inr result, c', h') /\
    Rotation.rotation_history h' = (Rotation.rotation_history h ++ [result])%list /\
    Rotation.rotation_schedules h' = Rotation.rotation_schedules h /\
    Rotation.rr_secret_name result = name /\
    Rotation.last_status h' name
      = Some (Rotation.status_value (Rotation.rr_status result)) /\
    match client with
    | Some vault =>
        match Rotation.vault_write vault ("database/rotate-root/" +:+ name) with
        | Some x =>
            if Rotation.mock_mode h
            then Rotation.rr_status result = Rotation.SUCCESS
            else Rotation.rr_status result = Rotation.FAILED /\
                 Rotation.error result = Some (exn_str x) /\
                 Rotation.duration_seconds result = None /\
                 Rotation.aws_connector h' = Rotation.aws_connector h
        | None => Rotation.rr_status result = Rotation.SUCCESS
        end
    | None =>
        Rotation.rr_status result = Rotation.SUCCESS /\
        Rotation.aws_connector h' = Rotation.aws_connector h
    end.
Proof.
  unfold Rotation.rotate_vault_secret, try_except, bind, now.
  unfold gets at 1.
  assert (Hdone : forall c0 h0 (result : Rotation.RotationResult),
            same_records h h0 ->
            Rotation.rr_secret_name result = name ->
            Rotation.rotation_history (Rotation.set_history
              (Rotation.rotation_history h0 ++ [result]) h0)
              = (Rotation.rotation_history h ++ [result])%list /\
            Rotation.rotation_schedules (Rotation.set_history
              (Rotation.rotation_history h0 ++ [result]) h0)
              = Rotation.rotation_schedules h /\
            Rotation.rr_secret_name result = name /\
            Rotation.last_status (Rotation.set_history
              (Rotation.rotation_history h0 ++ [result]) h0) name
              = Some (Rotation.status_value (Rotation.rr_status result))).
  { intros c0 h0 result (Hh & Hs & _) Hname. cbn. rewrite Hh, Hs.
    repeat split; [exact Hname|].
    rewrite <- Hname. by apply (last_status_snoc h). }
  assert (Hclose : forall h0 (result : Rotation.RotationResult) (P : Prop),
            same_records h h0 ->
            Rotation.rr_secret_name result = name ->
            P ->
            Rotation.rotation_history (Rotation.set_history
              (Rotation.rotation_history h0 ++ [result]) h0)
              = (Rotation.rotation_history h ++ [result])%list /\
            Rotation.rotation_schedules (Rotation.set_history
              (Rotation.rotation_history h0 ++ [result]) h0)
              = Rotation.rotation_schedules h /\
            Rotation.rr_secret_name result = name /\
            Rotation.last_status (Rotation.set_history
              (Rotation.rotation_history h0 ++ [result]) h0) name
              = Some (Rotation.status_value (Rotation.rr_status result)) /\
            P).
  { intros h0 result P Hrec Hname HP.
    destruct (Hdone c h0 result Hrec Hname) as (H1 & H2 & H3 & H4). auto. }
  destruct client as [vault|].
  - destruct (Rotation.mock_mode h) eqn:Hmode; cbn [negb].
    + unfold Rotation.append_result, modify, ret.
      eexists _, _, _. split; [reflexivity|].
      apply Hclose; [apply same_records_refl | reflexivity |].
      by destruct (Rotation.vault_write vault _).
    + destruct (Rotation.vault_write vault _) as [x|]; unfold raise, ret.
      * unfold Rotation.append_result, bind, modify, now, ret.
        eexists _, _, _. split; [reflexivity|].
        apply Hclose; [apply same_records_refl | reflexivity |]. by repeat split.
      * destruct notify_aws.
        -- destruct (sync_rotation_to_aws_records (Some vault) name e (tick c) h)
             as (c1 & h1 & Hsync & Hrec).
           fold (tick c). rewrite Hsync.
           unfold Rotation.append_result, modify, ret.
           eexists _, _, _. split; [reflexivity|].
           apply Hclose; [exact Hrec | reflexivity | reflexivity].
        -- unfold Rotation.append_result, modify, ret.
           eexists _, _, _. split; [reflexivity|].
           apply Hclose; [apply same_records_refl | reflexivity | reflexivity].
  - unfold Rotation.append_result, modify, ret.
    eexists _, _, _. split; [reflexivity|].
    apply Hclose; [apply same_records_refl | reflexivity |]. by split.
Qed.

(** The status report of a secret right after a result for it has been
    appended to the history. *)
Lemma report_after_append h h' (result : Rotation.RotationResult) :
  Rotation.rotation_history h' = (Rotation.rotation_history h ++ [result])%list ->
  let report := Rotation.get_rotation_status h' (Rotation.rr_secret_name result) in
  Rotation.rp_last_status report
    = Some (Rotation.status_value (Rotation.rr_status result)) /\
  Rotation.rp_last_rotation report = Rotation.end_time result /\
  (1 <= Rotation.rotation_count report <= 5)%nat /\
  (Rotation.success_count report <= Rotation.rotation_count report)%nat /\
  (Rotation.is_success (Rotation.rr_status result) = false ->
   (Rotation.success_count report < Rotation.rotation_count report)%nat).
Proof.
  intros Hhist.
  unfold Rotation.get_rotation_status.
  cbn [Rotation.rp_last_status Rotation.rp_last_rotation Rotation.rotation_count
       Rotation.success_count].
  split; [exact (last_status_snoc h h' result Hhist)|].
  unfold Rotation.recent_rotations.
  rewrite Hhist, filter_app, filter_cons_True, filter_nil by reflexivity.
  set (older := filter _ (Rotation.rotation_history h)).
  rewrite last_five_snoc. split; [reflexivity|].
  assert (Hshape : exists kept, Rotation.last_five (older ++ [result])
                                = (kept ++ [result])%list /\ (length kept <= 4)%nat).
  { unfold Rotation.last_five. rewrite length_app. cbn [length].
    change (@skipn Rotation.RotationResult) with (@drop Rotation.RotationResult).
    rewrite drop_app.
    replace (length older + 1 - 5 - length older)%nat with 0%nat by lia.
    cbn [drop]. eexists. split; [reflexivity|]. rewrite length_drop. lia. }
  destruct Hshape as (kept & -> & Hkept).
  rewrite length_app, List.filter_app, length_app. cbn [length List.filter].
  pose proof (List.filter_length_le
                (fun r => Rotation.is_success (Rotation.rr_status r)) kept).
  destruct (Rotation.is_success (Rotation.rr_status result)); cbn [length];
    repeat split; first [lia | discriminate].
Qed.

(** X28.  A rollback always reports ROLLED_BACK, appends that one result to
    the history and ignores the target version.  It restores nothing: the
    store and the schedules are as before.  The status report of the secret
    afterwards gives "rolled_back" as the last status, the end time of the
    rollback as the last rotation, and counts between one and five recent
    rotations, not all of them successes. *)
Theorem rollback_restores_nothing name target_version e c h :
  exists result h',
    Rotation.rollback_rotation name target_version e c h
      = (inr result, tick (tick c), h') /\
    Rotation.rollback_rotation name None e c h
      = (inr result, tick (tick c), h') /\
    Rotation.rr_status result = Rotation.ROLLED_BACK /\
    Rotation.rotation_history h' = (Rotation.rotation_history h ++ [result])%list /\
    Rotation.aws_connector h' = Rotation.aws_connector h /\
    Rotation.rotation_schedules h' = Rotation.rotation_schedules h /\
    let report := Rotation.get_rotation_status h' name in
    Rotation.rp_last_status report = Some "rolled_back" /\
    Rotation.rp_last_rotation report = Some (clock e (S (now_calls c))) /\
    (1 <= Rotation.rotation_count report <= 5)%nat /\
    (Rotation.success_count report < Rotation.rotation_count report)%nat.
Proof.
  unfold Rotation.rollback_rotation, Rotation.append_result, bind, now, modify, ret.
  eexists _, _. split; [reflexivity|]. split; [reflexivity|].
  do 4 (split; [reflexivity|]).
  match goal with
  | |- context [Rotation.set_history (_ ++ [?r])%list h] =>
      pose proof (report_after_append h
                    (Rotation.set_history (Rotation.rotation_history h ++ [r]) h)
                    r eq_refl) as (Hstatus & Hlast & Hcount & _ & Hfewer)
  end.
  cbn [Rotation.rr_secret_name Rotation.rr_status Rotation.end_time
       Rotation.status_value now_calls] in Hstatus, Hlast, Hcount, Hfewer.
  cbn beta zeta.
  split; [exact Hstatus|]. split; [exact Hlast|]. split; [exact Hcount|].
  exact (Hfewer eq_refl).
Qed.


End RotationFacts.

(** ** More on the migration helpers *)

Section MigrationFacts.

Lemma lower_char_idempotent (a : ascii) :
  Py.lower_char (Py.lower_char a) = Py.lower_char a.
Proof. destruct a as [[] [] [] [] [] [] [] []]; reflexivity. Qed.

Lemma lower_idempotent (text : string) : Py.lower (Py.lower text) = Py.lower text.
Proof.
  induction text as [|a rest IH]; [reflexivity|].
  cbn. by rewrite lower_char_idempotent, IH.
Qed.

Lemma path_template_in_table rules path template :
  Migration.path_template rules path = Some template ->
  In template (List.map snd rules).
Proof.
  induction rules as [|[pattern t] rest IH]; [discriminate|].
  cbn. destruct (Py.contains pattern path).
  - intros [= <-]. by left.
  - intros Hrest. right. by apply IH.
Qed.

(** X29.  The recommended template is always one of 1 to 5.  It depends on
    the path and on the field names only up to letter case, and when the
    path matches a pattern the fields play no part. *)
Theorem recommend_template_facts (vault_path : string) (data : Py.PyDict) :
  In (Migration.recommend_template vault_path data) [1; 2; 3; 4; 5] /\
  Migration.recommend_template (Py.lower vault_path) data
    = Migration.recommend_template vault_path data /\
  Migration.recommend_template vault_path
      (List.map (fun item => (Py.lower (fst item), snd item)) data)
    = Migration.recommend_template vault_path data /\
  (forall data',
     is_Some (Migration.path_template Migration.TEMPLATE_RECOMMENDATIONS
                (Py.lower vault_path)) ->
     Migration.recommend_template vault_path data'
       = Migration.recommend_template vault_path data).
Proof.
  unfold Migration.recommend_template. rewrite lower_idempotent.
  split; [|split; [reflexivity|split]].
  - destruct (Migration.path_template _ _) as [template|] eqn:Hpath.
    + apply path_template_in_table in Hpath. cbn in Hpath.
      repeat (destruct Hpath as [<-|Hpath];
              [cbn; repeat (first [left; reflexivity | right])|]).
      destruct Hpath.
    + repeat case_match; cbn; repeat (first [left; reflexivity | right]).
  - rewrite List.map_map. cbn [fst].
    erewrite (List.map_ext (fun item => Py.lower (Py.lower (fst item))));
      [reflexivity|].
    intros item. apply lower_idempotent.
  - intros data' [template ->]. reflexivity.
Qed.

Lemma recommend_template_facts_witness :
  Migration.recommend_template "secret/Databases/prod-db-admin"
      [("api_key", Py.PStr "k")]
    = Migration.recommend_template "secret/Databases/prod-db-admin" [].
Proof.
  apply (proj2 (proj2 (proj2 (recommend_template_facts
           "secret/Databases/prod-db-admin" [])))).
  vm_compute. eauto.
Defined.

Lemma dict_get_set_same {V} (k : string) (v : V) (d : list (string * V)) :
  Py.dict_get k (Py.dict_set k v d) = Some v.
Proof.
  induction d as [|[k' v'] rest IH]; cbn.
  - by rewrite String.eqb_refl.
  - destruct (String.eqb k' k) eqn:Heq; cbn; rewrite Heq; [reflexivity | exact IH].
Qed.

Lemma dict_get_set_other {V} (k k' : string) (v : V) (d : list (string * V)) :
  k' <> k -> Py.dict_get k (Py.dict_set k' v d) = Py.dict_get k d.
Proof.
  intros Hne. induction d as [|[k0 v0] rest IH]; cbn.
  - destruct (String.eqb_spec k' k); [done | reflexivity].
  - destruct (String.eqb_spec k0 k') as [->|Hk0]; cbn.
    + destruct (String.eqb_spec k' k); [done | reflexivity].
    + destruct (String.eqb k0 k); [reflexivity | exact IH].
Qed.

(** Items written under other destinations leave an entry alone. *)
Lemma later_items_keep_entry rules dest (items : Py.PyDict) mapped :
  Forall (fun item =>
            Migration.destination (Migration.resolve rules (fst item)) <> dest)
    items ->
  Py.dict_get dest
    (fold_left
       (fun m item =>
          Py.dict_set (Migration.destination (Migration.resolve rules (fst item)))
            (Py.str (snd item)) m)
       items mapped)
  = Py.dict_get dest mapped.
Proof.
  intros Hother. revert mapped.
  induction Hother as [|item rest Hne _ IH]; intros mapped; [reflexivity|].
  cbn [fold_left]. rewrite IH. by apply dict_get_set_other.
Qed.

(** X30.  When several keys of a payload resolve to the same destination
    field, the value kept is that of the last of them in the iteration
    order of the payload: a key after which no other key resolves to its
    destination supplies the value of that field.  (Rule patterns in lower
    case, as the defaults are.) *)
Theorem last_colliding_key_wins (self : Migration.VaultToDelineaMigrator)
    (before : Py.PyDict) (key : string) (value : Py.PyVal) (after : Py.PyDict)
    (template_id : Z) :
  Migration.lowercase_patterns (Migration.field_mappings self) ->
  let rules := Migration.field_mappings self in
  let dest := Migration.destination (Migration.resolve rules key) in
  Forall (fun item =>
            Migration.destination (Migration.resolve rules (fst item)) <> dest)
    after ->
  Py.dict_get dest
    (fst (Migration.map_fields self (before ++ (key, value) :: after)%list
            template_id))
  = Some (Py.str value).
Proof.
  intros Hlow rules dest Hafter. unfold Migration.map_fields.
  rewrite (map_fields_from self Hlow). cbn [fst].
  rewrite fold_left_app. cbn [fold_left fst snd].
  rewrite (later_items_keep_entry rules dest after _ Hafter).
  apply dict_get_set_same.
Qed.

Lemma last_colliding_key_wins_witness :
  Py.dict_get "Password"
    (fst (Migration.map_fields (Migration.new_migrator None true)
            ([("password", Py.PStr "first")]
             ++ ("db_password", Py.PStr "second") :: [("host", Py.PStr "h")])%list
            3))
  = Some "second".
Proof.
  apply (last_colliding_key_wins (Migration.new_migrator None true)
           [("password", Py.PStr "first")] "db_password" (Py.PStr "second")
           [("host", Py.PStr "h")] 3 default_patterns_lower).
  repeat constructor. vm_compute. discriminate.
Defined.

End MigrationFacts.
